(** * aidoc-server: the validation / authorization / update-merge pipeline

    A shallow embedding of the request pipeline of the patient-record
    backend: HTTP handlers call services, services validate, look up the
    owner, authorize and delegate to repositories, repositories call the
    generated query layer.

    Conventions of the embedding:
    - Go's [int] is modelled by [Z]; no arithmetic of the modelled code
      leaves the 64-bit range for calendar years and row ids, and the
      conversions to [int32] of the repository layer are written out.
    - A Go function returning [(T, error)] returns [result T]; a function
      returning only [error] returns [option error].
    - Calls that reach the outside world (database, identity provider,
      clock, validator) are computations in a state monad over the world.
    - A [time.Time] is the civil date and time it shows in its own
      location, together with that location. *)

From stdpp Require Import base strings list.
From Stdlib Require Import ZArith Ascii DecimalString Lia.
Open Scope Z_scope.

(** ** The state monad of the outside world *)

Definition State (W A : Type) : Type := W → A * W.

#[global] Instance State_ret {W} : MRet (State W) := λ A a w, (a, w).
#[global] Instance State_bind {W} : MBind (State W) :=
  λ A B f m w, let '(a, w') := m w in f a w'.

(** ** Go standard library: the parts the code relies on *)

(** [fmt.Sprint] of an [int]. *)
Definition Itoa (n : Z) : string := NilZero.string_of_int (Z.to_int n).

Definition maxInt64 : Z := 2 ^ 63 - 1.
Definition minInt64 : Z := - 2 ^ 63.

(** [strconv.Atoi]: an optional sign followed by decimal digits, within
    the range of [int]. *)
Definition Atoi (s : string) : option Z :=
  n ← (match s with
       | String "+"%char rest =>
           Z.of_uint <$> NilZero.uint_of_string rest
       | _ => Z.of_int <$> NilZero.int_of_string s
       end);
  if bool_decide (minInt64 ≤ n ≤ maxInt64) then Some n else None.

(** [int32(n)] on an [int]: the low 32 bits, read as a signed number. *)
Definition int32 (n : Z) : Z := (n + 2 ^ 31) `mod` 2 ^ 32 - 2 ^ 31.

(** [strings.Contains]. *)
Fixpoint Contains (s substr : string) : bool :=
  String.prefix substr s ||
  match s with
  | EmptyString => false
  | String _ rest => Contains rest substr
  end.

(** [strings.Join]. *)
Fixpoint Join (elems : list string) (sep : string) : string :=
  match elems with
  | [] => ""
  | [e] => e
  | e :: rest => e +:+ sep +:+ Join rest sep
  end.

(** *** [time.Time]

    A [Time] is an instant with a location. It is kept here as the date
    and the time of day the instant shows in that location, which is
    what [Year] and [YearDay] read, and the location: [None] for UTC,
    which Go stores as the nil [*Location], and [Some offset] for any
    other location (a fixed zone of a parsed time, [time.Local]) with
    its offset east of UTC in seconds at this instant. *)

Record Time := mkTime {
  tYear : Z; tMonth : Z; tDay : Z;
  tNanos : Z;  (* nanoseconds since midnight *)
  tLoc : option Z
}.

#[global] Instance Time_eq_dec : EqDecision Time.
Proof. solve_decision. Defined.

(** The zero value [time.Time{}]: January 1, year 1, 00:00:00 UTC. *)
Definition zeroTime : Time := mkTime 1 1 1 0 None.

Definition Year (t : Time) : Z := tYear t.

Definition isLeap (y : Z) : bool :=
  (y `mod` 4 =? 0) && (negb (y `mod` 100 =? 0) || (y `mod` 400 =? 0)).

(** Days of the year that precede the first day of month [m]. *)
Definition daysBefore (m : Z) : Z :=
  match m with
  | 1 => 0 | 2 => 31 | 3 => 59 | 4 => 90 | 5 => 120 | 6 => 151
  | 7 => 181 | 8 => 212 | 9 => 243 | 10 => 273 | 11 => 304 | _ => 334
  end.

(** [Time.YearDay]: 1..365, or 1..366 in leap years. *)
Definition YearDay (t : Time) : Z :=
  daysBefore (tMonth t) + tDay t +
  (if isLeap (tYear t) && (2 <? tMonth t) then 1 else 0).

(** The instant: nanoseconds since January 1, year 1, 00:00:00 UTC. *)
Definition daysBeforeYear (y : Z) : Z :=
  365 * (y - 1) + (y - 1) `div` 4 - (y - 1) `div` 100 + (y - 1) `div` 400.

Definition offset (t : Time) : Z := default 0 (tLoc t).

Definition instant (t : Time) : Z :=
  ((daysBeforeYear (tYear t) + YearDay t - 1) * 86400 - offset t)
  * 1000000000 + tNanos t.

(** [Time.IsZero]: the instant is January 1, year 1, 00:00:00 UTC,
    whatever the location. *)
Definition IsZero (t : Time) : bool := instant t =? 0.

(** [Time.Before]. *)
Definition Before (t u : Time) : bool := instant t <? instant u.

(** [time.Date(y, m, d, 0, 0, 0, 0, time.UTC)]. *)
Definition Date (y m d : Z) : Time := mkTime y m d 0 None.

(** ** domain/errors.go *)

Inductive error :=
  (* the sentinel errors of the domain package *)
  | ErrPatientNotFound
  | ErrInvalidPatientData
  | ErrDatabaseConnection
  | ErrFailedToCreatePatient
  | ErrMedicalHistoryEntryNotFound
  | ErrInvalidMedicalHistoryData
  | ErrInvalidInput
  | ErrLifestyleEntryNotFound
  | ErrForbidden
  (* [*domain.ValidationError] *)
  | ValidationError (Code Message : string) (Details : list string)
  (* [fmt.Errorf("<prefix>: %w", err)] *)
  | Wrapped (prefix : string) (err : error)
  (* errors of the libraries below the repositories *)
  | ErrNoRows                       (* [sql.ErrNoRows] *)
  | PgError (Code : string)         (* [*pgconn.PgError] *)
  | OtherError (msg : string).      (* any other error value *)

#[global] Instance error_eq_dec : EqDecision error.
Proof. solve_decision. Defined.

(** [errors.Is]: walks the chain of wrapped errors. *)
Fixpoint Is (err target : error) : bool :=
  bool_decide (err = target) ||
  match err with
  | Wrapped _ inner => Is inner target
  | _ => false
  end.

(** The [Error()] method. *)
Fixpoint Error (e : error) : string :=
  match e with
  | ErrPatientNotFound => "patient not found"
  | ErrInvalidPatientData => "invalid patient data"
  | ErrDatabaseConnection => "database connection error"
  | ErrFailedToCreatePatient => "failed to create patient"
  | ErrMedicalHistoryEntryNotFound => "medical history entry not found"
  | ErrInvalidMedicalHistoryData => "invalid medical history data"
  | ErrInvalidInput => "invalid input"
  | ErrLifestyleEntryNotFound => "lifestyle entry not found"
  | ErrForbidden => "forbidden"
  | ValidationError code message details =>
      match details with
      | [] => code +:+ ": " +:+ message
      | _ => code +:+ ": " +:+ message +:+ " - [" +:+ Join details " " +:+ "]"
      end
  | Wrapped prefix inner => prefix +:+ ": " +:+ Error inner
  | ErrNoRows => "sql: no rows in result set"
  | PgError code => "SQLSTATE " +:+ code
  | OtherError msg => msg
  end.

Inductive result (A : Type) :=
  | Ok (a : A)
  | Err (e : error).
Arguments Ok {A} a.
Arguments Err {A} e.

(** ** domain/patient.go, domain/medical_history.go, domain/lifestyle.go *)

Module Patient.
Record t := mk {
  PatientID : Z;
  UserID : Z;
  FullName : string;
  Age : Z;
  DateOfBirth : Time;
  Sex : string;
  PhoneNumber : string;
  EmailAddress : string;
  PreferredCommunication : string;
  SocioeconomicStatus : string;
  GeographicLocation : string;
  CreatedAt : Time;
  UpdatedAt : Time
}.
End Patient.

Module CreatePatientRequest.
Record t := mk {
  UserID : Z;
  FullName : string;
  Age : Z;
  DateOfBirth : Time;
  Sex : string;
  PhoneNumber : string;
  EmailAddress : string;
  PreferredCommunication : string;
  SocioeconomicStatus : string;
  GeographicLocation : string
}.
End CreatePatientRequest.

Module UpdatePatientRequest.
Record t := mk {
  FullName : string;
  Age : Z;
  DateOfBirth : Time;
  Sex : string;
  PhoneNumber : string;
  EmailAddress : string;
  PreferredCommunication : string;
  SocioeconomicStatus : string;
  GeographicLocation : string
}.

(** The request with every field at its zero value, [{}]. *)
Definition zero : t := mk "" 0 zeroTime "" "" "" "" "" "".
End UpdatePatientRequest.

Module MedicalHistoryEntry.
Record t := mk {
  PatientMedicalHistoryID : Z;
  PatientID : Z;
  Condition : string;
  DiagnosisDate : Time;
  Status : string;
  Details : string;
  CreatedAt : Time;
  UpdatedAt : Time
}.
End MedicalHistoryEntry.

Module CreateMedicalHistoryRequest.
Record t := mk {
  Condition : string;
  DiagnosisDate : Time;
  Status : string;
  Details : string
}.
End CreateMedicalHistoryRequest.

Module UpdateMedicalHistoryRequest.
Record t := mk {
  Condition : string;
  DiagnosisDate : Time;
  Status : string;
  Details : string
}.

Definition zero : t := mk "" zeroTime "" "".
End UpdateMedicalHistoryRequest.

Module LifestyleEntry.
Record t := mk {
  PatientLifestyleID : Z;
  PatientID : Z;
  LifestyleFactor : string;
  Value : string;
  StartDate : Time;
  EndDate : Time;
  CreatedAt : Time;
  UpdatedAt : Time
}.
End LifestyleEntry.

Module CreateLifestyleRequest.
Record t := mk {
  LifestyleFactor : string;
  Value : string;
  StartDate : Time;
  EndDate : Time
}.
End CreateLifestyleRequest.

Module UpdateLifestyleRequest.
Record t := mk {
  LifestyleFactor : string;
  Value : string;
  StartDate : Time;
  EndDate : Time
}.

Definition zero : t := mk "" "" zeroTime zeroTime.
End UpdateLifestyleRequest.

(** ** The injected collaborators *)

(** *** go-playground/validator

    [Validate.Struct] takes any request struct; it returns [nil] when
    every rule passes and otherwise the list of the failing rules, one
    [FieldError] per failing field. *)

Inductive Request :=
  | ReqCreatePatient (r : CreatePatientRequest.t)
  | ReqUpdatePatient (r : UpdatePatientRequest.t)
  | ReqCreateMedicalHistory (r : CreateMedicalHistoryRequest.t)
  | ReqUpdateMedicalHistory (r : UpdateMedicalHistoryRequest.t)
  | ReqCreateLifestyle (r : CreateLifestyleRequest.t)
  | ReqUpdateLifestyle (r : UpdateLifestyleRequest.t).

Record FieldError := mkFieldError { Field : string; Tag : string }.

Record Validate (W : Type) := {
  Struct : Request → State W (list FieldError)
}.
Arguments Struct {W} _ _.

(** *** The ambient clock, [time.Now] *)

Class Clock (W : Type) := Now : State W Time.

(** *** core/ports: the repository interfaces *)

Module ports.
Record PatientRepository (W : Type) := {
  CreatePatient : Patient.t → State W (result Patient.t);
  GetPatient : Z → State W (result Patient.t);
  UpdatePatient : Z → Patient.t → State W (result Patient.t)
}.
Arguments CreatePatient {W} _ _.
Arguments GetPatient {W} _ _.
Arguments UpdatePatient {W} _ _ _.

Record MedicalHistoryRepository (W : Type) := {
  CreateMedicalHistoryEntry :
    MedicalHistoryEntry.t → State W (result MedicalHistoryEntry.t);
  GetMedicalHistoryEntries : Z → State W (result (list MedicalHistoryEntry.t));
  GetMedicalHistoryEntry : Z → State W (result MedicalHistoryEntry.t);
  UpdateMedicalHistoryEntry :
    Z → MedicalHistoryEntry.t → State W (result MedicalHistoryEntry.t);
  DeleteMedicalHistoryEntry : Z → State W (option error)
}.
Arguments CreateMedicalHistoryEntry {W} _ _.
Arguments GetMedicalHistoryEntries {W} _ _.
Arguments GetMedicalHistoryEntry {W} _ _.
Arguments UpdateMedicalHistoryEntry {W} _ _ _.
Arguments DeleteMedicalHistoryEntry {W} _ _.

Record LifestyleRepository (W : Type) := {
  CreateLifestyleEntry : LifestyleEntry.t → State W (result LifestyleEntry.t);
  GetLifestyleEntries : Z → State W (result (list LifestyleEntry.t));
  GetLifestyleEntry : Z → State W (result LifestyleEntry.t);
  UpdateLifestyleEntry :
    Z → LifestyleEntry.t → State W (result LifestyleEntry.t);
  DeleteLifestyleEntry : Z → State W (option error)
}.
Arguments CreateLifestyleEntry {W} _ _.
Arguments GetLifestyleEntries {W} _ _.
Arguments GetLifestyleEntry {W} _ _.
Arguments UpdateLifestyleEntry {W} _ _ _.
Arguments DeleteLifestyleEntry {W} _ _.
End ports.

(** ** core/service *)

(** The detail strings built from the validator's errors:
    [fmt.Sprintf("Field %s failed validation for tag %s", ...)],
    one per failing rule, in the validator's order. *)
Definition errorDetail (fe : FieldError) : string :=
  "Field " +:+ Field fe +:+ " failed validation for tag " +:+ Tag fe.

Definition errorDetails (errs : list FieldError) : list string :=
  errorDetail <$> errs.

(** The age computed from a date of birth: the difference of the years,
    one less when today's day of the year precedes the birthday's. *)
Definition expectedAge (now dateOfBirth : Time) : Z :=
  let expectedAge := Year now - Year dateOfBirth in
  if YearDay now <? YearDay dateOfBirth then expectedAge - 1
  else expectedAge.

Module PatientService.
Record t (W : Type) := {
  patientRepo : ports.PatientRepository W;
  validate : Validate W
}.
Arguments patientRepo {W} _.
Arguments validate {W} _.

Section methods.
Context {W : Type} `{!Clock W}.

(** The consistency check shared by [CreatePatient] and
    [UpdatePatient]: made only when both fields are supplied, and
    then [true] when the computed age differs from the supplied. *)
Definition inconsistent (age : Z) (dateOfBirth : Time) : State W bool :=
  if bool_decide (age ≠ 0) && negb (IsZero dateOfBirth) then
    now ← Now;
    mret (bool_decide (expectedAge now dateOfBirth ≠ age))
  else mret false.

Definition CreatePatient (s : t W) (req : CreatePatientRequest.t)
  : State W (result Patient.t) :=
  validationErrors ← Struct (validate s) (ReqCreatePatient req);
  match validationErrors with
  | _ :: _ =>
      mret (Err (ValidationError "INVALID_PATIENT_DATA"
                   "Validation errors occurred"
                   (errorDetails validationErrors)))
  | [] =>
      bad ← inconsistent (CreatePatientRequest.Age req)
                         (CreatePatientRequest.DateOfBirth req);
      if bad : bool then
        mret (Err (ValidationError "INCONSISTENT_DATA"
                     "Age and DateOfBirth are inconsistent" []))
      else
        let patient := {|
          Patient.PatientID := 0;
          Patient.UserID := CreatePatientRequest.UserID req;
          Patient.FullName := CreatePatientRequest.FullName req;
          Patient.Age := CreatePatientRequest.Age req;
          Patient.DateOfBirth := CreatePatientRequest.DateOfBirth req;
          Patient.Sex := CreatePatientRequest.Sex req;
          Patient.PhoneNumber := CreatePatientRequest.PhoneNumber req;
          Patient.EmailAddress := CreatePatientRequest.EmailAddress req;
          Patient.PreferredCommunication :=
            CreatePatientRequest.PreferredCommunication req;
          Patient.SocioeconomicStatus :=
            CreatePatientRequest.SocioeconomicStatus req;
          Patient.GeographicLocation :=
            CreatePatientRequest.GeographicLocation req;
          Patient.CreatedAt := zeroTime;
          Patient.UpdatedAt := zeroTime
        |} in
        r ← ports.CreatePatient (patientRepo s) patient;
        match r with
        | Err err => mret (Err (Wrapped "create patient error" err))
        | Ok createdPatient => mret (Ok createdPatient)
        end
  end.

Definition GetPatient (s : t W) (patientID : Z)
  : State W (result Patient.t) :=
  r ← ports.GetPatient (patientRepo s) patientID;
  match r with
  | Err err =>
      if Is err ErrPatientNotFound then mret (Err ErrPatientNotFound)
      else mret (Err (Wrapped "get patient error" err))
  | Ok patient => mret (Ok patient)
  end.

(** The field-wise overwrite of [UpdatePatient]: a request field that
    is not the zero value of its type replaces the stored field. *)
Definition merge (existingPatient : Patient.t)
    (req : UpdatePatientRequest.t) : Patient.t := {|
  Patient.PatientID := Patient.PatientID existingPatient;
  Patient.UserID := Patient.UserID existingPatient;
  Patient.FullName :=
    if bool_decide (UpdatePatientRequest.FullName req ≠ "")
    then UpdatePatientRequest.FullName req
    else Patient.FullName existingPatient;
  Patient.Age :=
    if bool_decide (UpdatePatientRequest.Age req ≠ 0)
    then UpdatePatientRequest.Age req
    else Patient.Age existingPatient;
  Patient.DateOfBirth :=
    if negb (IsZero (UpdatePatientRequest.DateOfBirth req))
    then UpdatePatientRequest.DateOfBirth req
    else Patient.DateOfBirth existingPatient;
  Patient.Sex :=
    if bool_decide (UpdatePatientRequest.Sex req ≠ "")
    then UpdatePatientRequest.Sex req
    else Patient.Sex existingPatient;
  Patient.PhoneNumber :=
    if bool_decide (UpdatePatientRequest.PhoneNumber req ≠ "")
    then UpdatePatientRequest.PhoneNumber req
    else Patient.PhoneNumber existingPatient;
  Patient.EmailAddress :=
    if bool_decide (UpdatePatientRequest.EmailAddress req ≠ "")
    then UpdatePatientRequest.EmailAddress req
    else Patient.EmailAddress existingPatient;
  Patient.PreferredCommunication :=
    if bool_decide (UpdatePatientRequest.PreferredCommunication req ≠ "")
    then UpdatePatientRequest.PreferredCommunication req
    else Patient.PreferredCommunication existingPatient;
  Patient.SocioeconomicStatus :=
    if bool_decide (UpdatePatientRequest.SocioeconomicStatus req ≠ "")
    then UpdatePatientRequest.SocioeconomicStatus req
    else Patient.SocioeconomicStatus existingPatient;
  Patient.GeographicLocation :=
    if bool_decide (UpdatePatientRequest.GeographicLocation req ≠ "")
    then UpdatePatientRequest.GeographicLocation req
    else Patient.GeographicLocation existingPatient;
  Patient.CreatedAt := Patient.CreatedAt existingPatient;
  Patient.UpdatedAt := Patient.UpdatedAt existingPatient
|}.

Definition UpdatePatient (s : t W) (patientID : Z)
    (req : UpdatePatientRequest.t) : State W (result Patient.t) :=
  validationErrors ← Struct (validate s) (ReqUpdatePatient req);
  match validationErrors with
  | _ :: _ =>
      mret (Err (ValidationError "INVALID_PATIENT_DATA"
                   "Validation errors occurred"
                   (errorDetails validationErrors)))
  | [] =>
      bad ← inconsistent (UpdatePatientRequest.Age req)
                         (UpdatePatientRequest.DateOfBirth req);
      if bad : bool then
        mret (Err (ValidationError "INCONSISTENT_DATA"
                     "Age and DateOfBirth are inconsistent" []))
      else
        r ← ports.GetPatient (patientRepo s) patientID;
        match r with
        | Err err =>
            mret (Err (Wrapped "failed to get existing patient" err))
        | Ok existingPatient =>
            r ← ports.UpdatePatient (patientRepo s) patientID
                  (merge existingPatient req);
            match r with
            | Err err => mret (Err (Wrapped "update patient error" err))
            | Ok updatedPatient => mret (Ok updatedPatient)
            end
        end
  end.
End methods.
End PatientService.

Module LifestyleService.
Record t (W : Type) := {
  lifestyleRepo : ports.LifestyleRepository W;
  patientRepo : ports.PatientRepository W;
  validator : Validate W;
  authorize : Z → State W bool
}.
Arguments lifestyleRepo {W} _.
Arguments patientRepo {W} _.
Arguments validator {W} _.
Arguments authorize {W} _ _.

Section methods.
Context {W : Type}.

Definition CreateLifestyleEntry (s : t W) (patientID : Z)
    (req : CreateLifestyleRequest.t) : State W (result LifestyleEntry.t) :=
  errs ← Struct (validator s) (ReqCreateLifestyle req);
  match errs with
  | _ :: _ => mret (Err ErrInvalidInput)
  | [] =>
      r ← ports.GetPatient (patientRepo s) patientID;
      match r with
      | Err err =>
          if Is err ErrPatientNotFound then mret (Err ErrPatientNotFound)
          else mret (Err (Wrapped "failed to check patient existence" err))
      | Ok _ =>
          let entry := {|
            LifestyleEntry.PatientLifestyleID := 0;
            LifestyleEntry.PatientID := patientID;
            LifestyleEntry.LifestyleFactor :=
              CreateLifestyleRequest.LifestyleFactor req;
            LifestyleEntry.Value := CreateLifestyleRequest.Value req;
            LifestyleEntry.StartDate := CreateLifestyleRequest.StartDate req;
            LifestyleEntry.EndDate := CreateLifestyleRequest.EndDate req;
            LifestyleEntry.CreatedAt := zeroTime;
            LifestyleEntry.UpdatedAt := zeroTime
          |} in
          r ← ports.CreateLifestyleEntry (lifestyleRepo s) entry;
          match r with
          | Err err =>
              mret (Err (Wrapped "create lifestyle entry error" err))
          | Ok newEntry => mret (Ok newEntry)
          end
      end
  end.

Definition GetLifestyleEntries (s : t W) (patientID : Z)
  : State W (result (list LifestyleEntry.t)) :=
  r ← ports.GetPatient (patientRepo s) patientID;
  match r with
  | Err err =>
      if Is err ErrPatientNotFound then mret (Err ErrPatientNotFound)
      else mret (Err (Wrapped "failed to check patient existence" err))
  | Ok _ =>
      r ← ports.GetLifestyleEntries (lifestyleRepo s) patientID;
      match r with
      | Err err => mret (Err (Wrapped "get lifestyle entries error" err))
      | Ok entries =>
          if bool_decide (length entries = 0%nat)
          then mret (Err ErrLifestyleEntryNotFound)
          else mret (Ok entries)
      end
  end.

Definition GetLifestyleEntry (s : t W) (entryID : Z)
  : State W (result LifestyleEntry.t) :=
  r ← ports.GetLifestyleEntry (lifestyleRepo s) entryID;
  match r with
  | Err err =>
      if Is err ErrLifestyleEntryNotFound
      then mret (Err ErrLifestyleEntryNotFound)
      else mret (Err (Wrapped "get lifestyle entry error" err))
  | Ok entry => mret (Ok entry)
  end.

(** "Update only provided fields". *)
Definition merge (existingEntry : LifestyleEntry.t)
    (req : UpdateLifestyleRequest.t) : LifestyleEntry.t := {|
  LifestyleEntry.PatientLifestyleID :=
    LifestyleEntry.PatientLifestyleID existingEntry;
  LifestyleEntry.PatientID := LifestyleEntry.PatientID existingEntry;
  LifestyleEntry.LifestyleFactor :=
    if bool_decide (UpdateLifestyleRequest.LifestyleFactor req ≠ "")
    then UpdateLifestyleRequest.LifestyleFactor req
    else LifestyleEntry.LifestyleFactor existingEntry;
  LifestyleEntry.Value :=
    if bool_decide (UpdateLifestyleRequest.Value req ≠ "")
    then UpdateLifestyleRequest.Value req
    else LifestyleEntry.Value existingEntry;
  LifestyleEntry.StartDate :=
    if negb (IsZero (UpdateLifestyleRequest.StartDate req))
    then UpdateLifestyleRequest.StartDate req
    else LifestyleEntry.StartDate existingEntry;
  LifestyleEntry.EndDate :=
    if negb (IsZero (UpdateLifestyleRequest.EndDate req))
    then UpdateLifestyleRequest.EndDate req
    else LifestyleEntry.EndDate existingEntry;
  LifestyleEntry.CreatedAt := LifestyleEntry.CreatedAt existingEntry;
  LifestyleEntry.UpdatedAt := LifestyleEntry.UpdatedAt existingEntry
|}.

Definition UpdateLifestyleEntry (s : t W) (entryID : Z)
    (req : UpdateLifestyleRequest.t) : State W (result LifestyleEntry.t) :=
  errs ← Struct (validator s) (ReqUpdateLifestyle req);
  match errs with
  | _ :: _ => mret (Err ErrInvalidInput)
  | [] =>
      r ← ports.GetLifestyleEntry (lifestyleRepo s) entryID;
      match r with
      | Err err =>
          if Is err ErrLifestyleEntryNotFound
          then mret (Err ErrLifestyleEntryNotFound)
          else mret (Err (Wrapped "failed to retrieve existing entry" err))
      | Ok existingEntry =>
          allowed ← authorize s (LifestyleEntry.PatientID existingEntry);
          if negb allowed then mret (Err ErrForbidden)
          else
            r ← ports.UpdateLifestyleEntry (lifestyleRepo s) entryID
                  (merge existingEntry req);
            match r with
            | Err err =>
                if Is err ErrLifestyleEntryNotFound
                then mret (Err ErrLifestyleEntryNotFound)
                else mret (Err (Wrapped "update lifestyle entry error" err))
            | Ok entry => mret (Ok entry)
            end
      end
  end.

Definition DeleteLifestyleEntry (s : t W) (entryID : Z)
  : State W (option error) :=
  r ← ports.GetLifestyleEntry (lifestyleRepo s) entryID;
  match r with
  | Err err =>
      if Is err ErrLifestyleEntryNotFound
      then mret (Some ErrLifestyleEntryNotFound)
      else mret (Some (Wrapped "failed to retrieve entry before deleting"
                         err))
  | Ok existingEntry =>
      allowed ← authorize s (LifestyleEntry.PatientID existingEntry);
      if negb allowed then mret (Some ErrForbidden)
      else
        err ← ports.DeleteLifestyleEntry (lifestyleRepo s) entryID;
        match err with
        | Some err =>
            if Is err ErrLifestyleEntryNotFound
            then mret (Some ErrLifestyleEntryNotFound)
            else mret (Some (Wrapped "delete lifestyle entry error" err))
        | None => mret None
        end
  end.
End methods.
End LifestyleService.

Module MedicalHistoryService.
Record t (W : Type) := {
  medicalHistoryRepo : ports.MedicalHistoryRepository W;
  patientRepo : ports.PatientRepository W;
  validate : Validate W;
  authorize : Z → State W bool
}.
Arguments medicalHistoryRepo {W} _.
Arguments patientRepo {W} _.
Arguments validate {W} _.
Arguments authorize {W} _ _.

Section methods.
Context {W : Type}.

Definition CreateMedicalHistoryEntry (s : t W) (patientID : Z)
    (req : CreateMedicalHistoryRequest.t)
  : State W (result MedicalHistoryEntry.t) :=
  validationErrors ← Struct (validate s) (ReqCreateMedicalHistory req);
  match validationErrors with
  | _ :: _ =>
      mret (Err (ValidationError "INVALID_MEDICAL_HISTORY_DATA"
                   "Validation errors occurred"
                   (errorDetails validationErrors)))
  | [] =>
      r ← ports.GetPatient (patientRepo s) patientID;
      match r with
      | Err err =>
          if Is err ErrPatientNotFound then mret (Err ErrPatientNotFound)
          else mret (Err (Wrapped "failed to check patient existence" err))
      | Ok _ =>
          let entry := {|
            MedicalHistoryEntry.PatientMedicalHistoryID := 0;
            MedicalHistoryEntry.PatientID := patientID;
            MedicalHistoryEntry.Condition :=
              CreateMedicalHistoryRequest.Condition req;
            MedicalHistoryEntry.DiagnosisDate :=
              CreateMedicalHistoryRequest.DiagnosisDate req;
            MedicalHistoryEntry.Status :=
              CreateMedicalHistoryRequest.Status req;
            MedicalHistoryEntry.Details :=
              CreateMedicalHistoryRequest.Details req;
            MedicalHistoryEntry.CreatedAt := zeroTime;
            MedicalHistoryEntry.UpdatedAt := zeroTime
          |} in
          r ← ports.CreateMedicalHistoryEntry (medicalHistoryRepo s) entry;
          match r with
          | Err err =>
              mret (Err (Wrapped "create medical history entry error" err))
          | Ok createdEntry => mret (Ok createdEntry)
          end
      end
  end.

Definition GetMedicalHistoryEntries (s : t W) (patientID : Z)
  : State W (result (list MedicalHistoryEntry.t)) :=
  r ← ports.GetPatient (patientRepo s) patientID;
  match r with
  | Err err =>
      if Is err ErrPatientNotFound then mret (Err ErrPatientNotFound)
      else mret (Err (Wrapped "failed to check patient existence" err))
  | Ok _ =>
      r ← ports.GetMedicalHistoryEntries (medicalHistoryRepo s) patientID;
      match r with
      | Err err =>
          if Is err ErrMedicalHistoryEntryNotFound
          then mret (Err ErrMedicalHistoryEntryNotFound)
          else mret (Err (Wrapped "get medical history entries error" err))
      | Ok entries => mret (Ok entries)
      end
  end.

Definition GetMedicalHistoryEntry (s : t W) (entryID : Z)
  : State W (result MedicalHistoryEntry.t) :=
  r ← ports.GetMedicalHistoryEntry (medicalHistoryRepo s) entryID;
  match r with
  | Err err =>
      if Is err ErrMedicalHistoryEntryNotFound
      then mret (Err ErrMedicalHistoryEntryNotFound)
      else mret (Err (Wrapped "get medical history entry error" err))
  | Ok entry => mret (Ok entry)
  end.

(** "Update only the fields provided in the request". *)
Definition merge (existingEntry : MedicalHistoryEntry.t)
    (req : UpdateMedicalHistoryRequest.t) : MedicalHistoryEntry.t := {|
  MedicalHistoryEntry.PatientMedicalHistoryID :=
    MedicalHistoryEntry.PatientMedicalHistoryID existingEntry;
  MedicalHistoryEntry.PatientID :=
    MedicalHistoryEntry.PatientID existingEntry;
  MedicalHistoryEntry.Condition :=
    if bool_decide (UpdateMedicalHistoryRequest.Condition req ≠ "")
    then UpdateMedicalHistoryRequest.Condition req
    else MedicalHistoryEntry.Condition existingEntry;
  MedicalHistoryEntry.DiagnosisDate :=
    if negb (IsZero (UpdateMedicalHistoryRequest.DiagnosisDate req))
    then UpdateMedicalHistoryRequest.DiagnosisDate req
    else MedicalHistoryEntry.DiagnosisDate existingEntry;
  MedicalHistoryEntry.Status :=
    if bool_decide (UpdateMedicalHistoryRequest.Status req ≠ "")
    then UpdateMedicalHistoryRequest.Status req
    else MedicalHistoryEntry.Status existingEntry;
  MedicalHistoryEntry.Details :=
    if bool_decide (UpdateMedicalHistoryRequest.Details req ≠ "")
    then UpdateMedicalHistoryRequest.Details req
    else MedicalHistoryEntry.Details existingEntry;
  MedicalHistoryEntry.CreatedAt :=
    MedicalHistoryEntry.CreatedAt existingEntry;
  MedicalHistoryEntry.UpdatedAt :=
    MedicalHistoryEntry.UpdatedAt existingEntry
|}.

Definition UpdateMedicalHistoryEntry (s : t W) (entryID : Z)
    (req : UpdateMedicalHistoryRequest.t)
  : State W (result MedicalHistoryEntry.t) :=
  validationErrors ← Struct (validate s) (ReqUpdateMedicalHistory req);
  match validationErrors with
  | _ :: _ =>
      mret (Err (ValidationError "INVALID_MEDICAL_HISTORY_DATA"
                   "Validation errors occurred"
                   (errorDetails validationErrors)))
  | [] =>
      r ← ports.GetMedicalHistoryEntry (medicalHistoryRepo s) entryID;
      match r with
      | Err err =>
          if Is err ErrMedicalHistoryEntryNotFound
          then mret (Err ErrMedicalHistoryEntryNotFound)
          else mret (Err (Wrapped
                 "failed to retrieve existing medical history entry" err))
      | Ok existingEntry =>
          allowed ← authorize s
                      (MedicalHistoryEntry.PatientID existingEntry);
          if negb allowed then mret (Err ErrForbidden)
          else
            r ← ports.UpdateMedicalHistoryEntry (medicalHistoryRepo s)
                  entryID (merge existingEntry req);
            match r with
            | Err err =>
                mret (Err (Wrapped "update medical history entry error"
                             err))
            | Ok updatedEntry => mret (Ok updatedEntry)
            end
      end
  end.

Definition DeleteMedicalHistoryEntry (s : t W) (entryID : Z)
  : State W (option error) :=
  r ← ports.GetMedicalHistoryEntry (medicalHistoryRepo s) entryID;
  match r with
  | Err err =>
      if Is err ErrMedicalHistoryEntryNotFound
      then mret (Some ErrMedicalHistoryEntryNotFound)
      else mret (Some (Wrapped
             "failed to retrieve medical history entry before deletion"
             err))
  | Ok existingEntry =>
      allowed ← authorize s (MedicalHistoryEntry.PatientID existingEntry);
      if negb allowed then mret (Some ErrForbidden)
      else
        err ← ports.DeleteMedicalHistoryEntry (medicalHistoryRepo s)
                entryID;
        match err with
        | Some err =>
            if Is err ErrMedicalHistoryEntryNotFound
            then mret (Some ErrMedicalHistoryEntryNotFound)
            else mret (Some (Wrapped "delete medical history entry error"
                               err))
        | None => mret None
        end
  end.
End methods.
End MedicalHistoryService.

(** ** api/handler *)

Definition StatusOK : Z := 200.
Definition StatusBadRequest : Z := 400.
Definition StatusForbidden : Z := 403.
Definition StatusNotFound : Z := 404.
Definition StatusInternalServerError : Z := 500.

(** What [c.JSON] is given to encode. *)
Inductive Body :=
  | ErrorResponse (Error : string)
  | LifestyleEntries (entries : list LifestyleEntry.t)
  | MedicalHistoryEntries (entries : list MedicalHistoryEntry.t).

Record Response := JSON { code : Z; obj : Body }.

(** The handlers hold the service interfaces of core/ports; the
    services above are their only implementations. The argument of a
    handler is the path parameter [patient_id] of the request. *)

Module LifestyleHandler.
Record t (W : Type) := { lifestyleSvc : LifestyleService.t W }.
Arguments lifestyleSvc {W} _.

Definition GetLifestyleEntries {W} (h : t W) (patient_id : string)
  : State W Response :=
  match Atoi patient_id with
  | None => mret (JSON StatusBadRequest (ErrorResponse "Invalid patient ID"))
  | Some patientID =>
      r ← LifestyleService.GetLifestyleEntries (lifestyleSvc h) patientID;
      match r with
      | Err err =>
          if Is err ErrPatientNotFound then
            mret (JSON StatusNotFound (ErrorResponse (Error err)))
          else if Is err ErrLifestyleEntryNotFound then
            mret (JSON StatusOK (LifestyleEntries []))
          else
            mret (JSON StatusInternalServerError
                    (ErrorResponse "Failed to get lifestyle entries"))
      | Ok entries => mret (JSON StatusOK (LifestyleEntries entries))
      end
  end.
End LifestyleHandler.

Module MedicalHistoryHandler.
Record t (W : Type) := { medicalHistorySvc : MedicalHistoryService.t W }.
Arguments medicalHistorySvc {W} _.

Definition GetMedicalHistoryEntries {W} (h : t W) (patient_id : string)
  : State W Response :=
  match Atoi patient_id with
  | None => mret (JSON StatusBadRequest (ErrorResponse "Invalid patient ID"))
  | Some patientID =>
      r ← MedicalHistoryService.GetMedicalHistoryEntries
            (medicalHistorySvc h) patientID;
      match r with
      | Err err =>
          if Is err ErrMedicalHistoryEntryNotFound then
            mret (JSON StatusNotFound (ErrorResponse (Error err)))
          else if Is err ErrPatientNotFound then
            mret (JSON StatusNotFound (ErrorResponse (Error err)))
          else
            mret (JSON StatusInternalServerError
                    (ErrorResponse "Failed to get medical history entries"))
      | Ok entries => mret (JSON StatusOK (MedicalHistoryEntries entries))
      end
  end.
End MedicalHistoryHandler.

(** ** platform/repository/sqlc: the generated query layer *)

(** [sql.NullString], [sql.NullInt32], [sql.NullTime] and the nullable
    enumerations: a value and whether the column is not NULL. *)
Record Null (A : Type) := mkNull { V : A; Valid : bool }.
Arguments mkNull {A} V Valid.
Arguments V {A} _.
Arguments Valid {A} _.

Module db.
Module Patient.
Record t := mk {
  PatientID : Z;
  UserID : Null Z;
  FullName : string;
  Age : Null Z;
  DateOfBirth : Time;
  Sex : string;
  PhoneNumber : Null string;
  EmailAddress : Null string;
  PreferredCommunication : Null string;
  SocioeconomicStatus : Null string;
  GeographicLocation : Null string;
  CreatedAt : Null Time;
  UpdatedAt : Null Time
}.
End Patient.

Module PatientLifestyle.
Record t := mk {
  PatientLifestyleID : Z;
  PatientID : Z;
  LifestyleFactor : string;
  Value : Null string;
  StartDate : Null Time;
  EndDate : Null Time;
  CreatedAt : Null Time;
  UpdatedAt : Null Time
}.
End PatientLifestyle.

Module PatientMedicalHistory.
Record t := mk {
  PatientMedicalHistoryID : Z;
  PatientID : Null Z;
  Condition : string;
  DiagnosisDate : Null Time;
  Status : Null string;
  Details : Null string;
  CreatedAt : Null Time;
  UpdatedAt : Null Time
}.
End PatientMedicalHistory.

Module CreatePatientParams.
Record t := mk {
  UserID : Null Z;
  FullName : string;
  Age : Null Z;
  DateOfBirth : Time;
  Sex : string;
  PhoneNumber : Null string;
  EmailAddress : Null string;
  PreferredCommunication : Null string;
  SocioeconomicStatus : Null string;
  GeographicLocation : Null string
}.
End CreatePatientParams.

Module UpdatePatientParams.
Record t := mk {
  PatientID : Z;
  FullName : string;
  Age : Null Z;
  DateOfBirth : Time;
  Sex : string;
  PhoneNumber : Null string;
  EmailAddress : Null string;
  PreferredCommunication : Null string;
  SocioeconomicStatus : Null string;
  GeographicLocation : Null string
}.
End UpdatePatientParams.

Module CreateLifestyleEntryParams.
Record t := mk {
  PatientID : Z;
  LifestyleFactor : string;
  Value : Null string;
  StartDate : Null Time;
  EndDate : Null Time
}.
End CreateLifestyleEntryParams.

Module UpdateLifestyleEntryParams.
Record t := mk {
  PatientLifestyleID : Z;
  LifestyleFactor : string;
  Value : Null string;
  StartDate : Null Time;
  EndDate : Null Time
}.
End UpdateLifestyleEntryParams.

Module CreateMedicalHistoryEntryParams.
Record t := mk {
  PatientID : Null Z;
  Condition : string;
  DiagnosisDate : Null Time;
  Status : Null string;
  Details : Null string
}.
End CreateMedicalHistoryEntryParams.

Module UpdateMedicalHistoryEntryParams.
Record t := mk {
  PatientMedicalHistoryID : Z;
  Condition : string;
  DiagnosisDate : Null Time;
  Status : Null string;
  Details : Null string
}.
End UpdateMedicalHistoryEntryParams.

(** The methods of [*db.Queries]. What each returns is decided by the
    database behind it. *)
Record Queries (W : Type) := {
  CreatePatient : CreatePatientParams.t → State W (result Patient.t);
  GetPatient : Z → State W (result Patient.t);
  UpdatePatient : UpdatePatientParams.t → State W (result Patient.t);
  CreateLifestyleEntry :
    CreateLifestyleEntryParams.t → State W (result PatientLifestyle.t);
  DeleteLifestyleEntry : Z → State W (option error);
  GetLifestyleEntries : Z → State W (result (list PatientLifestyle.t));
  GetLifestyleEntry : Z → State W (result PatientLifestyle.t);
  UpdateLifestyleEntry :
    UpdateLifestyleEntryParams.t → State W (result PatientLifestyle.t);
  CreateMedicalHistoryEntry :
    CreateMedicalHistoryEntryParams.t
    → State W (result PatientMedicalHistory.t);
  DeleteMedicalHistoryEntry : Z → State W (option error);
  GetMedicalHistoryEntries :
    Null Z → State W (result (list PatientMedicalHistory.t));
  GetMedicalHistoryEntry : Z → State W (result PatientMedicalHistory.t);
  UpdateMedicalHistoryEntry :
    UpdateMedicalHistoryEntryParams.t
    → State W (result PatientMedicalHistory.t)
}.
Arguments CreatePatient {W} _ _.
Arguments GetPatient {W} _ _.
Arguments UpdatePatient {W} _ _.
Arguments CreateLifestyleEntry {W} _ _.
Arguments DeleteLifestyleEntry {W} _ _.
Arguments GetLifestyleEntries {W} _ _.
Arguments GetLifestyleEntry {W} _ _.
Arguments UpdateLifestyleEntry {W} _ _.
Arguments CreateMedicalHistoryEntry {W} _ _.
Arguments DeleteMedicalHistoryEntry {W} _ _.
Arguments GetMedicalHistoryEntries {W} _ _.
Arguments GetMedicalHistoryEntry {W} _ _.
Arguments UpdateMedicalHistoryEntry {W} _ _.
End db.

(** ** platform/repository/postgres *)

(** [sql.NullString{String: s, Valid: s != ""}] and
    [sql.NullTime{Time: t, Valid: !t.IsZero()}]. *)
Definition nullIfEmpty (s : string) : Null string :=
  mkNull s (bool_decide (s ≠ "")).

Definition nullTime (t : Time) : Null Time := mkNull t (negb (IsZero t)).

Module PatientRepositoryImpl.
Section methods.
Context {W : Type} (q : db.Queries W).

Definition convertDbPatientToDomain (dbPatient : db.Patient.t)
  : Patient.t := {|
  Patient.PatientID := db.Patient.PatientID dbPatient;
  Patient.UserID := V (db.Patient.UserID dbPatient);
  Patient.FullName := db.Patient.FullName dbPatient;
  Patient.Age := V (db.Patient.Age dbPatient);
  Patient.DateOfBirth := db.Patient.DateOfBirth dbPatient;
  Patient.Sex := db.Patient.Sex dbPatient;
  Patient.PhoneNumber := V (db.Patient.PhoneNumber dbPatient);
  Patient.EmailAddress := V (db.Patient.EmailAddress dbPatient);
  Patient.PreferredCommunication :=
    V (db.Patient.PreferredCommunication dbPatient);
  Patient.SocioeconomicStatus :=
    V (db.Patient.SocioeconomicStatus dbPatient);
  Patient.GeographicLocation := V (db.Patient.GeographicLocation dbPatient);
  Patient.CreatedAt := V (db.Patient.CreatedAt dbPatient);
  Patient.UpdatedAt := V (db.Patient.UpdatedAt dbPatient)
|}.

Definition CreatePatient (patient : Patient.t)
  : State W (result Patient.t) :=
  let arg := {|
    db.CreatePatientParams.UserID :=
      mkNull (int32 (Patient.UserID patient)) true;
    db.CreatePatientParams.FullName := Patient.FullName patient;
    db.CreatePatientParams.Age :=
      mkNull (int32 (Patient.Age patient)) true;
    db.CreatePatientParams.DateOfBirth := Patient.DateOfBirth patient;
    db.CreatePatientParams.Sex := Patient.Sex patient;
    db.CreatePatientParams.PhoneNumber :=
      nullIfEmpty (Patient.PhoneNumber patient);
    db.CreatePatientParams.EmailAddress :=
      nullIfEmpty (Patient.EmailAddress patient);
    db.CreatePatientParams.PreferredCommunication :=
      nullIfEmpty (Patient.PreferredCommunication patient);
    db.CreatePatientParams.SocioeconomicStatus :=
      nullIfEmpty (Patient.SocioeconomicStatus patient);
    db.CreatePatientParams.GeographicLocation :=
      nullIfEmpty (Patient.GeographicLocation patient)
  |} in
  r ← db.CreatePatient q arg;
  match r with
  | Err err =>
      match err with
      | PgError "23505" =>
          mret (Err (Wrapped "patient with that email already exists" err))
      | PgError "23503" => mret (Err ErrPatientNotFound)
      | _ => mret (Err (Wrapped "failed to create patient" err))
      end
  | Ok createdPatient => mret (Ok (convertDbPatientToDomain createdPatient))
  end.

Definition GetPatient (patientID : Z) : State W (result Patient.t) :=
  r ← db.GetPatient q (int32 patientID);
  match r with
  | Err err =>
      if Is err ErrNoRows then mret (Err ErrPatientNotFound)
      else mret (Err (Wrapped "failed to get patient" err))
  | Ok dbPatient => mret (Ok (convertDbPatientToDomain dbPatient))
  end.

Definition UpdatePatient (patientID : Z) (patient : Patient.t)
  : State W (result Patient.t) :=
  let arg := {|
    db.UpdatePatientParams.PatientID := int32 patientID;
    db.UpdatePatientParams.FullName := Patient.FullName patient;
    db.UpdatePatientParams.Age :=
      mkNull (int32 (Patient.Age patient)) true;
    db.UpdatePatientParams.DateOfBirth := Patient.DateOfBirth patient;
    db.UpdatePatientParams.Sex := Patient.Sex patient;
    db.UpdatePatientParams.PhoneNumber :=
      nullIfEmpty (Patient.PhoneNumber patient);
    db.UpdatePatientParams.EmailAddress :=
      nullIfEmpty (Patient.EmailAddress patient);
    db.UpdatePatientParams.PreferredCommunication :=
      nullIfEmpty (Patient.PreferredCommunication patient);
    db.UpdatePatientParams.SocioeconomicStatus :=
      nullIfEmpty (Patient.SocioeconomicStatus patient);
    db.UpdatePatientParams.GeographicLocation :=
      nullIfEmpty (Patient.GeographicLocation patient)
  |} in
  r ← db.UpdatePatient q arg;
  match r with
  | Err err =>
      match err with
      | PgError "23505" =>
          mret (Err (Wrapped "email address already in use" err))
      | _ => mret (Err (Wrapped "failed to update patient" err))
      end
  | Ok updatedPatient => mret (Ok (convertDbPatientToDomain updatedPatient))
  end.

Definition NewPatientRepository : ports.PatientRepository W := {|
  ports.CreatePatient := CreatePatient;
  ports.GetPatient := GetPatient;
  ports.UpdatePatient := UpdatePatient
|}.
End methods.
End PatientRepositoryImpl.

Module LifestyleRepositoryImpl.
Section methods.
Context {W : Type} (q : db.Queries W).

Definition convertDbLifestyleEntryToDomain (dbEntry : db.PatientLifestyle.t)
  : LifestyleEntry.t := {|
  LifestyleEntry.PatientLifestyleID :=
    db.PatientLifestyle.PatientLifestyleID dbEntry;
  LifestyleEntry.PatientID := db.PatientLifestyle.PatientID dbEntry;
  LifestyleEntry.LifestyleFactor :=
    db.PatientLifestyle.LifestyleFactor dbEntry;
  LifestyleEntry.Value := V (db.PatientLifestyle.Value dbEntry);
  LifestyleEntry.StartDate := V (db.PatientLifestyle.StartDate dbEntry);
  LifestyleEntry.EndDate := V (db.PatientLifestyle.EndDate dbEntry);
  LifestyleEntry.CreatedAt := V (db.PatientLifestyle.CreatedAt dbEntry);
  LifestyleEntry.UpdatedAt := V (db.PatientLifestyle.UpdatedAt dbEntry)
|}.

Definition CreateLifestyleEntry (entry : LifestyleEntry.t)
  : State W (result LifestyleEntry.t) :=
  let arg := {|
    db.CreateLifestyleEntryParams.PatientID :=
      int32 (LifestyleEntry.PatientID entry);
    db.CreateLifestyleEntryParams.LifestyleFactor :=
      LifestyleEntry.LifestyleFactor entry;
    db.CreateLifestyleEntryParams.Value :=
      nullIfEmpty (LifestyleEntry.Value entry);
    db.CreateLifestyleEntryParams.StartDate :=
      nullTime (LifestyleEntry.StartDate entry);
    db.CreateLifestyleEntryParams.EndDate :=
      nullTime (LifestyleEntry.EndDate entry)
  |} in
  r ← db.CreateLifestyleEntry q arg;
  match r with
  | Err err => mret (Err (Wrapped "create lifestyle entry error" err))
  | Ok newEntry => mret (Ok (convertDbLifestyleEntryToDomain newEntry))
  end.

Definition GetLifestyleEntries (patientID : Z)
  : State W (result (list LifestyleEntry.t)) :=
  r ← db.GetLifestyleEntries q (int32 patientID);
  match r with
  | Err err => mret (Err (Wrapped "get lifestyle entries error" err))
  | Ok entries =>
      if bool_decide (length entries = 0%nat)
      then mret (Err ErrLifestyleEntryNotFound)
      else mret (Ok (convertDbLifestyleEntryToDomain <$> entries))
  end.

Definition GetLifestyleEntry (entryID : Z)
  : State W (result LifestyleEntry.t) :=
  r ← db.GetLifestyleEntry q (int32 entryID);
  match r with
  | Err err =>
      if Is err ErrNoRows then mret (Err ErrLifestyleEntryNotFound)
      else mret (Err (Wrapped "get lifestyle entry error" err))
  | Ok dbEntry => mret (Ok (convertDbLifestyleEntryToDomain dbEntry))
  end.

Definition UpdateLifestyleEntry (entryID : Z)
    (updatedEntry : LifestyleEntry.t) : State W (result LifestyleEntry.t) :=
  let arg := {|
    db.UpdateLifestyleEntryParams.PatientLifestyleID := int32 entryID;
    db.UpdateLifestyleEntryParams.LifestyleFactor :=
      LifestyleEntry.LifestyleFactor updatedEntry;
    db.UpdateLifestyleEntryParams.Value :=
      nullIfEmpty (LifestyleEntry.Value updatedEntry);
    db.UpdateLifestyleEntryParams.StartDate :=
      nullTime (LifestyleEntry.StartDate updatedEntry);
    db.UpdateLifestyleEntryParams.EndDate :=
      nullTime (LifestyleEntry.EndDate updatedEntry)
  |} in
  r ← db.UpdateLifestyleEntry q arg;
  match r with
  | Err err =>
      if Is err ErrNoRows then mret (Err ErrLifestyleEntryNotFound)
      else mret (Err (Wrapped "update lifestyle entry error" err))
  | Ok entry => mret (Ok (convertDbLifestyleEntryToDomain entry))
  end.

Definition DeleteLifestyleEntry (entryID : Z) : State W (option error) :=
  err ← db.DeleteLifestyleEntry q (int32 entryID);
  match err with
  | Some err =>
      if Is err ErrNoRows then mret (Some ErrLifestyleEntryNotFound)
      else mret (Some (Wrapped "delete lifestyle entry error" err))
  | None => mret None
  end.

Definition NewLifestyleRepository : ports.LifestyleRepository W := {|
  ports.CreateLifestyleEntry := CreateLifestyleEntry;
  ports.GetLifestyleEntries := GetLifestyleEntries;
  ports.GetLifestyleEntry := GetLifestyleEntry;
  ports.UpdateLifestyleEntry := UpdateLifestyleEntry;
  ports.DeleteLifestyleEntry := DeleteLifestyleEntry
|}.
End methods.
End LifestyleRepositoryImpl.

Module MedicalHistoryRepositoryImpl.
Section methods.
Context {W : Type} (q : db.Queries W).

Definition convertDbMedicalHistoryEntryToDomain
    (dbEntry : db.PatientMedicalHistory.t) : MedicalHistoryEntry.t := {|
  MedicalHistoryEntry.PatientMedicalHistoryID :=
    db.PatientMedicalHistory.PatientMedicalHistoryID dbEntry;
  MedicalHistoryEntry.PatientID :=
    V (db.PatientMedicalHistory.PatientID dbEntry);
  MedicalHistoryEntry.Condition :=
    db.PatientMedicalHistory.Condition dbEntry;
  MedicalHistoryEntry.DiagnosisDate :=
    V (db.PatientMedicalHistory.DiagnosisDate dbEntry);
  MedicalHistoryEntry.Status := V (db.PatientMedicalHistory.Status dbEntry);
  MedicalHistoryEntry.Details :=
    V (db.PatientMedicalHistory.Details dbEntry);
  MedicalHistoryEntry.CreatedAt :=
    V (db.PatientMedicalHistory.CreatedAt dbEntry);
  MedicalHistoryEntry.UpdatedAt :=
    V (db.PatientMedicalHistory.UpdatedAt dbEntry)
|}.

Definition CreateMedicalHistoryEntry (entry : MedicalHistoryEntry.t)
  : State W (result MedicalHistoryEntry.t) :=
  let arg := {|
    db.CreateMedicalHistoryEntryParams.PatientID :=
      mkNull (int32 (MedicalHistoryEntry.PatientID entry)) true;
    db.CreateMedicalHistoryEntryParams.Condition :=
      MedicalHistoryEntry.Condition entry;
    db.CreateMedicalHistoryEntryParams.DiagnosisDate :=
      nullTime (MedicalHistoryEntry.DiagnosisDate entry);
    db.CreateMedicalHistoryEntryParams.Status :=
      nullIfEmpty (MedicalHistoryEntry.Status entry);
    db.CreateMedicalHistoryEntryParams.Details :=
      nullIfEmpty (MedicalHistoryEntry.Details entry)
  |} in
  r ← db.CreateMedicalHistoryEntry q arg;
  match r with
  | Err err =>
      match err with
      | PgError "23503" => mret (Err ErrPatientNotFound)
      | _ =>
          mret (Err (Wrapped "failed to create medical history entry" err))
      end
  | Ok createdEntry =>
      mret (Ok (convertDbMedicalHistoryEntryToDomain createdEntry))
  end.

Definition GetMedicalHistoryEntries (patientID : Z)
  : State W (result (list MedicalHistoryEntry.t)) :=
  r ← db.GetMedicalHistoryEntries q (mkNull (int32 patientID) true);
  match r with
  | Err err =>
      mret (Err (Wrapped "failed to get medical history entries" err))
  | Ok dbEntries =>
      if bool_decide (length dbEntries = 0%nat)
      then mret (Err ErrMedicalHistoryEntryNotFound)
      else mret (Ok (convertDbMedicalHistoryEntryToDomain <$> dbEntries))
  end.

Definition GetMedicalHistoryEntry (entryID : Z)
  : State W (result MedicalHistoryEntry.t) :=
  r ← db.GetMedicalHistoryEntry q (int32 entryID);
  match r with
  | Err err =>
      if Is err ErrNoRows then mret (Err ErrMedicalHistoryEntryNotFound)
      else mret (Err (Wrapped "failed to get medical history entry" err))
  | Ok dbEntry => mret (Ok (convertDbMedicalHistoryEntryToDomain dbEntry))
  end.

Definition UpdateMedicalHistoryEntry (entryID : Z)
    (entry : MedicalHistoryEntry.t)
  : State W (result MedicalHistoryEntry.t) :=
  let arg := {|
    db.UpdateMedicalHistoryEntryParams.PatientMedicalHistoryID :=
      int32 entryID;
    db.UpdateMedicalHistoryEntryParams.Condition :=
      MedicalHistoryEntry.Condition entry;
    db.UpdateMedicalHistoryEntryParams.DiagnosisDate :=
      nullTime (MedicalHistoryEntry.DiagnosisDate entry);
    db.UpdateMedicalHistoryEntryParams.Status :=
      nullIfEmpty (MedicalHistoryEntry.Status entry);
    db.UpdateMedicalHistoryEntryParams.Details :=
      nullIfEmpty (MedicalHistoryEntry.Details entry)
  |} in
  r ← db.UpdateMedicalHistoryEntry q arg;
  match r with
  | Err err =>
      if Is err ErrNoRows then mret (Err ErrMedicalHistoryEntryNotFound)
      else
        match err with
        | PgError "23503" => mret (Err ErrPatientNotFound)
        | _ =>
            mret (Err (Wrapped "failed to update medical history entry"
                         err))
        end
  | Ok updatedEntry =>
      mret (Ok (convertDbMedicalHistoryEntryToDomain updatedEntry))
  end.

Definition DeleteMedicalHistoryEntry (entryID : Z)
  : State W (option error) :=
  err ← db.DeleteMedicalHistoryEntry q (int32 entryID);
  match err with
  | Some err =>
      if Is err ErrNoRows then mret (Some ErrMedicalHistoryEntryNotFound)
      else mret (Some (Wrapped "failed to delete medical history entry"
                         err))
  | None => mret None
  end.

Definition NewMedicalHistoryRepository
  : ports.MedicalHistoryRepository W := {|
  ports.CreateMedicalHistoryEntry := CreateMedicalHistoryEntry;
  ports.GetMedicalHistoryEntries := GetMedicalHistoryEntries;
  ports.GetMedicalHistoryEntry := GetMedicalHistoryEntry;
  ports.UpdateMedicalHistoryEntry := UpdateMedicalHistoryEntry;
  ports.DeleteMedicalHistoryEntry := DeleteMedicalHistoryEntry
|}.
End methods.
End MedicalHistoryRepositoryImpl.

(** ** internal/auth: the authorization gate *)

(** The profile the identity provider returns. Its public metadata is a
    JSON object; the gate ranges over its values and prints it whole. *)
Module clerk.
Inductive value :=
  | VString (s : string)
  | VNumber (n : Z)
  | VBool (b : bool)
  | VNil.

#[global] Instance value_eq_dec : EqDecision value.
Proof. solve_decision. Defined.

Record User := { PublicMetadata : list (string * value) }.

(** [fmt.Sprint] of a metadata value and of the whole object,
    [map[k1:v1 k2:v2]]. *)
Definition SprintValue (v : value) : string :=
  match v with
  | VString s => s
  | VNumber n => Itoa n
  | VBool true => "true"
  | VBool false => "false"
  | VNil => "<nil>"
  end.

Definition Sprint (md : list (string * value)) : string :=
  "map[" +:+ Join ((λ kv, kv.1 +:+ ":" +:+ SprintValue kv.2) <$> md) " "
  +:+ "]".

(** [clerk.User.GetUser]: the call to the identity provider. *)
Record Client (W : Type) := {
  GetUser : string → State W (result User)
}.
Arguments GetUser {W} _ _.
End clerk.

Module authClient.
Section methods.
Context {W : Type} (c : clerk.Client W).

(** The loop over the metadata values: the first value that is the
    string "physician" or "clerk" allows. *)
Fixpoint rolesAllow (md : list (string * clerk.value)) : bool :=
  match md with
  | [] => false
  | (_, roles) :: rest =>
      if bool_decide (roles = clerk.VString "physician") then true
      else if bool_decide (roles = clerk.VString "clerk") then true
      else rolesAllow rest
  end.

Definition Authorize (userID : string) (patientID : Z)
  : State W (bool * option error) :=
  if bool_decide (Itoa patientID = userID) then mret (true, None)
  else
    r ← clerk.GetUser c userID;
    match r with
    | Err err => mret (false, Some err)
    | Ok clerkUser =>
        if rolesAllow (clerk.PublicMetadata clerkUser) then
          mret (true, None)
        else if Contains (clerk.Sprint (clerk.PublicMetadata clerkUser))
                  "patient:read_all" then
          mret (true, None)
        else mret (false, None)
    end.
End methods.
End authClient.

(** ** Recording the calls a service makes

    As the mocks of the service tests do, a recorder notes every call to
    an injected collaborator; the call itself goes to the collaborator
    it wraps. *)

Inductive Call :=
  | CallStruct (req : Request)
  | CallNow
  | CallAuthorize (patientID : Z)
  | CallCreatePatient (patient : Patient.t)
  | CallGetPatient (patientID : Z)
  | CallUpdatePatient (patientID : Z) (patient : Patient.t)
  | CallCreateMedicalHistoryEntry (entry : MedicalHistoryEntry.t)
  | CallGetMedicalHistoryEntries (patientID : Z)
  | CallGetMedicalHistoryEntry (entryID : Z)
  | CallUpdateMedicalHistoryEntry (entryID : Z) (entry : MedicalHistoryEntry.t)
  | CallDeleteMedicalHistoryEntry (entryID : Z)
  | CallCreateLifestyleEntry (entry : LifestyleEntry.t)
  | CallGetLifestyleEntries (patientID : Z)
  | CallGetLifestyleEntry (entryID : Z)
  | CallUpdateLifestyleEntry (entryID : Z) (entry : LifestyleEntry.t)
  | CallDeleteLifestyleEntry (entryID : Z).

(** The repository methods that write. *)
Definition mutating (c : Call) : bool :=
  match c with
  | CallCreatePatient _ | CallUpdatePatient _ _
  | CallCreateMedicalHistoryEntry _ | CallUpdateMedicalHistoryEntry _ _
  | CallDeleteMedicalHistoryEntry _
  | CallCreateLifestyleEntry _ | CallUpdateLifestyleEntry _ _
  | CallDeleteLifestyleEntry _ => true
  | _ => false
  end.

Definition isAuthorize (c : Call) : bool :=
  match c with CallAuthorize _ => true | _ => false end.

Module Recorder.
Section recorder.
Context {W : Type}.

Definition recorded {A} (c : Call) (m : State W A)
  : State (W * list Call) A :=
  λ '(w, calls), let '(a, w') := m w in (a, (w', calls ++ [c])).

Definition Validator (v : Validate W) : Validate (W * list Call) :=
  {| Struct req := recorded (CallStruct req) (Struct v req) |}.

Definition authorize (f : Z → State W bool)
  : Z → State (W * list Call) bool :=
  λ patientID, recorded (CallAuthorize patientID) (f patientID).

Definition PatientRepository (r : ports.PatientRepository W)
  : ports.PatientRepository (W * list Call) := {|
  ports.CreatePatient p :=
    recorded (CallCreatePatient p) (ports.CreatePatient r p);
  ports.GetPatient id := recorded (CallGetPatient id) (ports.GetPatient r id);
  ports.UpdatePatient id p :=
    recorded (CallUpdatePatient id p) (ports.UpdatePatient r id p)
|}.

Definition MedicalHistoryRepository (r : ports.MedicalHistoryRepository W)
  : ports.MedicalHistoryRepository (W * list Call) := {|
  ports.CreateMedicalHistoryEntry e :=
    recorded (CallCreateMedicalHistoryEntry e)
             (ports.CreateMedicalHistoryEntry r e);
  ports.GetMedicalHistoryEntries id :=
    recorded (CallGetMedicalHistoryEntries id)
             (ports.GetMedicalHistoryEntries r id);
  ports.GetMedicalHistoryEntry id :=
    recorded (CallGetMedicalHistoryEntry id)
             (ports.GetMedicalHistoryEntry r id);
  ports.UpdateMedicalHistoryEntry id e :=
    recorded (CallUpdateMedicalHistoryEntry id e)
             (ports.UpdateMedicalHistoryEntry r id e);
  ports.DeleteMedicalHistoryEntry id :=
    recorded (CallDeleteMedicalHistoryEntry id)
             (ports.DeleteMedicalHistoryEntry r id)
|}.

Definition LifestyleRepository (r : ports.LifestyleRepository W)
  : ports.LifestyleRepository (W * list Call) := {|
  ports.CreateLifestyleEntry e :=
    recorded (CallCreateLifestyleEntry e) (ports.CreateLifestyleEntry r e);
  ports.GetLifestyleEntries id :=
    recorded (CallGetLifestyleEntries id) (ports.GetLifestyleEntries r id);
  ports.GetLifestyleEntry id :=
    recorded (CallGetLifestyleEntry id) (ports.GetLifestyleEntry r id);
  ports.UpdateLifestyleEntry id e :=
    recorded (CallUpdateLifestyleEntry id e)
             (ports.UpdateLifestyleEntry r id e);
  ports.DeleteLifestyleEntry id :=
    recorded (CallDeleteLifestyleEntry id) (ports.DeleteLifestyleEntry r id)
|}.

#[global] Instance clock `{!Clock W} : Clock (W * list Call) :=
  recorded CallNow Now.

(** The services, built over recording collaborators. *)
Definition PatientService (s : PatientService.t W)
  : PatientService.t (W * list Call) := {|
  PatientService.patientRepo :=
    PatientRepository (PatientService.patientRepo s);
  PatientService.validate := Validator (PatientService.validate s)
|}.

Definition LifestyleService (s : LifestyleService.t W)
  : LifestyleService.t (W * list Call) := {|
  LifestyleService.lifestyleRepo :=
    LifestyleRepository (LifestyleService.lifestyleRepo s);
  LifestyleService.patientRepo :=
    PatientRepository (LifestyleService.patientRepo s);
  LifestyleService.validator := Validator (LifestyleService.validator s);
  LifestyleService.authorize := authorize (LifestyleService.authorize s)
|}.

Definition MedicalHistoryService (s : MedicalHistoryService.t W)
  : MedicalHistoryService.t (W * list Call) := {|
  MedicalHistoryService.medicalHistoryRepo :=
    MedicalHistoryRepository (MedicalHistoryService.medicalHistoryRepo s);
  MedicalHistoryService.patientRepo :=
    PatientRepository (MedicalHistoryService.patientRepo s);
  MedicalHistoryService.validate :=
    Validator (MedicalHistoryService.validate s);
  MedicalHistoryService.authorize :=
    authorize (MedicalHistoryService.authorize s)
|}.
End recorder.
End Recorder.

(** ** cmd/main.go: the wiring

    Repositories over the query layer, services over the repositories,
    the validator and the authorize function, handlers over the services. *)

Module main.
Section wiring.
Context {W : Type} (queries : db.Queries W) (validate : Validate W)
        (authorize : Z → State W bool).

Definition patientRepo := PatientRepositoryImpl.NewPatientRepository queries.
Definition lifestyleRepo :=
  LifestyleRepositoryImpl.NewLifestyleRepository queries.
Definition medicalHistoryRepo :=
  MedicalHistoryRepositoryImpl.NewMedicalHistoryRepository queries.

Definition patientService : PatientService.t W := {|
  PatientService.patientRepo := patientRepo;
  PatientService.validate := validate
|}.

Definition lifestyleService : LifestyleService.t W := {|
  LifestyleService.lifestyleRepo := lifestyleRepo;
  LifestyleService.patientRepo := patientRepo;
  LifestyleService.validator := validate;
  LifestyleService.authorize := authorize
|}.

Definition medicalHistoryService : MedicalHistoryService.t W := {|
  MedicalHistoryService.medicalHistoryRepo := medicalHistoryRepo;
  MedicalHistoryService.patientRepo := patientRepo;
  MedicalHistoryService.validate := validate;
  MedicalHistoryService.authorize := authorize
|}.

Definition lifestyleHandler : LifestyleHandler.t W :=
  {| LifestyleHandler.lifestyleSvc := lifestyleService |}.

Definition medicalHistoryHandler : MedicalHistoryHandler.t W :=
  {| MedicalHistoryHandler.medicalHistorySvc := medicalHistoryService |}.
End wiring.
End main.

(** * The rest of the request pipeline *)

(** ** api/handler: the handlers that create, update and delete *)

Definition StatusCreated : Z := 201.
Definition StatusNoContent : Z := 204.

(** [errors.As] with a target of type [*domain.ValidationError]: walks
    the chain of wrapped errors. *)
Fixpoint AsValidationError (err : error) : bool :=
  match err with
  | ValidationError _ _ _ => true
  | Wrapped _ inner => AsValidationError inner
  | _ => false
  end.

(** What these handlers write: [c.JSON] with a [domain.ErrorResponse]
    or with one record, or [c.Status] alone. *)
Inductive Written :=
  | ErrorBody (Error : string)
  | PatientBody (patient : Patient.t)
  | LifestyleEntryBody (entry : LifestyleEntry.t)
  | MedicalHistoryEntryBody (entry : MedicalHistoryEntry.t)
  | NoBody.

Record Reply := Send { status : Z; body : Written }.

(** The methods of package handler that are not above. Their arguments
    are the path parameter of the request and what [c.ShouldBindJSON]
    made of its body: the decoded request, or the error of the decoder. *)
Module handler.
Record PatientHandler (W : Type) := { patientSvc : PatientService.t W }.
Arguments patientSvc {W} _.

Section methods.
Context {W : Type}.

Definition CreatePatient `{!Clock W} (h : PatientHandler W)
    (bound : result CreatePatientRequest.t) : State W Reply :=
  match bound with
  | Err err => mret (Send StatusBadRequest (ErrorBody (Error err)))
  | Ok req =>
      r ← PatientService.CreatePatient (patientSvc h) req;
      match r with
      | Err err =>
          if AsValidationError err then
            mret (Send StatusBadRequest (ErrorBody (Error err)))
          else
            mret (Send StatusInternalServerError
                    (ErrorBody "Failed to create patient"))
      | Ok patient => mret (Send StatusCreated (PatientBody patient))
      end
  end.

Definition GetPatient (h : PatientHandler W) (patient_id : string)
  : State W Reply :=
  match Atoi patient_id with
  | None => mret (Send StatusBadRequest (ErrorBody "Invalid patient ID"))
  | Some patientID =>
      r ← PatientService.GetPatient (patientSvc h) patientID;
      match r with
      | Err err =>
          if Is err ErrPatientNotFound then
            mret (Send StatusNotFound (ErrorBody "Patient not found"))
          else
            mret (Send StatusInternalServerError
                    (ErrorBody "Failed to get patient"))
      | Ok patient => mret (Send StatusOK (PatientBody patient))
      end
  end.

Definition UpdatePatient `{!Clock W} (h : PatientHandler W)
    (patient_id : string) (bound : result UpdatePatientRequest.t)
  : State W Reply :=
  match Atoi patient_id with
  | None => mret (Send StatusBadRequest (ErrorBody "Invalid patient ID"))
  | Some patientID =>
      match bound with
      | Err err => mret (Send StatusBadRequest (ErrorBody (Error err)))
      | Ok req =>
          r ← PatientService.UpdatePatient (patientSvc h) patientID req;
          match r with
          | Err err =>
              if Is err ErrPatientNotFound then
                mret (Send StatusNotFound (ErrorBody "Patient not found"))
              else if AsValidationError err then
                mret (Send StatusBadRequest (ErrorBody (Error err)))
              else
                mret (Send StatusInternalServerError
                        (ErrorBody "Failed to update patient"))
          | Ok patient => mret (Send StatusOK (PatientBody patient))
          end
      end
  end.

Definition CreateLifestyleEntry (h : LifestyleHandler.t W)
    (patient_id : string) (bound : result CreateLifestyleRequest.t)
  : State W Reply :=
  match Atoi patient_id with
  | None => mret (Send StatusBadRequest (ErrorBody "Invalid patient ID"))
  | Some patientID =>
      match bound with
      | Err err => mret (Send StatusBadRequest (ErrorBody (Error err)))
      | Ok req =>
          r ← LifestyleService.CreateLifestyleEntry
                (LifestyleHandler.lifestyleSvc h) patientID req;
          match r with
          | Err err =>
              if Is err ErrInvalidInput then
                mret (Send StatusBadRequest (ErrorBody (Error err)))
              else if Is err ErrPatientNotFound then
                mret (Send StatusNotFound (ErrorBody (Error err)))
              else
                mret (Send StatusInternalServerError
                        (ErrorBody "Failed to create lifestyle entry"))
          | Ok entry => mret (Send StatusCreated (LifestyleEntryBody entry))
          end
      end
  end.

Definition UpdateLifestyleEntry (h : LifestyleHandler.t W)
    (lifestyle_id : string) (bound : result UpdateLifestyleRequest.t)
  : State W Reply :=
  match Atoi lifestyle_id with
  | None => mret (Send StatusBadRequest (ErrorBody "Invalid lifestyle ID"))
  | Some entryID =>
      match bound with
      | Err err => mret (Send StatusBadRequest (ErrorBody (Error err)))
      | Ok req =>
          r ← LifestyleService.UpdateLifestyleEntry
                (LifestyleHandler.lifestyleSvc h) entryID req;
          match r with
          | Err err =>
              if Is err ErrInvalidInput then
                mret (Send StatusBadRequest (ErrorBody (Error err)))
              else if Is err ErrLifestyleEntryNotFound then
                mret (Send StatusNotFound (ErrorBody (Error err)))
              else if Is err ErrForbidden then
                mret (Send StatusForbidden (ErrorBody (Error err)))
              else
                mret (Send StatusInternalServerError
                        (ErrorBody "Failed to update lifestyle entry"))
          | Ok entry => mret (Send StatusOK (LifestyleEntryBody entry))
          end
      end
  end.

Definition DeleteLifestyleEntry (h : LifestyleHandler.t W)
    (lifestyle_id : string) : State W Reply :=
  match Atoi lifestyle_id with
  | None => mret (Send StatusBadRequest (ErrorBody "Invalid lifestyle ID"))
  | Some entryID =>
      err ← LifestyleService.DeleteLifestyleEntry
              (LifestyleHandler.lifestyleSvc h) entryID;
      match err with
      | Some err =>
          if Is err ErrLifestyleEntryNotFound then
            mret (Send StatusNotFound (ErrorBody (Error err)))
          else if Is err ErrForbidden then
            mret (Send StatusForbidden (ErrorBody (Error err)))
          else
            mret (Send StatusInternalServerError
                    (ErrorBody "Failed to delete lifestyle entry"))
      | None => mret (Send StatusNoContent NoBody)
      end
  end.

Definition CreateMedicalHistoryEntry (h : MedicalHistoryHandler.t W)
    (patient_id : string) (bound : result CreateMedicalHistoryRequest.t)
  : State W Reply :=
  match Atoi patient_id with
  | None => mret (Send StatusBadRequest (ErrorBody "Invalid patient ID"))
  | Some patientID =>
      match bound with
      | Err err => mret (Send StatusBadRequest (ErrorBody (Error err)))
      | Ok req =>
          r ← MedicalHistoryService.CreateMedicalHistoryEntry
                (MedicalHistoryHandler.medicalHistorySvc h) patientID req;
          match r with
          | Err err =>
              if Is err ErrInvalidMedicalHistoryData then
                mret (Send StatusBadRequest (ErrorBody (Error err)))
              else if Is err ErrPatientNotFound then
                mret (Send StatusNotFound (ErrorBody (Error err)))
              else
                mret (Send StatusInternalServerError
                        (ErrorBody "Failed to create medical history entry"))
          | Ok entry =>
              mret (Send StatusCreated (MedicalHistoryEntryBody entry))
          end
      end
  end.

Definition UpdateMedicalHistoryEntry (h : MedicalHistoryHandler.t W)
    (medical_history_id : string)
    (bound : result UpdateMedicalHistoryRequest.t) : State W Reply :=
  match Atoi medical_history_id with
  | None =>
      mret (Send StatusBadRequest (ErrorBody "Invalid medical history ID"))
  | Some entryID =>
      match bound with
      | Err err => mret (Send StatusBadRequest (ErrorBody (Error err)))
      | Ok req =>
          r ← MedicalHistoryService.UpdateMedicalHistoryEntry
                (MedicalHistoryHandler.medicalHistorySvc h) entryID req;
          match r with
          | Err err =>
              if Is err ErrMedicalHistoryEntryNotFound then
                mret (Send StatusNotFound (ErrorBody (Error err)))
              else if Is err ErrInvalidMedicalHistoryData then
                mret (Send StatusBadRequest (ErrorBody (Error err)))
              else if Is err ErrForbidden then
                mret (Send StatusForbidden (ErrorBody (Error err)))
              else
                mret (Send StatusInternalServerError
                        (ErrorBody "Failed to update medical history entry"))
          | Ok entry => mret (Send StatusOK (MedicalHistoryEntryBody entry))
          end
      end
  end.

Definition DeleteMedicalHistoryEntry (h : MedicalHistoryHandler.t W)
    (medical_history_id : string) : State W Reply :=
  match Atoi medical_history_id with
  | None => mret (Send StatusBadRequest (ErrorBody "Invalid entry ID"))
  | Some entryID =>
      err ← MedicalHistoryService.DeleteMedicalHistoryEntry
              (MedicalHistoryHandler.medicalHistorySvc h) entryID;
      match err with
      | Some err =>
          if Is err ErrMedicalHistoryEntryNotFound then
            mret (Send StatusNotFound (ErrorBody (Error err)))
          else if Is err ErrForbidden then
            mret (Send StatusForbidden (ErrorBody (Error err)))
          else
            mret (Send StatusInternalServerError
                    (ErrorBody "Failed to delete medical history entry"))
      | None => mret (Send StatusNoContent NoBody)
      end
  end.
End methods.
End handler.

(** cmd/main.go: the patient handler over the patient service. *)
Definition patientHandler {W} (queries : db.Queries W)
    (validate : Validate W) : handler.PatientHandler W :=
  {| handler.patientSvc := main.patientService queries validate |}.

(** ** internal/validation: the custom rules *)

(** [strings.Split] with a separator of one byte. *)
Fixpoint Split (s : string) (sep : ascii) : list string :=
  match s with
  | EmptyString => [""]
  | String c rest =>
      if bool_decide (c = sep) then "" :: Split rest sep
      else match Split rest sep with
           | piece :: pieces => String c piece :: pieces
           | [] => [String c ""]
           end
  end.

(** The strings of ASCII: every byte is below 128. *)
Fixpoint isASCII (s : string) : bool :=
  match s with
  | EmptyString => true
  | String c rest => (nat_of_ascii c <? 128)%nat && isASCII rest
  end.

(** [strings.TrimSpace] of a string of ASCII, whose white space is tab,
    line feed, vertical tab, form feed, carriage return and space. The
    strings it is given below are pieces of the struct tags of package
    domain. *)
Fixpoint TrimLeft (s : string) : string :=
  match s with
  | EmptyString => ""
  | String c rest => if Ascii.is_space c then TrimLeft rest else s
  end.

Fixpoint TrimRight (s : string) : string :=
  match s with
  | EmptyString => ""
  | String c rest =>
      match TrimRight rest with
      | EmptyString => if Ascii.is_space c then "" else String c ""
      | kept => String c kept
      end
  end.

Definition TrimSpace (s : string) : string := TrimRight (TrimLeft s).

(** Days of month [m] of year [y]. *)
Definition daysIn (m y : Z) : Z :=
  match m with
  | 2 => if isLeap y then 29 else 28
  | 4 | 6 | 9 | 11 => 30
  | _ => 31
  end.

Definition digit (c : ascii) : option Z := Z.of_nat <$> Ascii.is_nat c.

(** [time.Parse("2006-01-02", value)]: four digits, two digits and two
    digits between hyphens, naming a day of the calendar. *)
Definition ParseDate (value : string) : option Time :=
  match value with
  | String y1 (String y2 (String y3 (String y4 (String "-"
      (String m1 (String m2 (String "-"
         (String d1 (String d2 EmptyString))))))))) =>
      y1 ← digit y1; y2 ← digit y2; y3 ← digit y3; y4 ← digit y4;
      m1 ← digit m1; m2 ← digit m2; d1 ← digit d1; d2 ← digit d2;
      let year := 1000 * y1 + 100 * y2 + 10 * y3 + y4 in
      let month := 10 * m1 + m2 in
      let day := 10 * d1 + d2 in
      if bool_decide (1 ≤ month ≤ 12 ∧ 1 ≤ day ≤ daysIn month year)
      then Some (Date year month day) else None
  | _ => None
  end.

Definition isDigit (c : ascii) : bool := bool_decide (is_Some (digit c)).

Fixpoint allDigits (s : string) : bool :=
  match s with
  | EmptyString => true
  | String c rest => isDigit c && allDigits rest
  end.

(** The regular expression [^\+?[1-9]\d{1,14}$]. *)
Definition matchPhoneNumber (s : string) : bool :=
  let digits := match s with String "+" rest => rest | _ => s end in
  match digits with
  | String c rest =>
      isDigit c && bool_decide (c ≠ "0"%char)
      && allDigits rest
      && bool_decide (1 ≤ String.length rest ≤ 14)%nat
  | EmptyString => false
  end.

Module validation.
(** What [fl.Field().Interface()] holds for a field of a request of
    package domain: a [string], an [int] or a [time.Time]. *)
Inductive Interface :=
  | OfString (s : string)
  | OfInt (n : Z)
  | OfTime (t : Time).

Record FieldLevel := { Field : Interface; Param : string }.

(** [reflect.Value.String]: the string of a string, and for a value of
    another type [T] the text "<T Value>". *)
Definition ValueString (v : Interface) : string :=
  match v with
  | OfString s => s
  | OfInt _ => "<int Value>"
  | OfTime _ => "<time.Time Value>"
  end.

Definition PastDateValidator {W} `{!Clock W} (fl : FieldLevel)
  : State W bool :=
  match Field fl with
  | OfTime date => now ← Now; mret (Before date now)
  | _ => mret false
  end.

Definition DateFormatValidator (fl : FieldLevel) : bool :=
  match Field fl with
  | OfString dateString => bool_decide (is_Some (ParseDate dateString))
  | _ => false
  end.

Definition MinimumAgeValidator (fl : FieldLevel) : bool :=
  match Field fl with
  | OfInt age => bool_decide (18 ≤ age)
  | _ => false
  end.

Definition PhoneNumberValidator (fl : FieldLevel) : bool :=
  match Field fl with
  | OfString phoneNumber =>
      if bool_decide (phoneNumber = "") then true
      else matchPhoneNumber phoneNumber
  | _ => false
  end.

Definition OneOfValidator (fl : FieldLevel) : bool :=
  let field := Field fl in
  let param := Param fl in
  let validValues := Split param ","%char in
  existsb (λ validValue,
    bool_decide (ValueString field = TrimSpace validValue)) validValues.
End validation.

(** ** config.InitValidator: the validator of the running server

    [validator.New()] with the five rules above registered under the
    names [pastdate], [dateformat], [minage], [phoneNumber] and [oneof];
    the last replaces the rule of that name the library brings. Of the
    library's own rules the tags of package domain use [required],
    [omitempty] and [email].

    [Struct] visits the fields of a struct in declaration order and
    runs the rules of a field's tag from left to right. [omitempty]
    ends the field without an error when it holds the zero value of its
    type; the first rule that fails ends the field with one
    [FieldError] that names the field and the rule. *)
Module config.
Inductive Tag :=
  | omitempty
  | required
  | email
  | pastdate
  | dateformat
  | minage
  | phoneNumber
  | oneof (param : string).

(** [FieldError.Tag]. *)
Definition name (tag : Tag) : string :=
  match tag with
  | omitempty => "omitempty"
  | required => "required"
  | email => "email"
  | pastdate => "pastdate"
  | dateformat => "dateformat"
  | minage => "minage"
  | phoneNumber => "phoneNumber"
  | oneof _ => "oneof"
  end.

(** The library's [hasValue]: the field is not the zero value of its
    type. For a [time.Time] that is the struct [time.Time{}], the zero
    instant in UTC; the zero instant in another location has a value. *)
Definition hasValue (v : validation.Interface) : bool :=
  match v with
  | validation.OfString s => bool_decide (s ≠ "")
  | validation.OfInt n => bool_decide (n ≠ 0)
  | validation.OfTime t => bool_decide (t ≠ zeroTime)
  end.

Section validator.
(** [isEmail]: the regular expression of the library's [email] rule. *)
Context {W : Type} `{!Clock W} (isEmail : string → bool).

(** The function registered under a tag. *)
Definition validations (tag : Tag) (v : validation.Interface)
  : State W bool :=
  let fl param := {| validation.Field := v; validation.Param := param |} in
  match tag with
  | omitempty => mret true
  | required => mret (hasValue v)
  | email => mret (isEmail (validation.ValueString v))
  | pastdate => validation.PastDateValidator (fl "")
  | dateformat => mret (validation.DateFormatValidator (fl ""))
  | minage => mret (validation.MinimumAgeValidator (fl ""))
  | phoneNumber => mret (validation.PhoneNumberValidator (fl ""))
  | oneof param => mret (validation.OneOfValidator (fl param))
  end.

Fixpoint traverseField (field : string) (v : validation.Interface)
    (tags : list Tag) : State W (list FieldError) :=
  match tags with
  | [] => mret []
  | omitempty :: rest =>
      if hasValue v then traverseField field v rest else mret []
  | tag :: rest =>
      ok ← validations tag v;
      if ok : bool then traverseField field v rest
      else mret [mkFieldError field (name tag)]
  end.

Fixpoint validateStruct
    (fields : list (string * validation.Interface * list Tag))
  : State W (list FieldError) :=
  match fields with
  | [] => mret []
  | (field, v, tags) :: rest =>
      errs ← traverseField field v tags;
      more ← validateStruct rest;
      mret (errs ++ more)
  end.

(** The fields of the request structs of package domain that carry a
    [validate] tag, with their tags. *)
Definition fields (req : Request)
  : list (string * validation.Interface * list Tag) :=
  match req with
  | ReqCreatePatient r =>
      [("UserID", validation.OfInt (CreatePatientRequest.UserID r),
        [required]);
       ("FullName", validation.OfString (CreatePatientRequest.FullName r),
        [required]);
       ("Age", validation.OfInt (CreatePatientRequest.Age r),
        [omitempty; minage]);
       ("DateOfBirth",
        validation.OfTime (CreatePatientRequest.DateOfBirth r),
        [required; pastdate; dateformat]);
       ("Sex", validation.OfString (CreatePatientRequest.Sex r),
        [required; oneof "Male Female Other"]);
       ("PhoneNumber",
        validation.OfString (CreatePatientRequest.PhoneNumber r),
        [omitempty; phoneNumber]);
       ("EmailAddress",
        validation.OfString (CreatePatientRequest.EmailAddress r),
        [required; email]);
       ("PreferredCommunication",
        validation.OfString (CreatePatientRequest.PreferredCommunication r),
        [omitempty; oneof "Phone Email Text"]);
       ("SocioeconomicStatus",
        validation.OfString (CreatePatientRequest.SocioeconomicStatus r),
        [omitempty; oneof "Low Middle High Decline to Answer"])]
  | ReqUpdatePatient r =>
      [("Age", validation.OfInt (UpdatePatientRequest.Age r),
        [omitempty; minage]);
       ("DateOfBirth",
        validation.OfTime (UpdatePatientRequest.DateOfBirth r),
        [omitempty; pastdate; dateformat]);
       ("Sex", validation.OfString (UpdatePatientRequest.Sex r),
        [omitempty; oneof "Male Female Other"]);
       ("PhoneNumber",
        validation.OfString (UpdatePatientRequest.PhoneNumber r),
        [omitempty; phoneNumber]);
       ("EmailAddress",
        validation.OfString (UpdatePatientRequest.EmailAddress r),
        [omitempty; email]);
       ("PreferredCommunication",
        validation.OfString (UpdatePatientRequest.PreferredCommunication r),
        [omitempty; oneof "Phone Email Text"]);
       ("SocioeconomicStatus",
        validation.OfString (UpdatePatientRequest.SocioeconomicStatus r),
        [omitempty; oneof "Low Middle High Decline to Answer"])]
  | ReqCreateMedicalHistory r =>
      [("Condition",
        validation.OfString (CreateMedicalHistoryRequest.Condition r),
        [required]);
       ("DiagnosisDate",
        validation.OfTime (CreateMedicalHistoryRequest.DiagnosisDate r),
        [omitempty; pastdate]);
       ("Status",
        validation.OfString (CreateMedicalHistoryRequest.Status r),
        [required; oneof "Active Inactive Resolved"])]
  | ReqUpdateMedicalHistory r =>
      [("DiagnosisDate",
        validation.OfTime (UpdateMedicalHistoryRequest.DiagnosisDate r),
        [omitempty; pastdate]);
       ("Status",
        validation.OfString (UpdateMedicalHistoryRequest.Status r),
        [omitempty; oneof "Active Inactive Resolved"])]
  | ReqCreateLifestyle r =>
      [("LifestyleFactor",
        validation.OfString (CreateLifestyleRequest.LifestyleFactor r),
        [required])]
  | ReqUpdateLifestyle _ => []
  end.

Definition Validate : Validate W :=
  {| Struct req := validateStruct (fields req) |}.
End validator.
End config.

(** * Worlds to run the stack in *)

(** ** An in-memory database, identity provider and clock

    A world to run the stack in. The tables follow the migrations and
    the statements of platform/repository/queries: serial primary keys,
    whose sequence an insert advances even when a constraint then
    refuses the row, the enumerated types and the unique e-mail address
    of [patients], the foreign key from the entry tables to [patients],
    and [NOW()] read from the world's clock. The length limits of the
    character columns and the foreign key from [patients.user_id] to the
    table [Users], which no migration of the repository creates, are
    not checked, and a [DATE] column keeps the time it is given. The
    database of this world never fails for other reasons. *)

Module memdb.
Record World := {
  patients : list db.Patient.t;
  patient_lifestyle : list db.PatientLifestyle.t;
  patient_medical_history : list db.PatientMedicalHistory.t;
  nextPatientID : Z;
  nextLifestyleID : Z;
  nextMedicalHistoryID : Z;
  clock : Time;
  (* the identity provider's answer for each user id it knows *)
  users : list (string * result clerk.User)
}.

Definition setPatients (w : World) (rows : list db.Patient.t) (next : Z)
  : World :=
  {| patients := rows;
     patient_lifestyle := patient_lifestyle w;
     patient_medical_history := patient_medical_history w;
     nextPatientID := next;
     nextLifestyleID := nextLifestyleID w;
     nextMedicalHistoryID := nextMedicalHistoryID w;
     clock := clock w;
     users := users w |}.

Definition setLifestyle (w : World) (rows : list db.PatientLifestyle.t)
    (next : Z) : World :=
  {| patients := patients w;
     patient_lifestyle := rows;
     patient_medical_history := patient_medical_history w;
     nextPatientID := nextPatientID w;
     nextLifestyleID := next;
     nextMedicalHistoryID := nextMedicalHistoryID w;
     clock := clock w;
     users := users w |}.

Definition setMedicalHistory (w : World)
    (rows : list db.PatientMedicalHistory.t) (next : Z) : World :=
  {| patients := patients w;
     patient_lifestyle := patient_lifestyle w;
     patient_medical_history := rows;
     nextPatientID := nextPatientID w;
     nextLifestyleID := nextLifestyleID w;
     nextMedicalHistoryID := next;
     clock := clock w;
     users := users w |}.

Definition now (w : World) : Null Time := mkNull (clock w) true.

(** *** patients *)

Definition findPatient (id : Z) (rows : list db.Patient.t)
  : option db.Patient.t :=
  find (λ row, bool_decide (db.Patient.PatientID row = id)) rows.

(** The unique constraint on [email_address]: a row collides with a
    row of [rows] that holds the same address; NULLs never collide. *)
Definition emailTaken (email : Null string) (rows : list db.Patient.t)
  : bool :=
  Valid email &&
  existsb (λ row,
    Valid (db.Patient.EmailAddress row) &&
    bool_decide (V (db.Patient.EmailAddress row) = V email)) rows.

(** The types [sex_enum], [preferred_communication_enum] and
    [socioeconomic_status_enum] of the first migration. *)
Definition sex_enum : list string := ["Male"; "Female"; "Other"].
Definition preferred_communication_enum : list string :=
  ["Phone"; "Email"; "Text"].
Definition socioeconomic_status_enum : list string :=
  ["Low"; "Middle"; "High"; "Decline to Answer"].

(** A parameter of an enumerated type must spell one of its labels,
    unless it is NULL. *)
Definition labelled (enum : list string) (value : Null string) : bool :=
  negb (Valid value) || bool_decide (V value ∈ enum).

Definition CreatePatient (arg : db.CreatePatientParams.t)
  : State World (result db.Patient.t) := λ w,
  if negb (bool_decide (db.CreatePatientParams.Sex arg ∈ sex_enum)
           && labelled preferred_communication_enum
                (db.CreatePatientParams.PreferredCommunication arg)
           && labelled socioeconomic_status_enum
                (db.CreatePatientParams.SocioeconomicStatus arg))
  then (Err (PgError "22P02"), w)
  else if emailTaken (db.CreatePatientParams.EmailAddress arg) (patients w)
  then (Err (PgError "23505"),
        setPatients w (patients w) (nextPatientID w + 1))
  else
    let row := {|
      db.Patient.PatientID := nextPatientID w;
      db.Patient.UserID := db.CreatePatientParams.UserID arg;
      db.Patient.FullName := db.CreatePatientParams.FullName arg;
      db.Patient.Age := db.CreatePatientParams.Age arg;
      db.Patient.DateOfBirth := db.CreatePatientParams.DateOfBirth arg;
      db.Patient.Sex := db.CreatePatientParams.Sex arg;
      db.Patient.PhoneNumber := db.CreatePatientParams.PhoneNumber arg;
      db.Patient.EmailAddress := db.CreatePatientParams.EmailAddress arg;
      db.Patient.PreferredCommunication :=
        db.CreatePatientParams.PreferredCommunication arg;
      db.Patient.SocioeconomicStatus :=
        db.CreatePatientParams.SocioeconomicStatus arg;
      db.Patient.GeographicLocation :=
        db.CreatePatientParams.GeographicLocation arg;
      db.Patient.CreatedAt := now w;
      db.Patient.UpdatedAt := now w
    |} in
    (Ok row, setPatients w (patients w ++ [row]) (nextPatientID w + 1)).

Definition GetPatient (patientID : Z) : State World (result db.Patient.t) :=
  λ w, match findPatient patientID (patients w) with
       | Some row => (Ok row, w)
       | None => (Err ErrNoRows, w)
       end.

Definition UpdatePatient (arg : db.UpdatePatientParams.t)
  : State World (result db.Patient.t) := λ w,
  if negb (bool_decide (db.UpdatePatientParams.Sex arg ∈ sex_enum)
           && labelled preferred_communication_enum
                (db.UpdatePatientParams.PreferredCommunication arg)
           && labelled socioeconomic_status_enum
                (db.UpdatePatientParams.SocioeconomicStatus arg))
  then (Err (PgError "22P02"), w)
  else
  match findPatient (db.UpdatePatientParams.PatientID arg) (patients w) with
  | None => (Err ErrNoRows, w)
  | Some old =>
      if emailTaken (db.UpdatePatientParams.EmailAddress arg)
           (filter (λ row, db.Patient.PatientID row
                           ≠ db.Patient.PatientID old) (patients w))
      then (Err (PgError "23505"), w)
      else
        let row := {|
          db.Patient.PatientID := db.Patient.PatientID old;
          db.Patient.UserID := db.Patient.UserID old;
          db.Patient.FullName := db.UpdatePatientParams.FullName arg;
          db.Patient.Age := db.UpdatePatientParams.Age arg;
          db.Patient.DateOfBirth := db.UpdatePatientParams.DateOfBirth arg;
          db.Patient.Sex := db.UpdatePatientParams.Sex arg;
          db.Patient.PhoneNumber := db.UpdatePatientParams.PhoneNumber arg;
          db.Patient.EmailAddress := db.UpdatePatientParams.EmailAddress arg;
          db.Patient.PreferredCommunication :=
            db.UpdatePatientParams.PreferredCommunication arg;
          db.Patient.SocioeconomicStatus :=
            db.UpdatePatientParams.SocioeconomicStatus arg;
          db.Patient.GeographicLocation :=
            db.UpdatePatientParams.GeographicLocation arg;
          db.Patient.CreatedAt := db.Patient.CreatedAt old;
          db.Patient.UpdatedAt := now w
        |} in
        (Ok row,
         setPatients w
           ((λ r, if bool_decide (db.Patient.PatientID r
                                  = db.Patient.PatientID old)
                  then row else r) <$> patients w)
           (nextPatientID w))
  end.

(** *** patient_lifestyle *)

Definition findLifestyle (id : Z) (rows : list db.PatientLifestyle.t)
  : option db.PatientLifestyle.t :=
  find (λ row, bool_decide (db.PatientLifestyle.PatientLifestyleID row = id))
       rows.

Definition CreateLifestyleEntry (arg : db.CreateLifestyleEntryParams.t)
  : State World (result db.PatientLifestyle.t) := λ w,
  match findPatient (db.CreateLifestyleEntryParams.PatientID arg)
          (patients w) with
  | None =>
      (Err (PgError "23503"),
       setLifestyle w (patient_lifestyle w) (nextLifestyleID w + 1))
  | Some _ =>
      let row := {|
        db.PatientLifestyle.PatientLifestyleID := nextLifestyleID w;
        db.PatientLifestyle.PatientID :=
          db.CreateLifestyleEntryParams.PatientID arg;
        db.PatientLifestyle.LifestyleFactor :=
          db.CreateLifestyleEntryParams.LifestyleFactor arg;
        db.PatientLifestyle.Value := db.CreateLifestyleEntryParams.Value arg;
        db.PatientLifestyle.StartDate :=
          db.CreateLifestyleEntryParams.StartDate arg;
        db.PatientLifestyle.EndDate :=
          db.CreateLifestyleEntryParams.EndDate arg;
        db.PatientLifestyle.CreatedAt := now w;
        db.PatientLifestyle.UpdatedAt := now w
      |} in
      (Ok row,
       setLifestyle w (patient_lifestyle w ++ [row]) (nextLifestyleID w + 1))
  end.

Definition GetLifestyleEntries (patientID : Z)
  : State World (result (list db.PatientLifestyle.t)) := λ w,
  (Ok (filter (λ row, db.PatientLifestyle.PatientID row = patientID)
         (patient_lifestyle w)), w).

Definition GetLifestyleEntry (id : Z)
  : State World (result db.PatientLifestyle.t) := λ w,
  match findLifestyle id (patient_lifestyle w) with
  | Some row => (Ok row, w)
  | None => (Err ErrNoRows, w)
  end.

Definition UpdateLifestyleEntry (arg : db.UpdateLifestyleEntryParams.t)
  : State World (result db.PatientLifestyle.t) := λ w,
  match findLifestyle (db.UpdateLifestyleEntryParams.PatientLifestyleID arg)
          (patient_lifestyle w) with
  | None => (Err ErrNoRows, w)
  | Some old =>
      let row := {|
        db.PatientLifestyle.PatientLifestyleID :=
          db.PatientLifestyle.PatientLifestyleID old;
        db.PatientLifestyle.PatientID := db.PatientLifestyle.PatientID old;
        db.PatientLifestyle.LifestyleFactor :=
          db.UpdateLifestyleEntryParams.LifestyleFactor arg;
        db.PatientLifestyle.Value := db.UpdateLifestyleEntryParams.Value arg;
        db.PatientLifestyle.StartDate :=
          db.UpdateLifestyleEntryParams.StartDate arg;
        db.PatientLifestyle.EndDate :=
          db.UpdateLifestyleEntryParams.EndDate arg;
        db.PatientLifestyle.CreatedAt := db.PatientLifestyle.CreatedAt old;
        db.PatientLifestyle.UpdatedAt := db.PatientLifestyle.UpdatedAt old
      |} in
      (Ok row,
       setLifestyle w
         ((λ r, if bool_decide (db.PatientLifestyle.PatientLifestyleID r
                                = db.PatientLifestyle.PatientLifestyleID old)
                then row else r) <$> patient_lifestyle w)
         (nextLifestyleID w))
  end.

(** [:exec]: deleting no row is not an error. *)
Definition DeleteLifestyleEntry (id : Z) : State World (option error) := λ w,
  (None,
   setLifestyle w
     (filter (λ row, db.PatientLifestyle.PatientLifestyleID row ≠ id)
        (patient_lifestyle w))
     (nextLifestyleID w)).

(** *** patient_medical_history *)

Definition findMedicalHistory (id : Z)
    (rows : list db.PatientMedicalHistory.t)
  : option db.PatientMedicalHistory.t :=
  find (λ row,
    bool_decide (db.PatientMedicalHistory.PatientMedicalHistoryID row = id))
    rows.

Definition CreateMedicalHistoryEntry
    (arg : db.CreateMedicalHistoryEntryParams.t)
  : State World (result db.PatientMedicalHistory.t) := λ w,
  let owner := db.CreateMedicalHistoryEntryParams.PatientID arg in
  if Valid owner && negb (bool_decide (is_Some (findPatient (V owner)
                                                  (patients w))))
  then (Err (PgError "23503"),
        setMedicalHistory w (patient_medical_history w)
          (nextMedicalHistoryID w + 1))
  else
    let row := {|
      db.PatientMedicalHistory.PatientMedicalHistoryID :=
        nextMedicalHistoryID w;
      db.PatientMedicalHistory.PatientID := owner;
      db.PatientMedicalHistory.Condition :=
        db.CreateMedicalHistoryEntryParams.Condition arg;
      db.PatientMedicalHistory.DiagnosisDate :=
        db.CreateMedicalHistoryEntryParams.DiagnosisDate arg;
      db.PatientMedicalHistory.Status :=
        db.CreateMedicalHistoryEntryParams.Status arg;
      db.PatientMedicalHistory.Details :=
        db.CreateMedicalHistoryEntryParams.Details arg;
      db.PatientMedicalHistory.CreatedAt := now w;
      db.PatientMedicalHistory.UpdatedAt := now w
    |} in
    (Ok row,
     setMedicalHistory w (patient_medical_history w ++ [row])
       (nextMedicalHistoryID w + 1)).

(** [WHERE patient_id = $1]: a NULL on either side selects nothing. *)
Definition GetMedicalHistoryEntries (patientID : Null Z)
  : State World (result (list db.PatientMedicalHistory.t)) := λ w,
  (Ok (filter (λ row,
         Valid patientID = true
         ∧ Valid (db.PatientMedicalHistory.PatientID row) = true
         ∧ V (db.PatientMedicalHistory.PatientID row) = V patientID)
         (patient_medical_history w)), w).

Definition GetMedicalHistoryEntry (id : Z)
  : State World (result db.PatientMedicalHistory.t) := λ w,
  match findMedicalHistory id (patient_medical_history w) with
  | Some row => (Ok row, w)
  | None => (Err ErrNoRows, w)
  end.

Definition UpdateMedicalHistoryEntry
    (arg : db.UpdateMedicalHistoryEntryParams.t)
  : State World (result db.PatientMedicalHistory.t) := λ w,
  match findMedicalHistory
          (db.UpdateMedicalHistoryEntryParams.PatientMedicalHistoryID arg)
          (patient_medical_history w) with
  | None => (Err ErrNoRows, w)
  | Some old =>
      let row := {|
        db.PatientMedicalHistory.PatientMedicalHistoryID :=
          db.PatientMedicalHistory.PatientMedicalHistoryID old;
        db.PatientMedicalHistory.PatientID :=
          db.PatientMedicalHistory.PatientID old;
        db.PatientMedicalHistory.Condition :=
          db.UpdateMedicalHistoryEntryParams.Condition arg;
        db.PatientMedicalHistory.DiagnosisDate :=
          db.UpdateMedicalHistoryEntryParams.DiagnosisDate arg;
        db.PatientMedicalHistory.Status :=
          db.UpdateMedicalHistoryEntryParams.Status arg;
        db.PatientMedicalHistory.Details :=
          db.UpdateMedicalHistoryEntryParams.Details arg;
        db.PatientMedicalHistory.CreatedAt :=
          db.PatientMedicalHistory.CreatedAt old;
        db.PatientMedicalHistory.UpdatedAt := now w
      |} in
      (Ok row,
       setMedicalHistory w
         ((λ r,
            if bool_decide
                 (db.PatientMedicalHistory.PatientMedicalHistoryID r
                  = db.PatientMedicalHistory.PatientMedicalHistoryID old)
            then row else r) <$> patient_medical_history w)
         (nextMedicalHistoryID w))
  end.

Definition DeleteMedicalHistoryEntry (id : Z)
  : State World (option error) := λ w,
  (None,
   setMedicalHistory w
     (filter (λ row,
        db.PatientMedicalHistory.PatientMedicalHistoryID row ≠ id)
        (patient_medical_history w))
     (nextMedicalHistoryID w)).

Definition queries : db.Queries World := {|
  db.CreatePatient := CreatePatient;
  db.GetPatient := GetPatient;
  db.UpdatePatient := UpdatePatient;
  db.CreateLifestyleEntry := CreateLifestyleEntry;
  db.DeleteLifestyleEntry := DeleteLifestyleEntry;
  db.GetLifestyleEntries := GetLifestyleEntries;
  db.GetLifestyleEntry := GetLifestyleEntry;
  db.UpdateLifestyleEntry := UpdateLifestyleEntry;
  db.CreateMedicalHistoryEntry := CreateMedicalHistoryEntry;
  db.DeleteMedicalHistoryEntry := DeleteMedicalHistoryEntry;
  db.GetMedicalHistoryEntries := GetMedicalHistoryEntries;
  db.GetMedicalHistoryEntry := GetMedicalHistoryEntry;
  db.UpdateMedicalHistoryEntry := UpdateMedicalHistoryEntry
|}.

(** *** The identity provider and the clock of this world *)

Definition GetUser (userID : string) : State World (result clerk.User) :=
  λ w, match find (λ u, bool_decide (u.1 = userID)) (users w) with
       | Some u => (u.2, w)
       | None => (Err (OtherError "user not found"), w)
       end.

Definition client : clerk.Client World := {| clerk.GetUser := GetUser |}.

#[global] Instance worldClock : Clock World := λ w, (clock w, w).
(** *** The server of cmd/main.go over this world

    The validator is the one [config.InitValidator] builds, over the
    library's e-mail rule; the authorize function is the one the
    services are given. *)

Definition validate (isEmail : string → bool) : Validate World :=
  config.Validate isEmail.

Definition patientService (isEmail : string → bool)
  : PatientService.t World :=
  main.patientService queries (validate isEmail).

Definition lifestyleService (isEmail : string → bool)
    (authorize : Z → State World bool) : LifestyleService.t World :=
  main.lifestyleService queries (validate isEmail) authorize.

Definition medicalHistoryService (isEmail : string → bool)
    (authorize : Z → State World bool) : MedicalHistoryService.t World :=
  main.medicalHistoryService queries (validate isEmail) authorize.
End memdb.

(** ** A sample world

    Patient 1 has no entries; patient 2 owns lifestyle entry 1 and
    medical history entry 1. The identity provider knows user "3" (no
    roles), "4" (a physician), "6" (holder of the read-all permission)
    and fails for user "5". Today is 15 June 2024. *)

Module sample.
Definition patientRow (id : Z) (name : string) (age : Z) (dob : Time)
    (email : string) : db.Patient.t := {|
  db.Patient.PatientID := id;
  db.Patient.UserID := mkNull id true;
  db.Patient.FullName := name;
  db.Patient.Age := mkNull age true;
  db.Patient.DateOfBirth := dob;
  db.Patient.Sex := "Other";
  db.Patient.PhoneNumber := mkNull "" false;
  db.Patient.EmailAddress := mkNull email true;
  db.Patient.PreferredCommunication := mkNull "" false;
  db.Patient.SocioeconomicStatus := mkNull "" false;
  db.Patient.GeographicLocation := mkNull "" false;
  db.Patient.CreatedAt := mkNull (Date 2024 1 10) true;
  db.Patient.UpdatedAt := mkNull (Date 2024 1 10) true
|}.

Definition lifestyleRow : db.PatientLifestyle.t := {|
  db.PatientLifestyle.PatientLifestyleID := 1;
  db.PatientLifestyle.PatientID := 2;
  db.PatientLifestyle.LifestyleFactor := "Smoking";
  db.PatientLifestyle.Value := mkNull "No" true;
  db.PatientLifestyle.StartDate := mkNull (Date 2020 3 1) true;
  db.PatientLifestyle.EndDate := mkNull zeroTime false;
  db.PatientLifestyle.CreatedAt := mkNull (Date 2024 2 1) true;
  db.PatientLifestyle.UpdatedAt := mkNull (Date 2024 2 1) true
|}.

Definition historyRow : db.PatientMedicalHistory.t := {|
  db.PatientMedicalHistory.PatientMedicalHistoryID := 1;
  db.PatientMedicalHistory.PatientID := mkNull 2 true;
  db.PatientMedicalHistory.Condition := "Asthma";
  db.PatientMedicalHistory.DiagnosisDate := mkNull (Date 2010 5 20) true;
  db.PatientMedicalHistory.Status := mkNull "Active" true;
  db.PatientMedicalHistory.Details := mkNull "" false;
  db.PatientMedicalHistory.CreatedAt := mkNull (Date 2024 2 1) true;
  db.PatientMedicalHistory.UpdatedAt := mkNull (Date 2024 2 1) true
|}.

Definition world : memdb.World := {|
  memdb.patients :=
    [patientRow 1 "Ada" 30 (Date 1994 1 1) "ada@example.com";
     patientRow 2 "Bob" 40 (Date 1984 2 2) "bob@example.com"];
  memdb.patient_lifestyle := [lifestyleRow];
  memdb.patient_medical_history := [historyRow];
  memdb.nextPatientID := 3;
  memdb.nextLifestyleID := 2;
  memdb.nextMedicalHistoryID := 2;
  memdb.clock := Date 2024 6 15;
  memdb.users :=
    [("3", Ok {| clerk.PublicMetadata := [] |});
     ("4", Ok {| clerk.PublicMetadata :=
                   [("role", clerk.VString "physician")] |});
     ("5", Err (OtherError "identity provider unavailable"));
     ("6", Ok {| clerk.PublicMetadata :=
                   [("patient", clerk.VString "read_all")] |})]
|}.

(** An intake request for a patient born on 1 January 1994, who is
    30 years old on the day of the sample world. *)
Definition intake (age : Z) : CreatePatientRequest.t := {|
  CreatePatientRequest.UserID := 7;
  CreatePatientRequest.FullName := "Cy";
  CreatePatientRequest.Age := age;
  CreatePatientRequest.DateOfBirth := Date 1994 1 1;
  CreatePatientRequest.Sex := "Male";
  CreatePatientRequest.PhoneNumber := "";
  CreatePatientRequest.EmailAddress := "cy@example.com";
  CreatePatientRequest.PreferredCommunication := "";
  CreatePatientRequest.SocioeconomicStatus := "";
  CreatePatientRequest.GeographicLocation := ""
|}.

(** The request of the service test inconsistent_age_dob: born on 1
    January 1994 and said to be 25. *)
Definition claimed : CreatePatientRequest.t := {|
  CreatePatientRequest.UserID := 1;
  CreatePatientRequest.FullName := "John Doe";
  CreatePatientRequest.Age := 25;
  CreatePatientRequest.DateOfBirth := Date 1994 1 1;
  CreatePatientRequest.Sex := "Male";
  CreatePatientRequest.PhoneNumber := "";
  CreatePatientRequest.EmailAddress := "john.doe@example.com";
  CreatePatientRequest.PreferredCommunication := "Email";
  CreatePatientRequest.SocioeconomicStatus := "Middle";
  CreatePatientRequest.GeographicLocation := "Testville"
|}.

(** An intake request with nothing filled in, and a lifestyle entry
    without its factor. *)
Definition blankIntake : CreatePatientRequest.t :=
  CreatePatientRequest.mk 0 "" 0 zeroTime "" "" "" "" "" "".

Definition blankEntry : CreateLifestyleRequest.t :=
  CreateLifestyleRequest.mk "" "daily" zeroTime zeroTime.

Definition blankHistory : CreateMedicalHistoryRequest.t :=
  CreateMedicalHistoryRequest.mk "" zeroTime "" "".

(** A day after the day of the sample world. *)
Definition future : Time := Date 2030 1 1.

(** An update of a medical history entry that moves the diagnosis to
    that day. *)
Definition postdated : UpdateMedicalHistoryRequest.t :=
  UpdateMedicalHistoryRequest.mk "" future "" "".

(** The validator of the running server. Of the library's e-mail rule
    this world relies on a single fact, that it accepts the two
    addresses stored in it; every other string is taken as refused. *)
Definition isEmail (s : string) : bool :=
  bool_decide (s ∈ ["ada@example.com"; "bob@example.com"]).

Definition validate : Validate memdb.World := memdb.validate isEmail.

(** Authorize functions as the service tests script them: one that
    answers [false] and one that answers [true] for every owner. *)
Definition deny : Z → State memdb.World bool := λ _, mret false.
Definition allow : Z → State memdb.World bool := λ _, mret true.

(** The services and handlers of cmd/main.go over this world. *)
Definition patientService : PatientService.t memdb.World :=
  memdb.patientService isEmail.

Definition lifestyleService (authorize : Z → State memdb.World bool)
  : LifestyleService.t memdb.World :=
  memdb.lifestyleService isEmail authorize.

Definition medicalHistoryService (authorize : Z → State memdb.World bool)
  : MedicalHistoryService.t memdb.World :=
  memdb.medicalHistoryService isEmail authorize.

Definition lifestyleHandler (authorize : Z → State memdb.World bool)
  : LifestyleHandler.t memdb.World :=
  main.lifestyleHandler memdb.queries validate authorize.

Definition medicalHistoryHandler (authorize : Z → State memdb.World bool)
  : MedicalHistoryHandler.t memdb.World :=
  main.medicalHistoryHandler memdb.queries validate authorize.

(** A lifestyle repository that answers a listing with the empty list
    and no error, as a test double may; its other methods are those of
    the repository over the sample database. *)
Definition emptyListRepo : ports.LifestyleRepository memdb.World := {|
  ports.CreateLifestyleEntry :=
    ports.CreateLifestyleEntry (main.lifestyleRepo memdb.queries);
  ports.GetLifestyleEntries _ := mret (Ok []);
  ports.GetLifestyleEntry :=
    ports.GetLifestyleEntry (main.lifestyleRepo memdb.queries);
  ports.UpdateLifestyleEntry :=
    ports.UpdateLifestyleEntry (main.lifestyleRepo memdb.queries);
  ports.DeleteLifestyleEntry :=
    ports.DeleteLifestyleEntry (main.lifestyleRepo memdb.queries)
|}.

Definition emptyListService : LifestyleService.t memdb.World := {|
  LifestyleService.lifestyleRepo := emptyListRepo;
  LifestyleService.patientRepo := main.patientRepo memdb.queries;
  LifestyleService.validator := validate;
  LifestyleService.authorize _ := mret true
|}.

(** An update that supplies an age and a date of birth, and nothing
    else; either may be left at its zero value. *)
Definition patch (age : Z) (dateOfBirth : Time) : UpdatePatientRequest.t :=
  UpdatePatientRequest.mk "" age dateOfBirth "" "" "" "" "" "".
End sample.

(** * The vocabulary of the properties *)

(** The error of the age / date-of-birth consistency check. *)
Definition inconsistentData : error :=
  ValidationError "INCONSISTENT_DATA" "Age and DateOfBirth are inconsistent" [].

(** Optional overwrite, in the words of the specification: a supplied
    (non-zero) request field replaces the stored field, a field left at
    its zero value leaves the stored field as it was. *)
Definition overwrites {A} (zero : A) (requested stored merged : A) : Prop :=
  (requested ≠ zero → merged = requested)
  ∧ (requested = zero → merged = stored).

(** The same for a field that holds a time, whose zero value is the zero
    instant in whatever location: [IsZero] is what tells a supplied
    time from one left out. *)
Definition overwritesTime (requested stored merged : Time) : Prop :=
  (IsZero requested = false → merged = requested)
  ∧ (IsZero requested = true → merged = stored).

(** The caller holds a role: some value of the profile metadata is the
    string "physician" or the string "clerk". *)
Definition holdsRole (md : list (string * clerk.value)) : Prop :=
  ∃ key roles, (key, roles) ∈ md
    ∧ (roles = clerk.VString "physician" ∨ roles = clerk.VString "clerk").

(** The calls made since [calls] include no repository write. *)
Definition nothingWritten (calls calls' : list Call) : Prop :=
  ∃ made, calls' = calls ++ made ∧ Forall (λ c, mutating c = false) made.

(** The calls made since [calls] include no call of authorize. *)
Definition authorizeNotCalled (calls calls' : list Call) : Prop :=
  ∃ made, calls' = calls ++ made ∧ Forall (λ c, isAuthorize c = false) made.

(** What each service makes of the answer of the repository's write. *)
Definition wrapUpdateLifestyle (r : result LifestyleEntry.t)
  : result LifestyleEntry.t :=
  match r with
  | Err err =>
      if Is err ErrLifestyleEntryNotFound then Err ErrLifestyleEntryNotFound
      else Err (Wrapped "update lifestyle entry error" err)
  | Ok entry => Ok entry
  end.

Definition wrapDeleteLifestyle (r : option error) : option error :=
  match r with
  | Some err =>
      if Is err ErrLifestyleEntryNotFound then Some ErrLifestyleEntryNotFound
      else Some (Wrapped "delete lifestyle entry error" err)
  | None => None
  end.

Definition wrapUpdateMedicalHistory (r : result MedicalHistoryEntry.t)
  : result MedicalHistoryEntry.t :=
  match r with
  | Err err => Err (Wrapped "update medical history entry error" err)
  | Ok entry => Ok entry
  end.

Definition wrapDeleteMedicalHistory (r : option error) : option error :=
  match r with
  | Some err =>
      if Is err ErrMedicalHistoryEntryNotFound
      then Some ErrMedicalHistoryEntryNotFound
      else Some (Wrapped "delete medical history entry error" err)
  | None => None
  end.

Definition wrapUpdatePatient (r : result Patient.t) : result Patient.t :=
  match r with
  | Err err => Err (Wrapped "update patient error" err)
  | Ok updatedPatient => Ok updatedPatient
  end.

(** The same service with another authorize function. *)
Definition withAuthorizeL {W} (s : LifestyleService.t W)
    (authorize : Z → State W bool) : LifestyleService.t W := {|
  LifestyleService.lifestyleRepo := LifestyleService.lifestyleRepo s;
  LifestyleService.patientRepo := LifestyleService.patientRepo s;
  LifestyleService.validator := LifestyleService.validator s;
  LifestyleService.authorize := authorize
|}.

Definition withAuthorizeM {W} (s : MedicalHistoryService.t W)
    (authorize : Z → State W bool) : MedicalHistoryService.t W := {|
  MedicalHistoryService.medicalHistoryRepo :=
    MedicalHistoryService.medicalHistoryRepo s;
  MedicalHistoryService.patientRepo := MedicalHistoryService.patientRepo s;
  MedicalHistoryService.validate := MedicalHistoryService.validate s;
  MedicalHistoryService.authorize := authorize
|}.

(** The same service over another repository, that is, over other
    stored records. *)
Definition withPatientRepo {W} (s : PatientService.t W)
    (repo : ports.PatientRepository W) : PatientService.t W := {|
  PatientService.patientRepo := repo;
  PatientService.validate := PatientService.validate s
|}.

(** The patient service of cmd/main.go over any repository: its
    validator is the one [config.InitValidator] builds. *)
Definition production {W} `{!Clock W} (isEmail : string → bool)
    (repo : ports.PatientRepository W) : PatientService.t W := {|
  PatientService.patientRepo := repo;
  PatientService.validate := config.Validate isEmail
|}.

(** The parameters of the [oneof] tags of package domain. *)
Definition oneofParams : list string :=
  ["Male Female Other"; "Phone Email Text";
   "Low Middle High Decline to Answer"; "Active Inactive Resolved"].

(** The day exists in the calendar. *)
Definition validDate (t : Time) : Prop :=
  1 ≤ tMonth t ≤ 12 ∧ 1 ≤ tDay t ≤ daysIn (tMonth t) (tYear t).

(** In the year of [now], the birthday of someone born on [dateOfBirth]
    is today or has passed. *)
Definition birthdayReached (now dateOfBirth : Time) : bool :=
  (tMonth dateOfBirth <? tMonth now)
  || (tMonth dateOfBirth =? tMonth now) && (tDay dateOfBirth <=? tDay now).

(** The age in completed years. *)
Definition calendarAge (now dateOfBirth : Time) : Z :=
  Year now - Year dateOfBirth
  - (if birthdayReached now dateOfBirth then 0 else 1).

(** ** Proof tools *)

(** Unfolds the monad of a run. *)
Ltac run := unfold mbind, mret, State_bind, State_ret in *; simpl in *.

(** Case analysis on every call and every branch of a run. *)
Ltac cases :=
  repeat (simpl in *;
          match goal with
          | |- context [let '(_, _) := ?m ?w in _] =>
              let E := fresh "E" in destruct (m w) as [? ?] eqn:E
          | |- context [match ?x with _ => _ end] => destruct x
          end).

(** Exhibits the calls made since the start of a run and checks each. *)
Ltac made_calls :=
  eexists; rewrite <- ?(assoc_L (++)); split; [done|]; repeat constructor.

(** Case analysis on a month, given [H : 1 ≤ m ≤ 12]. *)
Ltac by_month H :=
  match type of H with
  | 1 ≤ ?m ≤ 12 =>
      let Hm := fresh "Hm" in
      assert (m = 1 ∨ m = 2 ∨ m = 3 ∨ m = 4 ∨ m = 5 ∨ m = 6
              ∨ m = 7 ∨ m = 8 ∨ m = 9 ∨ m = 10 ∨ m = 11 ∨ m = 12)
        as Hm by lia;
      clear H;
      destruct Hm
        as [->|[->|[->|[->|[->|[->|[->|[->|[->|[->|[->| ->]]]]]]]]]]]
  end.

(** Decides a comparison of two days of the year, month by month. *)
Ltac compare_days :=
  unfold expectedAge, calendarAge, birthdayReached, YearDay, Year, daysIn in *;
  simpl in *;
  repeat match goal with
         | |- context [isLeap ?y] => destruct (isLeap y)
         | H : context [isLeap ?y] |- _ => destruct (isLeap y)
         end;
  simpl in *;
  repeat match goal with
         | |- context [?a <? ?b] => destruct (Z.ltb_spec a b)
         | |- context [?a <=? ?b] => destruct (Z.leb_spec a b)
         | |- context [?a =? ?b] => destruct (Z.eqb_spec a b)
         end;
  simpl; try lia; try done.

(** * Properties *)

Lemma length_zero_nil {A} (l : list A) :
  bool_decide (length l = 0%nat) = true ↔ l = [].
Proof. rewrite bool_decide_eq_true. destruct l; naive_solver. Qed.

(** ** Listing never succeeds with an empty list *)

Section list_nonempty.
Context {W : Type}.

Lemma service_list_nonempty (s : LifestyleService.t W) patientID w entries w' :
  LifestyleService.GetLifestyleEntries s patientID w = (Ok entries, w') →
  entries ≠ [].
Proof.
  unfold LifestyleService.GetLifestyleEntries. run.
  destruct (ports.GetPatient _ _ w) as [[p|err] w1].
  - destruct (ports.GetLifestyleEntries _ _ w1) as [[l|err] w2]; [|done].
    destruct l; simpl; intros H; inversion H; subst. done.
  - destruct (Is err ErrPatientNotFound); done.
Qed.

Lemma service_list_empty (s : LifestyleService.t W) patientID w p w1 w2 :
  ports.GetPatient (LifestyleService.patientRepo s) patientID w = (Ok p, w1) →
  ports.GetLifestyleEntries (LifestyleService.lifestyleRepo s) patientID w1
    = (Ok [], w2) →
  LifestyleService.GetLifestyleEntries s patientID w
    = (Err ErrLifestyleEntryNotFound, w2).
Proof.
  intros Hp Hl. unfold LifestyleService.GetLifestyleEntries. run.
  by rewrite Hp, Hl.
Qed.

Lemma repo_list_nonempty (q : db.Queries W) patientID w entries w' :
  MedicalHistoryRepositoryImpl.GetMedicalHistoryEntries q patientID w
    = (Ok entries, w') →
  entries ≠ [].
Proof.
  unfold MedicalHistoryRepositoryImpl.GetMedicalHistoryEntries. run.
  destruct (db.GetMedicalHistoryEntries _ _ w) as [[l|err] w1]; [|done].
  destruct l; simpl; intros H; inversion H; subst. done.
Qed.

Lemma repo_list_empty (q : db.Queries W) patientID w w1 :
  db.GetMedicalHistoryEntries q (mkNull (int32 patientID) true) w
    = (Ok [], w1) →
  MedicalHistoryRepositoryImpl.GetMedicalHistoryEntries q patientID w
    = (Err ErrMedicalHistoryEntryNotFound, w1).
Proof.
  intros Hq. unfold MedicalHistoryRepositoryImpl.GetMedicalHistoryEntries.
  run. by rewrite Hq.
Qed.
End list_nonempty.

(** C10. Whenever the Lifestyle service's GetLifestyleEntries or the
    MedicalHistory repository's GetMedicalHistoryEntries returns without
    an error, the list it returns is not empty: a result of length zero
    is turned into ErrLifestyleEntryNotFound, respectively
    ErrMedicalHistoryEntryNotFound. *)
Theorem successful_list_is_nonempty :
  (∀ W (s : LifestyleService.t W) patientID w entries w',
     LifestyleService.GetLifestyleEntries s patientID w = (Ok entries, w') →
     entries ≠ [])
  ∧ (∀ W (s : LifestyleService.t W) patientID w p w1 w2,
       ports.GetPatient (LifestyleService.patientRepo s) patientID w
         = (Ok p, w1) →
       ports.GetLifestyleEntries (LifestyleService.lifestyleRepo s)
         patientID w1 = (Ok [], w2) →
       LifestyleService.GetLifestyleEntries s patientID w
         = (Err ErrLifestyleEntryNotFound, w2))
  ∧ (∀ W (q : db.Queries W) patientID w entries w',
       MedicalHistoryRepositoryImpl.GetMedicalHistoryEntries q patientID w
         = (Ok entries, w') →
       entries ≠ [])
  ∧ (∀ W (q : db.Queries W) patientID w w1,
       db.GetMedicalHistoryEntries q (mkNull (int32 patientID) true) w
         = (Ok [], w1) →
       MedicalHistoryRepositoryImpl.GetMedicalHistoryEntries q patientID w
         = (Err ErrMedicalHistoryEntryNotFound, w1)).
Proof.
  split_and!; intros W.
  - apply service_list_nonempty.
  - apply service_list_empty.
  - apply repo_list_nonempty.
  - apply repo_list_empty.
Qed.

(** The four parts at work in the sample world: patient 2 has one entry
    of each kind, patient 1 has none; a repository double that lists
    nothing without an error makes the service report the missing
    entries. *)
Lemma successful_list_is_nonempty_witness :
  [LifestyleRepositoryImpl.convertDbLifestyleEntryToDomain
     sample.lifestyleRow] ≠ []
  ∧ LifestyleService.GetLifestyleEntries sample.emptyListService 1
      sample.world = (Err ErrLifestyleEntryNotFound, sample.world)
  ∧ [MedicalHistoryRepositoryImpl.convertDbMedicalHistoryEntryToDomain
       sample.historyRow] ≠ []
  ∧ MedicalHistoryRepositoryImpl.GetMedicalHistoryEntries memdb.queries 1
      sample.world = (Err ErrMedicalHistoryEntryNotFound, sample.world).
Proof.
  destruct successful_list_is_nonempty as (Hs & Hse & Hr & He).
  split_and!.
  - apply (Hs _
      (sample.lifestyleService sample.deny) 2 sample.world _ sample.world).
    reflexivity.
  - apply (Hse _ sample.emptyListService 1 sample.world
             (PatientRepositoryImpl.convertDbPatientToDomain
                (sample.patientRow 1 "Ada" 30 (Date 1994 1 1)
                   "ada@example.com"))
             sample.world sample.world); reflexivity.
  - apply (Hr _ memdb.queries 2 sample.world _ sample.world). reflexivity.
  - apply (He _ memdb.queries 1 sample.world sample.world). reflexivity.
Defined.

(** ** The update merge *)

Lemma overwrites_string (requested stored : string) :
  overwrites "" requested stored
    (if bool_decide (requested ≠ "") then requested else stored).
Proof. split; intros H; case_bool_decide; naive_solver. Qed.

Lemma overwrites_int (requested stored : Z) :
  overwrites 0 requested stored
    (if bool_decide (requested ≠ 0) then requested else stored).
Proof. split; intros H; case_bool_decide; naive_solver. Qed.

Lemma overwrites_time (requested stored : Time) :
  overwritesTime requested stored
    (if negb (IsZero requested) then requested else stored).
Proof. split; intros ->; done. Qed.

Lemma merge_patient_zero p :
  PatientService.merge p UpdatePatientRequest.zero = p.
Proof. by destruct p. Qed.

Lemma merge_lifestyle_zero e :
  LifestyleService.merge e UpdateLifestyleRequest.zero = e.
Proof. by destruct e. Qed.

Lemma merge_history_zero e :
  MedicalHistoryService.merge e UpdateMedicalHistoryRequest.zero = e.
Proof. by destruct e. Qed.

(** ** What Update and Delete do once the entry is loaded

    For a request that passes validation and an entry the repository
    returns, the whole run is decided by the boolean the authorize
    function returns: [false] ends it with [ErrForbidden] after three
    calls, [true] goes on to the repository's write. *)

Section authorized_runs.
Context {W : Type}.

Lemma UpdateLifestyleEntry_run (s : LifestyleService.t W) entryID req
    w calls w1 existing w2 allowed w3 :
  Struct (LifestyleService.validator s) (ReqUpdateLifestyle req) w
    = ([], w1) →
  ports.GetLifestyleEntry (LifestyleService.lifestyleRepo s) entryID w1
    = (Ok existing, w2) →
  LifestyleService.authorize s (LifestyleEntry.PatientID existing) w2
    = (allowed, w3) →
  LifestyleService.UpdateLifestyleEntry (Recorder.LifestyleService s)
    entryID req (w, calls)
  = let seen := [CallStruct (ReqUpdateLifestyle req);
                 CallGetLifestyleEntry entryID;
                 CallAuthorize (LifestyleEntry.PatientID existing)] in
    if allowed then
      let merged := LifestyleService.merge existing req in
      let '(r, w4) := ports.UpdateLifestyleEntry
                        (LifestyleService.lifestyleRepo s) entryID merged w3 in
      (wrapUpdateLifestyle r,
       (w4, calls ++ seen ++ [CallUpdateLifestyleEntry entryID merged]))
    else (Err ErrForbidden, (w3, calls ++ seen)).
Proof.
  intros Hv Hg Ha. unfold LifestyleService.UpdateLifestyleEntry. run.
  rewrite Hv; simpl; rewrite Hg; simpl; rewrite Ha. destruct allowed; simpl.
  - destruct (ports.UpdateLifestyleEntry _ _ _ w3) as [[e|err] w4]; simpl;
      [|destruct (Is err _)]; by rewrite <- !(assoc_L (++)).
  - by rewrite <- !(assoc_L (++)).
Qed.

Lemma DeleteLifestyleEntry_run (s : LifestyleService.t W) entryID
    w calls existing w2 allowed w3 :
  ports.GetLifestyleEntry (LifestyleService.lifestyleRepo s) entryID w
    = (Ok existing, w2) →
  LifestyleService.authorize s (LifestyleEntry.PatientID existing) w2
    = (allowed, w3) →
  LifestyleService.DeleteLifestyleEntry (Recorder.LifestyleService s)
    entryID (w, calls)
  = let seen := [CallGetLifestyleEntry entryID;
                 CallAuthorize (LifestyleEntry.PatientID existing)] in
    if allowed then
      let '(r, w4) := ports.DeleteLifestyleEntry
                        (LifestyleService.lifestyleRepo s) entryID w3 in
      (wrapDeleteLifestyle r,
       (w4, calls ++ seen ++ [CallDeleteLifestyleEntry entryID]))
    else (Some ErrForbidden, (w3, calls ++ seen)).
Proof.
  intros Hg Ha. unfold LifestyleService.DeleteLifestyleEntry. run.
  rewrite Hg; simpl; rewrite Ha. destruct allowed; simpl.
  - destruct (ports.DeleteLifestyleEntry _ _ w3) as [[err|] w4]; simpl;
      [destruct (Is err _)|]; by rewrite <- !(assoc_L (++)).
  - by rewrite <- !(assoc_L (++)).
Qed.

Lemma UpdateMedicalHistoryEntry_run (s : MedicalHistoryService.t W)
    entryID req w calls w1 existing w2 allowed w3 :
  Struct (MedicalHistoryService.validate s) (ReqUpdateMedicalHistory req) w
    = ([], w1) →
  ports.GetMedicalHistoryEntry (MedicalHistoryService.medicalHistoryRepo s)
    entryID w1 = (Ok existing, w2) →
  MedicalHistoryService.authorize s
    (MedicalHistoryEntry.PatientID existing) w2 = (allowed, w3) →
  MedicalHistoryService.UpdateMedicalHistoryEntry
    (Recorder.MedicalHistoryService s) entryID req (w, calls)
  = let seen := [CallStruct (ReqUpdateMedicalHistory req);
                 CallGetMedicalHistoryEntry entryID;
                 CallAuthorize (MedicalHistoryEntry.PatientID existing)] in
    if allowed then
      let merged := MedicalHistoryService.merge existing req in
      let '(r, w4) := ports.UpdateMedicalHistoryEntry
                        (MedicalHistoryService.medicalHistoryRepo s)
                        entryID merged w3 in
      (wrapUpdateMedicalHistory r,
       (w4, calls ++ seen ++ [CallUpdateMedicalHistoryEntry entryID merged]))
    else (Err ErrForbidden, (w3, calls ++ seen)).
Proof.
  intros Hv Hg Ha.
  unfold MedicalHistoryService.UpdateMedicalHistoryEntry. run.
  rewrite Hv; simpl; rewrite Hg; simpl; rewrite Ha. destruct allowed; simpl.
  - destruct (ports.UpdateMedicalHistoryEntry _ _ _ w3) as [[e|err] w4];
      simpl; by rewrite <- !(assoc_L (++)).
  - by rewrite <- !(assoc_L (++)).
Qed.

Lemma DeleteMedicalHistoryEntry_run (s : MedicalHistoryService.t W)
    entryID w calls existing w2 allowed w3 :
  ports.GetMedicalHistoryEntry (MedicalHistoryService.medicalHistoryRepo s)
    entryID w = (Ok existing, w2) →
  MedicalHistoryService.authorize s
    (MedicalHistoryEntry.PatientID existing) w2 = (allowed, w3) →
  MedicalHistoryService.DeleteMedicalHistoryEntry
    (Recorder.MedicalHistoryService s) entryID (w, calls)
  = let seen := [CallGetMedicalHistoryEntry entryID;
                 CallAuthorize (MedicalHistoryEntry.PatientID existing)] in
    if allowed then
      let '(r, w4) := ports.DeleteMedicalHistoryEntry
                        (MedicalHistoryService.medicalHistoryRepo s)
                        entryID w3 in
      (wrapDeleteMedicalHistory r,
       (w4, calls ++ seen ++ [CallDeleteMedicalHistoryEntry entryID]))
    else (Some ErrForbidden, (w3, calls ++ seen)).
Proof.
  intros Hg Ha.
  unfold MedicalHistoryService.DeleteMedicalHistoryEntry. run.
  rewrite Hg; simpl; rewrite Ha. destruct allowed; simpl.
  - destruct (ports.DeleteMedicalHistoryEntry _ _ w3) as [[err|] w4]; simpl;
      [destruct (Is err _)|]; by rewrite <- !(assoc_L (++)).
  - by rewrite <- !(assoc_L (++)).
Qed.
End authorized_runs.

(** ** A denied Update or Delete writes nothing *)

Section forbidden.
Context {W : Type}.

Lemma forbidden_UpdateLifestyleEntry (s : LifestyleService.t W) entryID req
    w calls w' calls' :
  LifestyleService.UpdateLifestyleEntry (Recorder.LifestyleService s)
    entryID req (w, calls) = (Err ErrForbidden, (w', calls')) →
  nothingWritten calls calls'.
Proof.
  unfold LifestyleService.UpdateLifestyleEntry. run.
  cases; intros [= <- <-] || intros [=]. made_calls.
Qed.

Lemma forbidden_DeleteLifestyleEntry (s : LifestyleService.t W) entryID
    w calls w' calls' :
  LifestyleService.DeleteLifestyleEntry (Recorder.LifestyleService s)
    entryID (w, calls) = (Some ErrForbidden, (w', calls')) →
  nothingWritten calls calls'.
Proof.
  unfold LifestyleService.DeleteLifestyleEntry. run.
  cases; intros [= <- <-] || intros [=]. made_calls.
Qed.

Lemma forbidden_UpdateMedicalHistoryEntry (s : MedicalHistoryService.t W)
    entryID req w calls w' calls' :
  MedicalHistoryService.UpdateMedicalHistoryEntry
    (Recorder.MedicalHistoryService s) entryID req (w, calls)
    = (Err ErrForbidden, (w', calls')) →
  nothingWritten calls calls'.
Proof.
  unfold MedicalHistoryService.UpdateMedicalHistoryEntry. run.
  cases; intros [= <- <-] || intros [=]. made_calls.
Qed.

Lemma forbidden_DeleteMedicalHistoryEntry (s : MedicalHistoryService.t W)
    entryID w calls w' calls' :
  MedicalHistoryService.DeleteMedicalHistoryEntry
    (Recorder.MedicalHistoryService s) entryID (w, calls)
    = (Some ErrForbidden, (w', calls')) →
  nothingWritten calls calls'.
Proof.
  unfold MedicalHistoryService.DeleteMedicalHistoryEntry. run.
  cases; intros [= <- <-] || intros [=]. made_calls.
Qed.
End forbidden.

(** C3, as the code has it. Take an Update or Delete of a Lifestyle or
    MedicalHistory entry whose stored owner id makes the injected
    authorize function return false. No write of a repository is
    called. Delete returns ErrForbidden, after the load of the entry and
    the authorize call. Update validates the request before anything
    else: when the validator reports nothing it returns ErrForbidden
    after the validation, the load and the authorize call; when the
    validator reports a failing rule it returns the validation error
    (ErrInvalidInput for a Lifestyle entry, a ValidationError with the
    details for a MedicalHistory entry) and neither loads the entry nor
    calls authorize. Conversely, whenever one of the four operations
    returns ErrForbidden no write was called. *)
Theorem forbidden_skips_the_write :
  (∀ W (s : LifestyleService.t W) entryID req w calls errs w1 existing
     w2 w3,
     Struct (LifestyleService.validator s) (ReqUpdateLifestyle req) w
       = (errs, w1) →
     ports.GetLifestyleEntry (LifestyleService.lifestyleRepo s) entryID w1
       = (Ok existing, w2) →
     LifestyleService.authorize s (LifestyleEntry.PatientID existing) w2
       = (false, w3) →
     ∃ calls',
       LifestyleService.UpdateLifestyleEntry (Recorder.LifestyleService s)
         entryID req (w, calls)
       = match errs with
         | [] => (Err ErrForbidden, (w3, calls'))
         | _ :: _ => (Err ErrInvalidInput, (w1, calls'))
         end
       ∧ nothingWritten calls calls'
       ∧ (errs ≠ [] → authorizeNotCalled calls calls'))
  ∧ (∀ W (s : LifestyleService.t W) entryID w calls existing w2 w3,
       ports.GetLifestyleEntry (LifestyleService.lifestyleRepo s) entryID w
         = (Ok existing, w2) →
       LifestyleService.authorize s (LifestyleEntry.PatientID existing) w2
         = (false, w3) →
       ∃ calls',
         LifestyleService.DeleteLifestyleEntry (Recorder.LifestyleService s)
           entryID (w, calls) = (Some ErrForbidden, (w3, calls'))
         ∧ nothingWritten calls calls')
  ∧ (∀ W (s : MedicalHistoryService.t W) entryID req w calls errs w1
       existing w2 w3,
       Struct (MedicalHistoryService.validate s)
         (ReqUpdateMedicalHistory req) w = (errs, w1) →
       ports.GetMedicalHistoryEntry
         (MedicalHistoryService.medicalHistoryRepo s) entryID w1
         = (Ok existing, w2) →
       MedicalHistoryService.authorize s
         (MedicalHistoryEntry.PatientID existing) w2 = (false, w3) →
       ∃ calls',
         MedicalHistoryService.UpdateMedicalHistoryEntry
           (Recorder.MedicalHistoryService s) entryID req (w, calls)
         = match errs with
           | [] => (Err ErrForbidden, (w3, calls'))
           | _ :: _ =>
               (Err (ValidationError "INVALID_MEDICAL_HISTORY_DATA"
                       "Validation errors occurred" (errorDetails errs)),
                (w1, calls'))
           end
         ∧ nothingWritten calls calls'
         ∧ (errs ≠ [] → authorizeNotCalled calls calls'))
  ∧ (∀ W (s : MedicalHistoryService.t W) entryID w calls existing w2 w3,
       ports.GetMedicalHistoryEntry
         (MedicalHistoryService.medicalHistoryRepo s) entryID w
         = (Ok existing, w2) →
       MedicalHistoryService.authorize s
         (MedicalHistoryEntry.PatientID existing) w2 = (false, w3) →
       ∃ calls',
         MedicalHistoryService.DeleteMedicalHistoryEntry
           (Recorder.MedicalHistoryService s) entryID (w, calls)
         = (Some ErrForbidden, (w3, calls'))
         ∧ nothingWritten calls calls')
  ∧ (∀ W (s : LifestyleService.t W) entryID req w calls w' calls',
       LifestyleService.UpdateLifestyleEntry (Recorder.LifestyleService s)
         entryID req (w, calls) = (Err ErrForbidden, (w', calls')) →
       nothingWritten calls calls')
  ∧ (∀ W (s : LifestyleService.t W) entryID w calls w' calls',
       LifestyleService.DeleteLifestyleEntry (Recorder.LifestyleService s)
         entryID (w, calls) = (Some ErrForbidden, (w', calls')) →
       nothingWritten calls calls')
  ∧ (∀ W (s : MedicalHistoryService.t W) entryID req w calls w' calls',
       MedicalHistoryService.UpdateMedicalHistoryEntry
         (Recorder.MedicalHistoryService s) entryID req (w, calls)
       = (Err ErrForbidden, (w', calls')) →
       nothingWritten calls calls')
  ∧ (∀ W (s : MedicalHistoryService.t W) entryID w calls w' calls',
       MedicalHistoryService.DeleteMedicalHistoryEntry
         (Recorder.MedicalHistoryService s) entryID (w, calls)
       = (Some ErrForbidden, (w', calls')) →
       nothingWritten calls calls').
Proof.
  split_and!; intros W s.
  - intros * Hv Hg Ha. destruct errs as [|fe errs].
    + eexists. split_and!.
      * by rewrite (UpdateLifestyleEntry_run _ _ _ _ _ _ _ _ _ _ Hv Hg Ha).
      * made_calls.
      * done.
    + exists (calls ++ [CallStruct (ReqUpdateLifestyle req)]). split_and!.
      * unfold LifestyleService.UpdateLifestyleEntry. run. by rewrite Hv.
      * made_calls.
      * intros _. made_calls.
  - intros * Hg Ha. eexists. split.
    + by rewrite (DeleteLifestyleEntry_run _ _ _ _ _ _ _ _ Hg Ha).
    + made_calls.
  - intros * Hv Hg Ha. destruct errs as [|fe errs].
    + eexists. split_and!.
      * by rewrite (UpdateMedicalHistoryEntry_run _ _ _ _ _ _ _ _ _ _ Hv Hg Ha).
      * made_calls.
      * done.
    + exists (calls ++ [CallStruct (ReqUpdateMedicalHistory req)]).
      split_and!.
      * unfold MedicalHistoryService.UpdateMedicalHistoryEntry. run.
        by rewrite Hv.
      * made_calls.
      * intros _. made_calls.
  - intros * Hg Ha. eexists. split.
    + by rewrite (DeleteMedicalHistoryEntry_run _ _ _ _ _ _ _ _ Hg Ha).
    + made_calls.
  - apply forbidden_UpdateLifestyleEntry.
  - apply forbidden_DeleteLifestyleEntry.
  - apply forbidden_UpdateMedicalHistoryEntry.
  - apply forbidden_DeleteMedicalHistoryEntry.
Qed.

(** In the sample world, under an authorize function that denies, the
    entries of patient 2 are updated and deleted: each call is refused
    and the database is the one it was. An update of the medical history
    entry that sets its diagnosis to a day still to come is answered with
    the validation error instead. *)
Lemma forbidden_skips_the_write_witness :
  (∃ calls',
     LifestyleService.UpdateLifestyleEntry
       (Recorder.LifestyleService (sample.lifestyleService sample.deny)) 1
       UpdateLifestyleRequest.zero (sample.world, [])
     = (Err ErrForbidden, (sample.world, calls'))
     ∧ nothingWritten [] calls')
  ∧ (∃ calls',
       LifestyleService.DeleteLifestyleEntry
         (Recorder.LifestyleService (sample.lifestyleService sample.deny)) 1
         (sample.world, [])
       = (Some ErrForbidden, (sample.world, calls'))
       ∧ nothingWritten [] calls')
  ∧ (∃ calls',
       MedicalHistoryService.UpdateMedicalHistoryEntry
         (Recorder.MedicalHistoryService
            (sample.medicalHistoryService sample.deny)) 1
         UpdateMedicalHistoryRequest.zero (sample.world, [])
       = (Err ErrForbidden, (sample.world, calls'))
       ∧ nothingWritten [] calls')
  ∧ (∃ calls',
       MedicalHistoryService.UpdateMedicalHistoryEntry
         (Recorder.MedicalHistoryService
            (sample.medicalHistoryService sample.deny)) 1
         sample.postdated (sample.world, [])
       = (Err (ValidationError "INVALID_MEDICAL_HISTORY_DATA"
                 "Validation errors occurred"
                 ["Field DiagnosisDate failed validation for tag pastdate"]),
          (sample.world, calls'))
       ∧ nothingWritten [] calls'
       ∧ authorizeNotCalled [] calls')
  ∧ (∃ calls',
       MedicalHistoryService.DeleteMedicalHistoryEntry
         (Recorder.MedicalHistoryService
            (sample.medicalHistoryService sample.deny)) 1
         (sample.world, [])
       = (Some ErrForbidden, (sample.world, calls'))
       ∧ nothingWritten [] calls').
Proof.
  destruct forbidden_skips_the_write as (HuL & HdL & HuM & HdM & _).
  pose (entry := LifestyleRepositoryImpl.convertDbLifestyleEntryToDomain
                   sample.lifestyleRow).
  pose (history :=
          MedicalHistoryRepositoryImpl.convertDbMedicalHistoryEntryToDomain
            sample.historyRow).
  split_and!.
  - destruct (HuL _ (sample.lifestyleService sample.deny) 1
                UpdateLifestyleRequest.zero sample.world [] []
                sample.world entry sample.world sample.world)
      as (calls' & Hrun & Hw & _); [reflexivity..|]. eauto.
  - apply (HdL _ (sample.lifestyleService sample.deny) 1
             sample.world [] entry sample.world sample.world); reflexivity.
  - destruct (HuM _ (sample.medicalHistoryService sample.deny) 1
                UpdateMedicalHistoryRequest.zero sample.world [] []
                sample.world history sample.world sample.world)
      as (calls' & Hrun & Hw & _); [reflexivity..|]. eauto.
  - destruct (HuM _ (sample.medicalHistoryService sample.deny) 1
                sample.postdated sample.world []
                [mkFieldError "DiagnosisDate" "pastdate"]
                sample.world history sample.world sample.world)
      as (calls' & Hrun & Hw & Hauth); [reflexivity..|].
    exists calls'. split_and!; [done|done|by apply Hauth].
  - apply (HdM _ (sample.medicalHistoryService sample.deny) 1
             sample.world [] history sample.world sample.world); reflexivity.
Defined.

(** Against C3 as stated: medical history entry 1 belongs to patient 2,
    for whom the authorize function answers false, and the update of
    that entry with a diagnosis dated after today is not answered
    ErrForbidden but with the validation error. *)
Lemma refused_body_is_not_answered_forbidden :
  (MedicalHistoryService.GetMedicalHistoryEntry
     (sample.medicalHistoryService sample.deny) 1 sample.world).1
  = Ok (MedicalHistoryRepositoryImpl.convertDbMedicalHistoryEntryToDomain
          sample.historyRow)
  ∧ sample.deny
      (MedicalHistoryEntry.PatientID
         (MedicalHistoryRepositoryImpl.convertDbMedicalHistoryEntryToDomain
            sample.historyRow)) sample.world
    = (false, sample.world)
  ∧ MedicalHistoryService.UpdateMedicalHistoryEntry
      (sample.medicalHistoryService sample.deny) 1 sample.postdated
      sample.world
    = (Err (ValidationError "INVALID_MEDICAL_HISTORY_DATA"
              "Validation errors occurred"
              ["Field DiagnosisDate failed validation for tag pastdate"]),
       sample.world)
  ∧ (MedicalHistoryService.UpdateMedicalHistoryEntry
       (sample.medicalHistoryService sample.deny) 1 sample.postdated
       sample.world).1
    ≠ Err ErrForbidden.
Proof. split_and!; [reflexivity..|done]. Qed.

(** ** Which operations consult the authorize function *)

Section who_authorizes.
Context {W : Type}.

Lemma CreateLifestyleEntry_no_authorize (s : LifestyleService.t W)
    patientID req w calls :
  authorizeNotCalled calls
    (LifestyleService.CreateLifestyleEntry (Recorder.LifestyleService s)
       patientID req (w, calls)).2.2.
Proof.
  unfold LifestyleService.CreateLifestyleEntry. run. cases; made_calls.
Qed.

Lemma GetLifestyleEntries_no_authorize (s : LifestyleService.t W)
    patientID w calls :
  authorizeNotCalled calls
    (LifestyleService.GetLifestyleEntries (Recorder.LifestyleService s)
       patientID (w, calls)).2.2.
Proof.
  unfold LifestyleService.GetLifestyleEntries. run. cases; made_calls.
Qed.

Lemma GetLifestyleEntry_no_authorize (s : LifestyleService.t W)
    entryID w calls :
  authorizeNotCalled calls
    (LifestyleService.GetLifestyleEntry (Recorder.LifestyleService s)
       entryID (w, calls)).2.2.
Proof.
  unfold LifestyleService.GetLifestyleEntry. run. cases; made_calls.
Qed.

Lemma CreateMedicalHistoryEntry_no_authorize (s : MedicalHistoryService.t W)
    patientID req w calls :
  authorizeNotCalled calls
    (MedicalHistoryService.CreateMedicalHistoryEntry
       (Recorder.MedicalHistoryService s) patientID req (w, calls)).2.2.
Proof.
  unfold MedicalHistoryService.CreateMedicalHistoryEntry. run.
  cases; made_calls.
Qed.

Lemma GetMedicalHistoryEntries_no_authorize (s : MedicalHistoryService.t W)
    patientID w calls :
  authorizeNotCalled calls
    (MedicalHistoryService.GetMedicalHistoryEntries
       (Recorder.MedicalHistoryService s) patientID (w, calls)).2.2.
Proof.
  unfold MedicalHistoryService.GetMedicalHistoryEntries. run.
  cases; made_calls.
Qed.

Lemma GetMedicalHistoryEntry_no_authorize (s : MedicalHistoryService.t W)
    entryID w calls :
  authorizeNotCalled calls
    (MedicalHistoryService.GetMedicalHistoryEntry
       (Recorder.MedicalHistoryService s) entryID (w, calls)).2.2.
Proof.
  unfold MedicalHistoryService.GetMedicalHistoryEntry. run.
  cases; made_calls.
Qed.
End who_authorizes.

(** C9. Create, List-by-owner and Get-by-id of the Lifestyle and
    MedicalHistory services never call the injected authorize function:
    no run of them records a call of it, and replacing the authorize
    function by any other leaves their result and their effect on the
    world the same. Update and Delete call it, with the owner id of the
    loaded entry, whenever the request passes validation and the entry
    is found. *)
Theorem only_update_and_delete_authorize :
  ∀ W (sL : LifestyleService.t W) (sM : MedicalHistoryService.t W)
    (authorize : Z → State W bool) (id : Z) w calls,
    (* Create, List, Get: no call of authorize *)
    (∀ req, authorizeNotCalled calls
       (LifestyleService.CreateLifestyleEntry (Recorder.LifestyleService sL)
          id req (w, calls)).2.2)
    ∧ authorizeNotCalled calls
        (LifestyleService.GetLifestyleEntries (Recorder.LifestyleService sL)
           id (w, calls)).2.2
    ∧ authorizeNotCalled calls
        (LifestyleService.GetLifestyleEntry (Recorder.LifestyleService sL)
           id (w, calls)).2.2
    ∧ (∀ req, authorizeNotCalled calls
         (MedicalHistoryService.CreateMedicalHistoryEntry
            (Recorder.MedicalHistoryService sM) id req (w, calls)).2.2)
    ∧ authorizeNotCalled calls
        (MedicalHistoryService.GetMedicalHistoryEntries
           (Recorder.MedicalHistoryService sM) id (w, calls)).2.2
    ∧ authorizeNotCalled calls
        (MedicalHistoryService.GetMedicalHistoryEntry
           (Recorder.MedicalHistoryService sM) id (w, calls)).2.2
    (* ... and the same outcome under any other authorize function *)
    ∧ (∀ req, LifestyleService.CreateLifestyleEntry
                (withAuthorizeL sL authorize) id req w
              = LifestyleService.CreateLifestyleEntry sL id req w)
    ∧ LifestyleService.GetLifestyleEntries (withAuthorizeL sL authorize) id w
      = LifestyleService.GetLifestyleEntries sL id w
    ∧ LifestyleService.GetLifestyleEntry (withAuthorizeL sL authorize) id w
      = LifestyleService.GetLifestyleEntry sL id w
    ∧ (∀ req, MedicalHistoryService.CreateMedicalHistoryEntry
                (withAuthorizeM sM authorize) id req w
              = MedicalHistoryService.CreateMedicalHistoryEntry sM id req w)
    ∧ MedicalHistoryService.GetMedicalHistoryEntries
        (withAuthorizeM sM authorize) id w
      = MedicalHistoryService.GetMedicalHistoryEntries sM id w
    ∧ MedicalHistoryService.GetMedicalHistoryEntry
        (withAuthorizeM sM authorize) id w
      = MedicalHistoryService.GetMedicalHistoryEntry sM id w
    (* Update and Delete: authorize is called for the entry's owner *)
    ∧ (∀ req w1 existing w2,
         Struct (LifestyleService.validator sL) (ReqUpdateLifestyle req) w
           = ([], w1) →
         ports.GetLifestyleEntry (LifestyleService.lifestyleRepo sL) id w1
           = (Ok existing, w2) →
         CallAuthorize (LifestyleEntry.PatientID existing)
         ∈ (LifestyleService.UpdateLifestyleEntry
              (Recorder.LifestyleService sL) id req (w, calls)).2.2)
    ∧ (∀ existing w2,
         ports.GetLifestyleEntry (LifestyleService.lifestyleRepo sL) id w
           = (Ok existing, w2) →
         CallAuthorize (LifestyleEntry.PatientID existing)
         ∈ (LifestyleService.DeleteLifestyleEntry
              (Recorder.LifestyleService sL) id (w, calls)).2.2)
    ∧ (∀ req w1 existing w2,
         Struct (MedicalHistoryService.validate sM)
           (ReqUpdateMedicalHistory req) w = ([], w1) →
         ports.GetMedicalHistoryEntry
           (MedicalHistoryService.medicalHistoryRepo sM) id w1
           = (Ok existing, w2) →
         CallAuthorize (MedicalHistoryEntry.PatientID existing)
         ∈ (MedicalHistoryService.UpdateMedicalHistoryEntry
              (Recorder.MedicalHistoryService sM) id req (w, calls)).2.2)
    ∧ (∀ existing w2,
         ports.GetMedicalHistoryEntry
           (MedicalHistoryService.medicalHistoryRepo sM) id w
           = (Ok existing, w2) →
         CallAuthorize (MedicalHistoryEntry.PatientID existing)
         ∈ (MedicalHistoryService.DeleteMedicalHistoryEntry
              (Recorder.MedicalHistoryService sM) id (w, calls)).2.2).
Proof.
  intros. split_and!; try done.
  - intros. apply CreateLifestyleEntry_no_authorize.
  - apply GetLifestyleEntries_no_authorize.
  - apply GetLifestyleEntry_no_authorize.
  - intros. apply CreateMedicalHistoryEntry_no_authorize.
  - apply GetMedicalHistoryEntries_no_authorize.
  - apply GetMedicalHistoryEntry_no_authorize.
  - intros * Hv Hg.
    destruct (LifestyleService.authorize sL
                (LifestyleEntry.PatientID existing) w2) as [a w3] eqn:Ha.
    rewrite (UpdateLifestyleEntry_run _ _ _ _ _ _ _ _ _ _ Hv Hg Ha).
    destruct a; cases; simpl; rewrite ?elem_of_app, ?elem_of_cons; naive_solver.
  - intros * Hg.
    destruct (LifestyleService.authorize sL
                (LifestyleEntry.PatientID existing) w2) as [a w3] eqn:Ha.
    rewrite (DeleteLifestyleEntry_run _ _ _ _ _ _ _ _ Hg Ha).
    destruct a; cases; simpl; rewrite ?elem_of_app, ?elem_of_cons; naive_solver.
  - intros * Hv Hg.
    destruct (MedicalHistoryService.authorize sM
                (MedicalHistoryEntry.PatientID existing) w2) as [a w3] eqn:Ha.
    rewrite (UpdateMedicalHistoryEntry_run _ _ _ _ _ _ _ _ _ _ Hv Hg Ha).
    destruct a; cases; simpl; rewrite ?elem_of_app, ?elem_of_cons; naive_solver.
  - intros * Hg.
    destruct (MedicalHistoryService.authorize sM
                (MedicalHistoryEntry.PatientID existing) w2) as [a w3] eqn:Ha.
    rewrite (DeleteMedicalHistoryEntry_run _ _ _ _ _ _ _ _ Hg Ha).
    destruct a; cases; simpl; rewrite ?elem_of_app, ?elem_of_cons; naive_solver.
Qed.

(** In the sample world, under an authorize function that denies:
    listing the entries of patient 2
    records no call of authorize; updating and deleting entry 1 of
    either kind records the call for its owner, patient 2. *)
Lemma only_update_and_delete_authorize_witness :
  authorizeNotCalled []
    (LifestyleService.GetLifestyleEntries
       (Recorder.LifestyleService (sample.lifestyleService sample.deny)) 2
       (sample.world, [])).2.2
  ∧ CallAuthorize 2
    ∈ (LifestyleService.UpdateLifestyleEntry
         (Recorder.LifestyleService (sample.lifestyleService sample.deny)) 1
         UpdateLifestyleRequest.zero (sample.world, [])).2.2
  ∧ CallAuthorize 2
    ∈ (LifestyleService.DeleteLifestyleEntry
         (Recorder.LifestyleService (sample.lifestyleService sample.deny)) 1
         (sample.world, [])).2.2
  ∧ CallAuthorize 2
    ∈ (MedicalHistoryService.UpdateMedicalHistoryEntry
         (Recorder.MedicalHistoryService
             (sample.medicalHistoryService sample.deny)) 1
         UpdateMedicalHistoryRequest.zero (sample.world, [])).2.2
  ∧ CallAuthorize 2
    ∈ (MedicalHistoryService.DeleteMedicalHistoryEntry
         (Recorder.MedicalHistoryService
             (sample.medicalHistoryService sample.deny)) 1
         (sample.world, [])).2.2.
Proof.
  destruct (only_update_and_delete_authorize _
      (sample.lifestyleService sample.deny)
              (sample.medicalHistoryService sample.deny) (λ _, mret true) 2
              sample.world []) as (_ & Hlist & _).
  destruct (only_update_and_delete_authorize _
      (sample.lifestyleService sample.deny)
              (sample.medicalHistoryService sample.deny) (λ _, mret true) 1
              sample.world [])
    as (_ & _ & _ & _ & _ & _ & _ & _ & _ & _ & _ & _
        & HupdL & HdelL & HupdM & HdelM).
  split_and!.
  - exact Hlist.
  - apply (HupdL UpdateLifestyleRequest.zero sample.world
             (LifestyleRepositoryImpl.convertDbLifestyleEntryToDomain
                sample.lifestyleRow) sample.world); reflexivity.
  - apply (HdelL (LifestyleRepositoryImpl.convertDbLifestyleEntryToDomain
                    sample.lifestyleRow) sample.world); reflexivity.
  - apply (HupdM UpdateMedicalHistoryRequest.zero sample.world
             (MedicalHistoryRepositoryImpl.convertDbMedicalHistoryEntryToDomain
                sample.historyRow) sample.world); reflexivity.
  - apply (HdelM
             (MedicalHistoryRepositoryImpl.convertDbMedicalHistoryEntryToDomain
                sample.historyRow) sample.world); reflexivity.
Defined.

(** ** When the age / date-of-birth consistency check is skipped *)

Lemma inconsistent_skipped {W} `{!Clock W} age dateOfBirth (w : W) :
  age = 0 ∨ IsZero dateOfBirth = true →
  PatientService.inconsistent age dateOfBirth w = (false, w).
Proof.
  unfold PatientService.inconsistent.
  intros [->| ->]; [done|]. by rewrite andb_false_r.
Qed.

(** ** UpdatePatient and the stored record *)

Section update_patient.
Context {W : Type} `{!Clock W}.

Lemma UpdatePatient_check_ignores_store (s : PatientService.t W)
    (repo : ports.PatientRepository W) patientID req w :
  (PatientService.UpdatePatient s patientID req w).1 = Err inconsistentData
  ↔ (PatientService.UpdatePatient (withPatientRepo s repo) patientID req
       w).1 = Err inconsistentData.
Proof.
  unfold PatientService.UpdatePatient. run.
  destruct (Struct _ _ w) as [[|fe errs] w1]; simpl; [|done].
  destruct (PatientService.inconsistent _ _ w1) as [[] w2]; simpl; [done|].
  split; intros H; exfalso; revert H; cases; done.
Qed.
End update_patient.

Section update_patient_unchecked.
Context {W : Type} `{!Clock W}.

Lemma UpdatePatient_unchecked (s : PatientService.t W) patientID req
    w calls w1 existingPatient w2 :
  UpdatePatientRequest.Age req = 0
  ∨ IsZero (UpdatePatientRequest.DateOfBirth req) = true →
  Struct (PatientService.validate s) (ReqUpdatePatient req) w = ([], w1) →
  ports.GetPatient (PatientService.patientRepo s) patientID w1
    = (Ok existingPatient, w2) →
  PatientService.UpdatePatient (Recorder.PatientService s) patientID req
    (w, calls)
  = let merged := PatientService.merge existingPatient req in
    let '(r, w3) := ports.UpdatePatient (PatientService.patientRepo s)
                      patientID merged w2 in
    (wrapUpdatePatient r,
     (w3, calls ++ [CallStruct (ReqUpdatePatient req);
                    CallGetPatient patientID;
                    CallUpdatePatient patientID merged])).
Proof.
  intros Hskip Hv Hg. unfold PatientService.UpdatePatient. run.
  rewrite Hv; simpl. rewrite (inconsistent_skipped _ _ _ Hskip); simpl.
  rewrite Hg; simpl.
  destruct (ports.UpdatePatient _ _ _ w2) as [[p|err] w3]; simpl;
    by rewrite <- !(assoc_L (++)).
Qed.
End update_patient_unchecked.

(** ** The authorization gate *)

Lemma rolesAllow_holdsRole md :
  authClient.rolesAllow md = true ↔ holdsRole md.
Proof.
  unfold holdsRole. induction md as [|[key roles] md IH]; simpl.
  - split; [done|]. intros (? & ? & []%elem_of_nil & _).
  - repeat case_bool_decide.
    + split; [|done]. intros _. exists key, roles. rewrite elem_of_cons. eauto.
    + split; [|done]. intros _. exists key, roles. rewrite elem_of_cons. eauto.
    + rewrite IH. split.
      * intros (k & r & Hin & Hr). exists k, r. rewrite elem_of_cons. eauto.
      * intros (k & r & Hin & Hr). apply elem_of_cons in Hin as [[= -> ->]|Hin].
        -- by destruct Hr.
        -- eauto.
Qed.

Lemma rolesAllow_not_holdsRole md :
  authClient.rolesAllow md = false ↔ ¬ holdsRole md.
Proof. rewrite <- rolesAllow_holdsRole. by destruct (authClient.rolesAllow md). Qed.

(** C7. The gate decides in this order, stopping at the first rule that
    applies: (1) when the caller identity is the owner patient id printed
    in decimal it allows, for every identity provider and without a call
    to it (the world is untouched); (2) otherwise it asks the provider
    and, for the profile it returns, allows when a metadata value is the
    role "physician" or "clerk"; (3) otherwise allows when the printed
    metadata contains "patient:read_all"; (4) otherwise denies. *)
Theorem authorize_policy_order :
  ∀ W (c : clerk.Client W) (userID : string) (patientID : Z) (w : W),
    (Itoa patientID = userID →
     authClient.Authorize c userID patientID w = ((true, None), w))
    ∧ (Itoa patientID ≠ userID →
       ∀ clerkUser w', clerk.GetUser c userID w = (Ok clerkUser, w') →
         let md := clerk.PublicMetadata clerkUser in
         (holdsRole md →
          authClient.Authorize c userID patientID w = ((true, None), w'))
         ∧ (¬ holdsRole md →
            Contains (clerk.Sprint md) "patient:read_all" = true →
            authClient.Authorize c userID patientID w = ((true, None), w'))
         ∧ (¬ holdsRole md →
            Contains (clerk.Sprint md) "patient:read_all" = false →
            authClient.Authorize c userID patientID w = ((false, None), w'))).
Proof.
  intros. unfold authClient.Authorize. split.
  - intros Hself. by rewrite bool_decide_eq_true_2.
  - intros Hother clerkUser w' Hget. rewrite bool_decide_eq_false_2 by done.
    run. rewrite Hget. simpl. split_and!.
    + intros Hrole%rolesAllow_holdsRole. by rewrite Hrole.
    + intros Hrole%rolesAllow_not_holdsRole Hperm. by rewrite Hrole, Hperm.
    + intros Hrole%rolesAllow_not_holdsRole Hperm. by rewrite Hrole, Hperm.
Qed.

(** The four rules in the sample world, for the records of patient 2:
    the patient's own identity "2", the physician "4", the holder of the
    permission "6", and user "3", who has neither. *)
Lemma authorize_policy_order_witness :
  authClient.Authorize memdb.client "2" 2 sample.world
    = ((true, None), sample.world)
  ∧ authClient.Authorize memdb.client "4" 2 sample.world
    = ((true, None), sample.world)
  ∧ authClient.Authorize memdb.client "6" 2 sample.world
    = ((true, None), sample.world)
  ∧ authClient.Authorize memdb.client "3" 2 sample.world
    = ((false, None), sample.world).
Proof.
  pose proof (λ u, authorize_policy_order _ memdb.client u 2 sample.world)
    as H.
  split_and!.
  - by apply (H "2").
  - destruct (H "4") as [_ H4].
    destruct (H4 ltac:(done) {| clerk.PublicMetadata :=
                                 [("role", clerk.VString "physician")] |}
                sample.world) as (Hrole & _); [done|].
    apply Hrole, rolesAllow_holdsRole. done.
  - destruct (H "6") as [_ H6].
    destruct (H6 ltac:(done) {| clerk.PublicMetadata :=
                                 [("patient", clerk.VString "read_all")] |}
                sample.world) as (_ & Hperm & _); [done|].
    apply Hperm; [|done]. apply rolesAllow_not_holdsRole. done.
  - destruct (H "3") as [_ H3].
    destruct (H3 ltac:(done) {| clerk.PublicMetadata := [] |} sample.world)
      as (_ & _ & Hdeny); [done|].
    apply Hdeny; [|done]. apply rolesAllow_not_holdsRole. done.
Defined.

(** ** A failing identity provider *)

Section provider_failure.
Context {W : Type} (c : clerk.Client W).

Lemma Authorize_provider_error userID patientID w err w' :
  Itoa patientID ≠ userID →
  clerk.GetUser c userID w = (Err err, w') →
  authClient.Authorize c userID patientID w = ((false, Some err), w').
Proof.
  intros Hother Hget. unfold authClient.Authorize.
  rewrite bool_decide_eq_false_2 by done. run. by rewrite Hget.
Qed.

End provider_failure.

(** C2, at the code. When the identity provider fails, the gate returns
    the provider's error beside [false], an answer that differs from
    the [(false, nil)] of a denial. The services cannot pass it on:
    their authorize field is a function that returns a boolean and
    nothing else, and whatever function is put there, whenever it
    answers [false] for the owner of the loaded entry, Update and
    Delete of both services return ErrForbidden, having called no
    write. A caller of the services is told of a refusal and of nothing
    else. *)
Theorem provider_failure_cannot_reach_the_caller :
  (∀ W (c : clerk.Client W) userID patientID w err w',
     Itoa patientID ≠ userID →
     clerk.GetUser c userID w = (Err err, w') →
     authClient.Authorize c userID patientID w = ((false, Some err), w')
     ∧ (false, Some err) ≠ (false, @None error))
  ∧ (∀ W (s : LifestyleService.t W) entryID req w calls w1 existing w2 w3,
       Struct (LifestyleService.validator s) (ReqUpdateLifestyle req) w
         = ([], w1) →
       ports.GetLifestyleEntry (LifestyleService.lifestyleRepo s) entryID w1
         = (Ok existing, w2) →
       LifestyleService.authorize s (LifestyleEntry.PatientID existing) w2
         = (false, w3) →
       LifestyleService.UpdateLifestyleEntry (Recorder.LifestyleService s)
         entryID req (w, calls)
       = (Err ErrForbidden,
          (w3, calls ++ [CallStruct (ReqUpdateLifestyle req);
                         CallGetLifestyleEntry entryID;
                         CallAuthorize (LifestyleEntry.PatientID existing)])))
  ∧ (∀ W (s : LifestyleService.t W) entryID w calls existing w2 w3,
       ports.GetLifestyleEntry (LifestyleService.lifestyleRepo s) entryID w
         = (Ok existing, w2) →
       LifestyleService.authorize s (LifestyleEntry.PatientID existing) w2
         = (false, w3) →
       LifestyleService.DeleteLifestyleEntry (Recorder.LifestyleService s)
         entryID (w, calls)
       = (Some ErrForbidden,
          (w3, calls ++ [CallGetLifestyleEntry entryID;
                         CallAuthorize (LifestyleEntry.PatientID existing)])))
  ∧ (∀ W (s : MedicalHistoryService.t W) entryID req w calls w1 existing
       w2 w3,
       Struct (MedicalHistoryService.validate s)
         (ReqUpdateMedicalHistory req) w = ([], w1) →
       ports.GetMedicalHistoryEntry
         (MedicalHistoryService.medicalHistoryRepo s) entryID w1
         = (Ok existing, w2) →
       MedicalHistoryService.authorize s
         (MedicalHistoryEntry.PatientID existing) w2 = (false, w3) →
       MedicalHistoryService.UpdateMedicalHistoryEntry
         (Recorder.MedicalHistoryService s) entryID req (w, calls)
       = (Err ErrForbidden,
          (w3, calls ++ [CallStruct (ReqUpdateMedicalHistory req);
                         CallGetMedicalHistoryEntry entryID;
                         CallAuthorize
                           (MedicalHistoryEntry.PatientID existing)])))
  ∧ (∀ W (s : MedicalHistoryService.t W) entryID w calls existing w2 w3,
       ports.GetMedicalHistoryEntry
         (MedicalHistoryService.medicalHistoryRepo s) entryID w
         = (Ok existing, w2) →
       MedicalHistoryService.authorize s
         (MedicalHistoryEntry.PatientID existing) w2 = (false, w3) →
       MedicalHistoryService.DeleteMedicalHistoryEntry
         (Recorder.MedicalHistoryService s) entryID (w, calls)
       = (Some ErrForbidden,
          (w3, calls ++ [CallGetMedicalHistoryEntry entryID;
                         CallAuthorize
                           (MedicalHistoryEntry.PatientID existing)]))).
Proof.
  split_and!.
  - intros * Hother Hget. split; [|done].
    by apply Authorize_provider_error.
  - intros * Hv Hg Ha.
    apply (UpdateLifestyleEntry_run _ _ _ _ _ _ _ _ false _ Hv Hg Ha).
  - intros * Hg Ha.
    apply (DeleteLifestyleEntry_run _ _ _ _ _ _ false _ Hg Ha).
  - intros * Hv Hg Ha.
    apply (UpdateMedicalHistoryEntry_run _ _ _ _ _ _ _ _ false _ Hv Hg Ha).
  - intros * Hg Ha.
    apply (DeleteMedicalHistoryEntry_run _ _ _ _ _ _ false _ Hg Ha).
Qed.

(** In the sample world the provider fails for user "5", who asks for
    the records of patient 2: the gate reports the failure. The
    services, under an authorize function that has answered [false],
    report a refusal. *)
Lemma provider_failure_cannot_reach_the_caller_witness :
  authClient.Authorize memdb.client "5" 2 sample.world
    = ((false, Some (OtherError "identity provider unavailable")),
       sample.world)
  ∧ LifestyleService.UpdateLifestyleEntry
      (Recorder.LifestyleService (sample.lifestyleService sample.deny)) 1
      UpdateLifestyleRequest.zero (sample.world, [])
    = (Err ErrForbidden,
       (sample.world,
        [CallStruct (ReqUpdateLifestyle UpdateLifestyleRequest.zero);
         CallGetLifestyleEntry 1; CallAuthorize 2]))
  ∧ LifestyleService.DeleteLifestyleEntry
      (Recorder.LifestyleService (sample.lifestyleService sample.deny)) 1
      (sample.world, [])
    = (Some ErrForbidden,
       (sample.world, [CallGetLifestyleEntry 1; CallAuthorize 2]))
  ∧ MedicalHistoryService.UpdateMedicalHistoryEntry
      (Recorder.MedicalHistoryService
         (sample.medicalHistoryService sample.deny)) 1
      UpdateMedicalHistoryRequest.zero (sample.world, [])
    = (Err ErrForbidden,
       (sample.world,
        [CallStruct (ReqUpdateMedicalHistory UpdateMedicalHistoryRequest.zero);
         CallGetMedicalHistoryEntry 1; CallAuthorize 2]))
  ∧ MedicalHistoryService.DeleteMedicalHistoryEntry
      (Recorder.MedicalHistoryService
         (sample.medicalHistoryService sample.deny)) 1
      (sample.world, [])
    = (Some ErrForbidden,
       (sample.world, [CallGetMedicalHistoryEntry 1; CallAuthorize 2])).
Proof.
  destruct provider_failure_cannot_reach_the_caller
    as (Hgate & HupdL & HdelL & HupdM & HdelM).
  pose (entry := LifestyleRepositoryImpl.convertDbLifestyleEntryToDomain
                   sample.lifestyleRow).
  pose (history :=
          MedicalHistoryRepositoryImpl.convertDbMedicalHistoryEntryToDomain
            sample.historyRow).
  split_and!.
  - by apply Hgate.
  - apply (HupdL _ (sample.lifestyleService sample.deny) 1
             UpdateLifestyleRequest.zero sample.world [] sample.world entry
             sample.world sample.world); done.
  - apply (HdelL _ (sample.lifestyleService sample.deny) 1 sample.world []
             entry sample.world sample.world); done.
  - apply (HupdM _ (sample.medicalHistoryService sample.deny) 1
             UpdateMedicalHistoryRequest.zero sample.world [] sample.world
             history sample.world sample.world); done.
  - apply (HdelM _ (sample.medicalHistoryService sample.deny) 1 sample.world
             [] history sample.world sample.world); done.
Defined.

(** ** Listing the entries of an owner, end to end *)

Section list_by_owner.
Context {W : Type} (queries : db.Queries W) (validate : Validate W)
        (authorize : Z → State W bool).

Lemma list_lifestyle_of_owner_without_entries patient_id patientID
    w row w1 w2 :
  Atoi patient_id = Some patientID →
  db.GetPatient queries (int32 patientID) w = (Ok row, w1) →
  db.GetLifestyleEntries queries (int32 patientID) w1 = (Ok [], w2) →
  LifestyleHandler.GetLifestyleEntries
    (main.lifestyleHandler queries validate authorize) patient_id w
  = (JSON StatusOK (LifestyleEntries []), w2).
Proof.
  intros Hid Hp Hl. unfold LifestyleHandler.GetLifestyleEntries.
  rewrite Hid. unfold LifestyleService.GetLifestyleEntries. run.
  unfold PatientRepositoryImpl.GetPatient,
    LifestyleRepositoryImpl.GetLifestyleEntries. run.
  rewrite Hp; simpl. by rewrite Hl.
Qed.

Lemma list_history_of_owner_without_entries patient_id patientID
    w row w1 w2 :
  Atoi patient_id = Some patientID →
  db.GetPatient queries (int32 patientID) w = (Ok row, w1) →
  db.GetMedicalHistoryEntries queries (mkNull (int32 patientID) true) w1
    = (Ok [], w2) →
  MedicalHistoryHandler.GetMedicalHistoryEntries
    (main.medicalHistoryHandler queries validate authorize) patient_id w
  = (JSON StatusNotFound (ErrorResponse "medical history entry not found"),
     w2).
Proof.
  intros Hid Hp Hl. unfold MedicalHistoryHandler.GetMedicalHistoryEntries.
  rewrite Hid. unfold MedicalHistoryService.GetMedicalHistoryEntries. run.
  unfold PatientRepositoryImpl.GetPatient,
    MedicalHistoryRepositoryImpl.GetMedicalHistoryEntries. run.
  rewrite Hp; simpl. by rewrite Hl.
Qed.

Lemma list_of_absent_owner patient_id patientID w err w1 :
  Atoi patient_id = Some patientID →
  db.GetPatient queries (int32 patientID) w = (Err err, w1) →
  Is err ErrNoRows = true →
  LifestyleHandler.GetLifestyleEntries
    (main.lifestyleHandler queries validate authorize) patient_id w
  = (JSON StatusNotFound (ErrorResponse "patient not found"), w1)
  ∧ MedicalHistoryHandler.GetMedicalHistoryEntries
      (main.medicalHistoryHandler queries validate authorize) patient_id w
    = (JSON StatusNotFound (ErrorResponse "patient not found"), w1).
Proof.
  intros Hid Hp Hrows.
  unfold LifestyleHandler.GetLifestyleEntries,
    MedicalHistoryHandler.GetMedicalHistoryEntries.
  rewrite Hid.
  unfold LifestyleService.GetLifestyleEntries,
    MedicalHistoryService.GetMedicalHistoryEntries. run.
  unfold PatientRepositoryImpl.GetPatient. run.
  rewrite Hp; simpl. by rewrite Hrows.
Qed.
End list_by_owner.

(** C1, as the code has it. For an owner patient id that exists and has
    no entries, the Lifestyle list answers 200 with an empty array and
    the MedicalHistory list answers 404 with the message of
    ErrMedicalHistoryEntryNotFound; for an owner id with no patient row
    both answer 404 with "patient not found". The server is the one
    cmd/main.go wires, over any database. *)
Theorem list_by_owner_status :
  ∀ W (queries : db.Queries W) (validate : Validate W)
    (authorize : Z → State W bool) (patient_id : string) (patientID : Z) w,
    Atoi patient_id = Some patientID →
    (∀ row w1 w2,
       db.GetPatient queries (int32 patientID) w = (Ok row, w1) →
       (db.GetLifestyleEntries queries (int32 patientID) w1 = (Ok [], w2) →
        LifestyleHandler.GetLifestyleEntries
          (main.lifestyleHandler queries validate authorize) patient_id w
        = (JSON StatusOK (LifestyleEntries []), w2))
       ∧ (db.GetMedicalHistoryEntries queries
            (mkNull (int32 patientID) true) w1 = (Ok [], w2) →
          MedicalHistoryHandler.GetMedicalHistoryEntries
            (main.medicalHistoryHandler queries validate authorize)
            patient_id w
          = (JSON StatusNotFound
               (ErrorResponse "medical history entry not found"), w2)))
    ∧ (∀ err w1,
         db.GetPatient queries (int32 patientID) w = (Err err, w1) →
         Is err ErrNoRows = true →
         LifestyleHandler.GetLifestyleEntries
           (main.lifestyleHandler queries validate authorize) patient_id w
         = (JSON StatusNotFound (ErrorResponse "patient not found"), w1)
         ∧ MedicalHistoryHandler.GetMedicalHistoryEntries
             (main.medicalHistoryHandler queries validate authorize)
             patient_id w
           = (JSON StatusNotFound (ErrorResponse "patient not found"), w1)).
Proof.
  intros * Hid. split.
  - intros * Hp. split; intros Hl.
    + by eapply list_lifestyle_of_owner_without_entries.
    + by eapply list_history_of_owner_without_entries.
  - intros * Hp Hrows. by eapply list_of_absent_owner.
Qed.

(** In the sample world patient 1 exists and has no entries, and there
    is no patient 7. *)
Lemma list_by_owner_status_witness :
  Atoi "1" = Some 1
  ∧ LifestyleHandler.GetLifestyleEntries
      (sample.lifestyleHandler sample.deny) "1"
      sample.world = (JSON 200 (LifestyleEntries []), sample.world)
  ∧ MedicalHistoryHandler.GetMedicalHistoryEntries
      (sample.medicalHistoryHandler sample.deny) "1" sample.world
    = (JSON 404 (ErrorResponse "medical history entry not found"),
       sample.world)
  ∧ Atoi "7" = Some 7
  ∧ LifestyleHandler.GetLifestyleEntries
      (sample.lifestyleHandler sample.deny) "7"
      sample.world = (JSON 404 (ErrorResponse "patient not found"),
                      sample.world)
  ∧ MedicalHistoryHandler.GetMedicalHistoryEntries
      (sample.medicalHistoryHandler sample.deny) "7" sample.world
    = (JSON 404 (ErrorResponse "patient not found"), sample.world).
Proof.
  pose proof (λ s n H, list_by_owner_status _ memdb.queries sample.validate
                         sample.deny
                         s n sample.world H) as Hlist.
  destruct (Hlist "1" 1 eq_refl) as [Hexists _].
  destruct (Hexists (sample.patientRow 1 "Ada" 30 (Date 1994 1 1)
                       "ada@example.com") sample.world sample.world eq_refl)
    as [Hlifestyle Hhistory].
  destruct (Hlist "7" 7 eq_refl) as [_ Habsent].
  destruct (Habsent ErrNoRows sample.world eq_refl eq_refl)
    as [HabsentL HabsentM].
  split_and!; [done|by apply Hlifestyle|by apply Hhistory|done|done|done].
Defined.

(** Against C1 as stated: patient 1 of the sample world exists and has
    no medical history entry, and the MedicalHistory list answers 404
    with an error body, not 200 with an empty array. *)
Lemma list_history_of_existing_owner_is_404 :
  (db.GetPatient memdb.queries 1 sample.world).1
    = Ok (sample.patientRow 1 "Ada" 30 (Date 1994 1 1) "ada@example.com")
  ∧ (db.GetMedicalHistoryEntries memdb.queries (mkNull 1 true)
       sample.world).1 = Ok []
  ∧ (MedicalHistoryHandler.GetMedicalHistoryEntries
       (sample.medicalHistoryHandler sample.deny) "1" sample.world).1
    = JSON StatusNotFound (ErrorResponse "medical history entry not found")
  ∧ (MedicalHistoryHandler.GetMedicalHistoryEntries
       (sample.medicalHistoryHandler sample.deny) "1" sample.world).1
    ≠ JSON StatusOK (MedicalHistoryEntries []).
Proof. split_and!; [reflexivity..|discriminate]. Qed.

(** ** What a failed validation returns *)

Lemma errorDetails_all (errs : list FieldError) :
  length (errorDetails errs) = length errs
  ∧ ∀ i fe, errs !! i = Some fe →
      errorDetails errs !! i
      = Some ("Field " +:+ Field fe +:+ " failed validation for tag "
              +:+ Tag fe).
Proof.
  unfold errorDetails. split.
  - apply length_fmap.
  - intros i fe Hi. by rewrite list_lookup_fmap, Hi.
Qed.

Section invalid_input.
Context {W : Type} `{!Clock W}.

Lemma invalid_CreatePatient (s : PatientService.t W) req w calls errs w1 :
  Struct (PatientService.validate s) (ReqCreatePatient req) w = (errs, w1) →
  errs ≠ [] →
  PatientService.CreatePatient (Recorder.PatientService s) req (w, calls)
  = (Err (ValidationError "INVALID_PATIENT_DATA" "Validation errors occurred"
            (errorDetails errs)),
     (w1, calls ++ [CallStruct (ReqCreatePatient req)])).
Proof.
  intros Hv Hne. unfold PatientService.CreatePatient. run. rewrite Hv.
  by destruct errs.
Qed.

Lemma invalid_UpdatePatient (s : PatientService.t W) patientID req
    w calls errs w1 :
  Struct (PatientService.validate s) (ReqUpdatePatient req) w = (errs, w1) →
  errs ≠ [] →
  PatientService.UpdatePatient (Recorder.PatientService s) patientID req
    (w, calls)
  = (Err (ValidationError "INVALID_PATIENT_DATA" "Validation errors occurred"
            (errorDetails errs)),
     (w1, calls ++ [CallStruct (ReqUpdatePatient req)])).
Proof.
  intros Hv Hne. unfold PatientService.UpdatePatient. run. rewrite Hv.
  by destruct errs.
Qed.

Lemma invalid_CreateMedicalHistoryEntry (s : MedicalHistoryService.t W)
    patientID req w calls errs w1 :
  Struct (MedicalHistoryService.validate s) (ReqCreateMedicalHistory req) w
    = (errs, w1) →
  errs ≠ [] →
  MedicalHistoryService.CreateMedicalHistoryEntry
    (Recorder.MedicalHistoryService s) patientID req (w, calls)
  = (Err (ValidationError "INVALID_MEDICAL_HISTORY_DATA"
            "Validation errors occurred" (errorDetails errs)),
     (w1, calls ++ [CallStruct (ReqCreateMedicalHistory req)])).
Proof.
  intros Hv Hne. unfold MedicalHistoryService.CreateMedicalHistoryEntry.
  run. rewrite Hv. by destruct errs.
Qed.

Lemma invalid_UpdateMedicalHistoryEntry (s : MedicalHistoryService.t W)
    entryID req w calls errs w1 :
  Struct (MedicalHistoryService.validate s) (ReqUpdateMedicalHistory req) w
    = (errs, w1) →
  errs ≠ [] →
  MedicalHistoryService.UpdateMedicalHistoryEntry
    (Recorder.MedicalHistoryService s) entryID req (w, calls)
  = (Err (ValidationError "INVALID_MEDICAL_HISTORY_DATA"
            "Validation errors occurred" (errorDetails errs)),
     (w1, calls ++ [CallStruct (ReqUpdateMedicalHistory req)])).
Proof.
  intros Hv Hne. unfold MedicalHistoryService.UpdateMedicalHistoryEntry.
  run. rewrite Hv. by destruct errs.
Qed.

Lemma invalid_CreateLifestyleEntry (s : LifestyleService.t W)
    patientID req w calls errs w1 :
  Struct (LifestyleService.validator s) (ReqCreateLifestyle req) w
    = (errs, w1) →
  errs ≠ [] →
  LifestyleService.CreateLifestyleEntry (Recorder.LifestyleService s)
    patientID req (w, calls)
  = (Err ErrInvalidInput, (w1, calls ++ [CallStruct (ReqCreateLifestyle req)])).
Proof.
  intros Hv Hne. unfold LifestyleService.CreateLifestyleEntry.
  run. rewrite Hv. by destruct errs.
Qed.

Lemma invalid_UpdateLifestyleEntry (s : LifestyleService.t W)
    entryID req w calls errs w1 :
  Struct (LifestyleService.validator s) (ReqUpdateLifestyle req) w
    = (errs, w1) →
  errs ≠ [] →
  LifestyleService.UpdateLifestyleEntry (Recorder.LifestyleService s)
    entryID req (w, calls)
  = (Err ErrInvalidInput, (w1, calls ++ [CallStruct (ReqUpdateLifestyle req)])).
Proof.
  intros Hv Hne. unfold LifestyleService.UpdateLifestyleEntry.
  run. rewrite Hv. by destruct errs.
Qed.
End invalid_input.

(** C4, as the code has it. When the validator reports failing rules,
    Create and Update of the Patient and MedicalHistory services return
    one ValidationError that carries a code (INVALID_PATIENT_DATA,
    INVALID_MEDICAL_HISTORY_DATA), the message "Validation errors
    occurred" and one detail for every failing rule the validator
    reported, in its order, naming the field and the rule; Create and
    Update of the Lifestyle service return the sentinel ErrInvalidInput,
    which carries neither. In every case validation is the only call
    made. *)
Theorem validation_failure_error :
  ∀ W (C : Clock W) (sP : PatientService.t W)
    (sM : MedicalHistoryService.t W) (sL : LifestyleService.t W)
    (id : Z) (w : W) calls errs w1,
    errs ≠ [] →
    (length (errorDetails errs) = length errs
     ∧ ∀ i fe, errs !! i = Some fe →
         errorDetails errs !! i
         = Some ("Field " +:+ Field fe +:+ " failed validation for tag "
                 +:+ Tag fe))
    ∧ (∀ req,
         Struct (PatientService.validate sP) (ReqCreatePatient req) w
           = (errs, w1) →
         PatientService.CreatePatient (Recorder.PatientService sP) req
           (w, calls)
         = (Err (ValidationError "INVALID_PATIENT_DATA"
                   "Validation errors occurred" (errorDetails errs)),
            (w1, calls ++ [CallStruct (ReqCreatePatient req)])))
    ∧ (∀ req,
         Struct (PatientService.validate sP) (ReqUpdatePatient req) w
           = (errs, w1) →
         PatientService.UpdatePatient (Recorder.PatientService sP) id req
           (w, calls)
         = (Err (ValidationError "INVALID_PATIENT_DATA"
                   "Validation errors occurred" (errorDetails errs)),
            (w1, calls ++ [CallStruct (ReqUpdatePatient req)])))
    ∧ (∀ req,
         Struct (MedicalHistoryService.validate sM)
           (ReqCreateMedicalHistory req) w = (errs, w1) →
         MedicalHistoryService.CreateMedicalHistoryEntry
           (Recorder.MedicalHistoryService sM) id req (w, calls)
         = (Err (ValidationError "INVALID_MEDICAL_HISTORY_DATA"
                   "Validation errors occurred" (errorDetails errs)),
            (w1, calls ++ [CallStruct (ReqCreateMedicalHistory req)])))
    ∧ (∀ req,
         Struct (MedicalHistoryService.validate sM)
           (ReqUpdateMedicalHistory req) w = (errs, w1) →
         MedicalHistoryService.UpdateMedicalHistoryEntry
           (Recorder.MedicalHistoryService sM) id req (w, calls)
         = (Err (ValidationError "INVALID_MEDICAL_HISTORY_DATA"
                   "Validation errors occurred" (errorDetails errs)),
            (w1, calls ++ [CallStruct (ReqUpdateMedicalHistory req)])))
    ∧ (∀ req,
         Struct (LifestyleService.validator sL) (ReqCreateLifestyle req) w
           = (errs, w1) →
         LifestyleService.CreateLifestyleEntry (Recorder.LifestyleService sL)
           id req (w, calls)
         = (Err ErrInvalidInput,
            (w1, calls ++ [CallStruct (ReqCreateLifestyle req)])))
    ∧ (∀ req,
         Struct (LifestyleService.validator sL) (ReqUpdateLifestyle req) w
           = (errs, w1) →
         LifestyleService.UpdateLifestyleEntry (Recorder.LifestyleService sL)
           id req (w, calls)
         = (Err ErrInvalidInput,
            (w1, calls ++ [CallStruct (ReqUpdateLifestyle req)]))).
Proof.
  intros * Hne. split_and!.
  - apply errorDetails_all.
  - apply errorDetails_all.
  - intros req Hv. by apply invalid_CreatePatient.
  - intros req Hv. by apply invalid_UpdatePatient.
  - intros req Hv. by apply invalid_CreateMedicalHistoryEntry.
  - intros req Hv. by apply invalid_UpdateMedicalHistoryEntry.
  - intros req Hv. apply (invalid_CreateLifestyleEntry _ _ _ _ _ _ _ Hv Hne).
  - intros req Hv. apply (invalid_UpdateLifestyleEntry _ _ _ _ _ _ _ Hv Hne).
Qed.

(** In the sample world: an intake with nothing filled in fails five
    rules and the error lists the five; an update of a patient to the
    age 17 and a date of birth in the future lists both failures; a
    medical history entry with nothing filled in, and an update of one
    to a diagnosis date in the future, list theirs; a lifestyle entry
    without its factor gives the bare ErrInvalidInput.
    (UpdateLifestyleRequest declares no rule.) *)
Lemma validation_failure_error_witness :
  PatientService.CreatePatient (Recorder.PatientService sample.patientService)
    sample.blankIntake (sample.world, [])
  = (Err (ValidationError "INVALID_PATIENT_DATA" "Validation errors occurred"
            ["Field UserID failed validation for tag required";
             "Field FullName failed validation for tag required";
             "Field DateOfBirth failed validation for tag required";
             "Field Sex failed validation for tag required";
             "Field EmailAddress failed validation for tag required"]),
     (sample.world, [CallStruct (ReqCreatePatient sample.blankIntake)]))
  ∧ PatientService.UpdatePatient (Recorder.PatientService sample.patientService)
      1 (sample.patch 17 sample.future) (sample.world, [])
    = (Err (ValidationError "INVALID_PATIENT_DATA" "Validation errors occurred"
              ["Field Age failed validation for tag minage";
               "Field DateOfBirth failed validation for tag pastdate"]),
       (sample.world,
        [CallStruct (ReqUpdatePatient (sample.patch 17 sample.future))]))
  ∧ MedicalHistoryService.CreateMedicalHistoryEntry
      (Recorder.MedicalHistoryService
          (sample.medicalHistoryService sample.deny)) 1
      sample.blankHistory (sample.world, [])
    = (Err (ValidationError "INVALID_MEDICAL_HISTORY_DATA"
              "Validation errors occurred"
              ["Field Condition failed validation for tag required";
               "Field Status failed validation for tag required"]),
       (sample.world, [CallStruct
           (ReqCreateMedicalHistory sample.blankHistory)]))
  ∧ MedicalHistoryService.UpdateMedicalHistoryEntry
      (Recorder.MedicalHistoryService
          (sample.medicalHistoryService sample.deny)) 1
      (UpdateMedicalHistoryRequest.mk "" sample.future "" "")
      (sample.world, [])
    = (Err (ValidationError "INVALID_MEDICAL_HISTORY_DATA"
              "Validation errors occurred"
              ["Field DiagnosisDate failed validation for tag pastdate"]),
       (sample.world,
        [CallStruct (ReqUpdateMedicalHistory
                       (UpdateMedicalHistoryRequest.mk "" sample.future
                          "" ""))]))
  ∧ LifestyleService.CreateLifestyleEntry
      (Recorder.LifestyleService (sample.lifestyleService sample.deny)) 1
      sample.blankEntry (sample.world, [])
    = (Err ErrInvalidInput,
       (sample.world, [CallStruct (ReqCreateLifestyle sample.blankEntry)])).
Proof.
  pose proof (λ errs H,
                validation_failure_error _ _ sample.patientService
                  (sample.medicalHistoryService sample.deny)
                  (sample.lifestyleService sample.deny)
                  1 sample.world [] errs sample.world H) as Hfail.
  split_and!.
  - destruct (Hfail [mkFieldError "UserID" "required";
                     mkFieldError "FullName" "required";
                     mkFieldError "DateOfBirth" "required";
                     mkFieldError "Sex" "required";
                     mkFieldError "EmailAddress" "required"] ltac:(done))
      as (_ & Hcreate & _).
    by apply Hcreate.
  - destruct (Hfail [mkFieldError "Age" "minage";
                     mkFieldError "DateOfBirth" "pastdate"] ltac:(done))
      as (_ & _ & Hupdate & _).
    by apply Hupdate.
  - destruct (Hfail [mkFieldError "Condition" "required";
                     mkFieldError "Status" "required"] ltac:(done))
      as (_ & _ & _ & Hcreate & _).
    by apply Hcreate.
  - destruct (Hfail [mkFieldError "DiagnosisDate" "pastdate"] ltac:(done))
      as (_ & _ & _ & _ & Hupdate & _).
    by apply Hupdate.
  - destruct (Hfail [mkFieldError "LifestyleFactor" "required"] ltac:(done))
      as (_ & _ & _ & _ & _ & Hcreate & _).
    by apply Hcreate.
Defined.

(** Against C4 as stated: a lifestyle entry without its factor fails
    the rule [required] of LifestyleFactor, and the Lifestyle service
    returns ErrInvalidInput: not a structured error, whatever its code,
    message and details. *)
Lemma lifestyle_validation_error_has_no_details :
  (Struct sample.validate (ReqCreateLifestyle sample.blankEntry)
     sample.world).1 = [mkFieldError "LifestyleFactor" "required"]
  ∧ (LifestyleService.CreateLifestyleEntry
      (sample.lifestyleService sample.deny) 1
       sample.blankEntry sample.world).1 = Err ErrInvalidInput
  ∧ (∀ code message details,
       (LifestyleService.CreateLifestyleEntry
           (sample.lifestyleService sample.deny) 1
          sample.blankEntry sample.world).1
       ≠ Err (ValidationError code message details))
  ∧ Error ErrInvalidInput = "invalid input".
Proof. split_and!; [reflexivity..|discriminate|reflexivity]. Qed.

(** ** The merge is what Update persists *)

(** C6. Merging a request whose fields are all zero values into a stored
    Patient, LifestyleEntry or MedicalHistoryEntry returns the stored
    entity unchanged; for every request, each field of the merged entity
    that has a request counterpart is the request's value when that is
    not the zero value and the stored value otherwise (a time is zero
    when it is the zero instant, which is what the code tests with
    IsZero), and the fields without a counterpart (ids, owner,
    timestamps) are the stored ones.
    The merged entity is what Update hands to the repository: for the
    all-zero request, once validated (and authorized, for the entries),
    the repository's update method is called with the loaded entity
    itself, and what the repository returns is the result. *)
Theorem merge_is_optional_overwrite :
  (∀ p, PatientService.merge p UpdatePatientRequest.zero = p)
  ∧ (∀ e, LifestyleService.merge e UpdateLifestyleRequest.zero = e)
  ∧ (∀ e, MedicalHistoryService.merge e UpdateMedicalHistoryRequest.zero = e)
  ∧ (∀ p r, let m := PatientService.merge p r in
       overwrites "" (UpdatePatientRequest.FullName r)
         (Patient.FullName p) (Patient.FullName m)
       ∧ overwrites 0 (UpdatePatientRequest.Age r)
           (Patient.Age p) (Patient.Age m)
       ∧ overwritesTime (UpdatePatientRequest.DateOfBirth r)
           (Patient.DateOfBirth p) (Patient.DateOfBirth m)
       ∧ overwrites "" (UpdatePatientRequest.Sex r)
           (Patient.Sex p) (Patient.Sex m)
       ∧ overwrites "" (UpdatePatientRequest.PhoneNumber r)
           (Patient.PhoneNumber p) (Patient.PhoneNumber m)
       ∧ overwrites "" (UpdatePatientRequest.EmailAddress r)
           (Patient.EmailAddress p) (Patient.EmailAddress m)
       ∧ overwrites "" (UpdatePatientRequest.PreferredCommunication r)
           (Patient.PreferredCommunication p)
           (Patient.PreferredCommunication m)
       ∧ overwrites "" (UpdatePatientRequest.SocioeconomicStatus r)
           (Patient.SocioeconomicStatus p) (Patient.SocioeconomicStatus m)
       ∧ overwrites "" (UpdatePatientRequest.GeographicLocation r)
           (Patient.GeographicLocation p) (Patient.GeographicLocation m)
       ∧ Patient.PatientID m = Patient.PatientID p
       ∧ Patient.UserID m = Patient.UserID p
       ∧ Patient.CreatedAt m = Patient.CreatedAt p
       ∧ Patient.UpdatedAt m = Patient.UpdatedAt p)
  ∧ (∀ e r, let m := LifestyleService.merge e r in
       overwrites "" (UpdateLifestyleRequest.LifestyleFactor r)
         (LifestyleEntry.LifestyleFactor e) (LifestyleEntry.LifestyleFactor m)
       ∧ overwrites "" (UpdateLifestyleRequest.Value r)
           (LifestyleEntry.Value e) (LifestyleEntry.Value m)
       ∧ overwritesTime (UpdateLifestyleRequest.StartDate r)
           (LifestyleEntry.StartDate e) (LifestyleEntry.StartDate m)
       ∧ overwritesTime (UpdateLifestyleRequest.EndDate r)
           (LifestyleEntry.EndDate e) (LifestyleEntry.EndDate m)
       ∧ LifestyleEntry.PatientLifestyleID m
         = LifestyleEntry.PatientLifestyleID e
       ∧ LifestyleEntry.PatientID m = LifestyleEntry.PatientID e
       ∧ LifestyleEntry.CreatedAt m = LifestyleEntry.CreatedAt e
       ∧ LifestyleEntry.UpdatedAt m = LifestyleEntry.UpdatedAt e)
  ∧ (∀ e r, let m := MedicalHistoryService.merge e r in
       overwrites "" (UpdateMedicalHistoryRequest.Condition r)
         (MedicalHistoryEntry.Condition e) (MedicalHistoryEntry.Condition m)
       ∧ overwritesTime (UpdateMedicalHistoryRequest.DiagnosisDate r)
           (MedicalHistoryEntry.DiagnosisDate e)
           (MedicalHistoryEntry.DiagnosisDate m)
       ∧ overwrites "" (UpdateMedicalHistoryRequest.Status r)
           (MedicalHistoryEntry.Status e) (MedicalHistoryEntry.Status m)
       ∧ overwrites "" (UpdateMedicalHistoryRequest.Details r)
           (MedicalHistoryEntry.Details e) (MedicalHistoryEntry.Details m)
       ∧ MedicalHistoryEntry.PatientMedicalHistoryID m
         = MedicalHistoryEntry.PatientMedicalHistoryID e
       ∧ MedicalHistoryEntry.PatientID m = MedicalHistoryEntry.PatientID e
       ∧ MedicalHistoryEntry.CreatedAt m = MedicalHistoryEntry.CreatedAt e
       ∧ MedicalHistoryEntry.UpdatedAt m = MedicalHistoryEntry.UpdatedAt e)
  ∧ (∀ W (C : Clock W) (s : PatientService.t W) patientID w calls w1
       existingPatient w2,
       Struct (PatientService.validate s)
         (ReqUpdatePatient UpdatePatientRequest.zero) w = ([], w1) →
       ports.GetPatient (PatientService.patientRepo s) patientID w1
         = (Ok existingPatient, w2) →
       PatientService.UpdatePatient (Recorder.PatientService s) patientID
         UpdatePatientRequest.zero (w, calls)
       = (let '(r, w3) := ports.UpdatePatient (PatientService.patientRepo s)
                            patientID existingPatient w2 in
          (wrapUpdatePatient r,
           (w3, calls ++ [CallStruct
                            (ReqUpdatePatient UpdatePatientRequest.zero);
                          CallGetPatient patientID;
                          CallUpdatePatient patientID existingPatient]))))
  ∧ (∀ W (s : LifestyleService.t W) entryID w calls w1 existing w2 w3,
       Struct (LifestyleService.validator s)
         (ReqUpdateLifestyle UpdateLifestyleRequest.zero) w = ([], w1) →
       ports.GetLifestyleEntry (LifestyleService.lifestyleRepo s) entryID w1
         = (Ok existing, w2) →
       LifestyleService.authorize s (LifestyleEntry.PatientID existing) w2
         = (true, w3) →
       LifestyleService.UpdateLifestyleEntry (Recorder.LifestyleService s)
         entryID UpdateLifestyleRequest.zero (w, calls)
       = (let '(r, w4) := ports.UpdateLifestyleEntry
                            (LifestyleService.lifestyleRepo s) entryID
                            existing w3 in
          (wrapUpdateLifestyle r,
           (w4, calls ++ [CallStruct
                            (ReqUpdateLifestyle UpdateLifestyleRequest.zero);
                          CallGetLifestyleEntry entryID;
                          CallAuthorize (LifestyleEntry.PatientID existing);
                          CallUpdateLifestyleEntry entryID existing]))))
  ∧ (∀ W (s : MedicalHistoryService.t W) entryID w calls w1 existing w2 w3,
       Struct (MedicalHistoryService.validate s)
         (ReqUpdateMedicalHistory UpdateMedicalHistoryRequest.zero) w
         = ([], w1) →
       ports.GetMedicalHistoryEntry
         (MedicalHistoryService.medicalHistoryRepo s) entryID w1
         = (Ok existing, w2) →
       MedicalHistoryService.authorize s
         (MedicalHistoryEntry.PatientID existing) w2 = (true, w3) →
       MedicalHistoryService.UpdateMedicalHistoryEntry
         (Recorder.MedicalHistoryService s) entryID
         UpdateMedicalHistoryRequest.zero (w, calls)
       = (let '(r, w4) := ports.UpdateMedicalHistoryEntry
                            (MedicalHistoryService.medicalHistoryRepo s)
                            entryID existing w3 in
          (wrapUpdateMedicalHistory r,
           (w4, calls ++ [CallStruct
                            (ReqUpdateMedicalHistory
                               UpdateMedicalHistoryRequest.zero);
                          CallGetMedicalHistoryEntry entryID;
                          CallAuthorize
                            (MedicalHistoryEntry.PatientID existing);
                          CallUpdateMedicalHistoryEntry entryID existing])))).
Proof.
  split_and!;
    auto using merge_patient_zero, merge_lifestyle_zero, merge_history_zero.
  - intros; simpl; split_and!;
      auto using overwrites_string, overwrites_int, overwrites_time.
  - intros; simpl; split_and!;
      auto using overwrites_string, overwrites_int, overwrites_time.
  - intros; simpl; split_and!;
      auto using overwrites_string, overwrites_int, overwrites_time.
  - intros * Hv Hg.
    rewrite (UpdatePatient_unchecked s patientID UpdatePatientRequest.zero
               _ _ _ _ _ (or_introl eq_refl) Hv Hg).
    by rewrite merge_patient_zero.
  - intros * Hv Hg Ha.
    rewrite (UpdateLifestyleEntry_run _ _ _ _ _ _ _ _ _ _ Hv Hg Ha).
    by rewrite merge_lifestyle_zero.
  - intros * Hv Hg Ha.
    rewrite (UpdateMedicalHistoryEntry_run _ _ _ _ _ _ _ _ _ _ Hv Hg Ha).
    by rewrite merge_history_zero.
Qed.

(** In the sample world an update with no field set goes to the
    repository as the loaded entity. An allowed caller sends it for
    lifestyle entry 1: the entry comes back unchanged and the database is the one
    it was. For patient 1 and for medical history entry 1 the statement
    of the repository sets [updated_at]: the stored record comes back
    with that timestamp and every other field as loaded. *)
Lemma merge_is_optional_overwrite_witness :
  let patient := PatientRepositoryImpl.convertDbPatientToDomain
                   (sample.patientRow 1 "Ada" 30 (Date 1994 1 1)
                      "ada@example.com") in
  let entry := LifestyleRepositoryImpl.convertDbLifestyleEntryToDomain
                 sample.lifestyleRow in
  let history :=
    MedicalHistoryRepositoryImpl.convertDbMedicalHistoryEntryToDomain
      sample.historyRow in
  LifestyleService.UpdateLifestyleEntry
    (Recorder.LifestyleService (sample.lifestyleService sample.allow)) 1
    UpdateLifestyleRequest.zero (sample.world, [])
  = (Ok entry,
     (sample.world,
      [CallStruct (ReqUpdateLifestyle UpdateLifestyleRequest.zero);
       CallGetLifestyleEntry 1;
       CallAuthorize 2;
       CallUpdateLifestyleEntry 1 entry]))
  ∧ (∃ stored w',
       PatientService.UpdatePatient
         (Recorder.PatientService sample.patientService) 1
         UpdatePatientRequest.zero (sample.world, [])
       = (Ok stored,
          (w', [CallStruct (ReqUpdatePatient UpdatePatientRequest.zero);
                CallGetPatient 1;
                CallUpdatePatient 1 patient]))
       ∧ stored = {|
           Patient.PatientID := Patient.PatientID patient;
           Patient.UserID := Patient.UserID patient;
           Patient.FullName := Patient.FullName patient;
           Patient.Age := Patient.Age patient;
           Patient.DateOfBirth := Patient.DateOfBirth patient;
           Patient.Sex := Patient.Sex patient;
           Patient.PhoneNumber := Patient.PhoneNumber patient;
           Patient.EmailAddress := Patient.EmailAddress patient;
           Patient.PreferredCommunication :=
             Patient.PreferredCommunication patient;
           Patient.SocioeconomicStatus := Patient.SocioeconomicStatus patient;
           Patient.GeographicLocation := Patient.GeographicLocation patient;
           Patient.CreatedAt := Patient.CreatedAt patient;
           Patient.UpdatedAt := memdb.clock sample.world
         |})
  ∧ (∃ stored w',
       MedicalHistoryService.UpdateMedicalHistoryEntry
         (Recorder.MedicalHistoryService
             (sample.medicalHistoryService sample.allow)) 1
         UpdateMedicalHistoryRequest.zero (sample.world, [])
       = (Ok stored,
          (w', [CallStruct (ReqUpdateMedicalHistory
                              UpdateMedicalHistoryRequest.zero);
                CallGetMedicalHistoryEntry 1;
                CallAuthorize 2;
                CallUpdateMedicalHistoryEntry 1 history]))
       ∧ stored = {|
           MedicalHistoryEntry.PatientMedicalHistoryID :=
             MedicalHistoryEntry.PatientMedicalHistoryID history;
           MedicalHistoryEntry.PatientID :=
             MedicalHistoryEntry.PatientID history;
           MedicalHistoryEntry.Condition :=
             MedicalHistoryEntry.Condition history;
           MedicalHistoryEntry.DiagnosisDate :=
             MedicalHistoryEntry.DiagnosisDate history;
           MedicalHistoryEntry.Status := MedicalHistoryEntry.Status history;
           MedicalHistoryEntry.Details := MedicalHistoryEntry.Details history;
           MedicalHistoryEntry.CreatedAt :=
             MedicalHistoryEntry.CreatedAt history;
           MedicalHistoryEntry.UpdatedAt := memdb.clock sample.world
         |}).
Proof.
  intros patient entry history.
  destruct merge_is_optional_overwrite
    as (_ & _ & _ & _ & _ & _ & HupdP & HupdL & HupdM).
  split_and!.
  - by rewrite (HupdL _ (sample.lifestyleService sample.allow) 1 sample.world []
                  sample.world entry sample.world sample.world
                  eq_refl eq_refl eq_refl).
  - do 2 eexists.
    rewrite (HupdP _ _ sample.patientService 1 sample.world []
               sample.world patient sample.world eq_refl eq_refl).
    split; reflexivity.
  - do 2 eexists.
    rewrite (HupdM _
        (sample.medicalHistoryService sample.allow) 1 sample.world []
               sample.world history sample.world sample.world
               eq_refl eq_refl eq_refl).
    split; reflexivity.
Defined.

(** * Properties of the rest of the pipeline *)

(** ** A write is made once, after every check *)

Section write_guard.
Context {W : Type}.

Lemma UpdateLifestyleEntry_guard (s : LifestyleService.t W) entryID req
    w calls :
  let calls' := (LifestyleService.UpdateLifestyleEntry
                   (Recorder.LifestyleService s) entryID req (w, calls)).2.2 in
  nothingWritten calls calls'
  ∨ ∃ w1 existing w2 w3,
      Struct (LifestyleService.validator s) (ReqUpdateLifestyle req) w
        = ([], w1)
      ∧ ports.GetLifestyleEntry (LifestyleService.lifestyleRepo s) entryID w1
        = (Ok existing, w2)
      ∧ LifestyleService.authorize s (LifestyleEntry.PatientID existing) w2
        = (true, w3)
      ∧ calls' = calls ++
          [CallStruct (ReqUpdateLifestyle req);
           CallGetLifestyleEntry entryID;
           CallAuthorize (LifestyleEntry.PatientID existing);
           CallUpdateLifestyleEntry entryID
             (LifestyleService.merge existing req)].
Proof.
  destruct (Struct (LifestyleService.validator s) (ReqUpdateLifestyle req) w)
    as [errs w1] eqn:Hv.
  destruct errs as [|fe errs].
  - destruct (ports.GetLifestyleEntry (LifestyleService.lifestyleRepo s)
                entryID w1) as [[existing|err] w2] eqn:Hg.
    + destruct (LifestyleService.authorize s
                  (LifestyleEntry.PatientID existing) w2)
        as [allowed w3] eqn:Ha.
      rewrite (UpdateLifestyleEntry_run s entryID req w calls _ _ _ _ _
                 Hv Hg Ha).
      destruct allowed; simpl.
      * right. exists w1, existing, w2, w3. split_and!; try done.
        by destruct (ports.UpdateLifestyleEntry _ _ _ w3).
      * left. made_calls.
    + left. unfold LifestyleService.UpdateLifestyleEntry. run.
      rewrite Hv; simpl; rewrite Hg; simpl.
      destruct (Is err _); simpl; made_calls.
  - left. unfold LifestyleService.UpdateLifestyleEntry. run.
    rewrite Hv; simpl. made_calls.
Qed.

Lemma DeleteLifestyleEntry_guard (s : LifestyleService.t W) entryID w calls :
  let calls' := (LifestyleService.DeleteLifestyleEntry
                   (Recorder.LifestyleService s) entryID (w, calls)).2.2 in
  nothingWritten calls calls'
  ∨ ∃ existing w2 w3,
      ports.GetLifestyleEntry (LifestyleService.lifestyleRepo s) entryID w
        = (Ok existing, w2)
      ∧ LifestyleService.authorize s (LifestyleEntry.PatientID existing) w2
        = (true, w3)
      ∧ calls' = calls ++
          [CallGetLifestyleEntry entryID;
           CallAuthorize (LifestyleEntry.PatientID existing);
           CallDeleteLifestyleEntry entryID].
Proof.
  destruct (ports.GetLifestyleEntry (LifestyleService.lifestyleRepo s)
              entryID w) as [[existing|err] w2] eqn:Hg.
  - destruct (LifestyleService.authorize s
                (LifestyleEntry.PatientID existing) w2)
      as [allowed w3] eqn:Ha.
    rewrite (DeleteLifestyleEntry_run s entryID w calls _ _ _ _ Hg Ha).
    destruct allowed; simpl.
    + right. exists existing, w2, w3. split_and!; try done.
      by destruct (ports.DeleteLifestyleEntry _ _ w3).
    + left. made_calls.
  - left. unfold LifestyleService.DeleteLifestyleEntry. run.
    rewrite Hg; simpl. destruct (Is err _); simpl; made_calls.
Qed.

Lemma UpdateMedicalHistoryEntry_guard (s : MedicalHistoryService.t W)
    entryID req w calls :
  let calls' := (MedicalHistoryService.UpdateMedicalHistoryEntry
                   (Recorder.MedicalHistoryService s) entryID req
                   (w, calls)).2.2 in
  nothingWritten calls calls'
  ∨ ∃ w1 existing w2 w3,
      Struct (MedicalHistoryService.validate s)
        (ReqUpdateMedicalHistory req) w = ([], w1)
      ∧ ports.GetMedicalHistoryEntry
          (MedicalHistoryService.medicalHistoryRepo s) entryID w1
        = (Ok existing, w2)
      ∧ MedicalHistoryService.authorize s
          (MedicalHistoryEntry.PatientID existing) w2 = (true, w3)
      ∧ calls' = calls ++
          [CallStruct (ReqUpdateMedicalHistory req);
           CallGetMedicalHistoryEntry entryID;
           CallAuthorize (MedicalHistoryEntry.PatientID existing);
           CallUpdateMedicalHistoryEntry entryID
             (MedicalHistoryService.merge existing req)].
Proof.
  destruct (Struct (MedicalHistoryService.validate s)
              (ReqUpdateMedicalHistory req) w) as [errs w1] eqn:Hv.
  destruct errs as [|fe errs].
  - destruct (ports.GetMedicalHistoryEntry
                (MedicalHistoryService.medicalHistoryRepo s) entryID w1)
      as [[existing|err] w2] eqn:Hg.
    + destruct (MedicalHistoryService.authorize s
                  (MedicalHistoryEntry.PatientID existing) w2)
        as [allowed w3] eqn:Ha.
      rewrite (UpdateMedicalHistoryEntry_run s entryID req w calls _ _ _ _ _
                 Hv Hg Ha).
      destruct allowed; simpl.
      * right. exists w1, existing, w2, w3. split_and!; try done.
        by destruct (ports.UpdateMedicalHistoryEntry _ _ _ w3).
      * left. made_calls.
    + left. unfold MedicalHistoryService.UpdateMedicalHistoryEntry. run.
      rewrite Hv; simpl; rewrite Hg; simpl.
      destruct (Is err _); simpl; made_calls.
  - left. unfold MedicalHistoryService.UpdateMedicalHistoryEntry. run.
    rewrite Hv; simpl. made_calls.
Qed.

Lemma DeleteMedicalHistoryEntry_guard (s : MedicalHistoryService.t W)
    entryID w calls :
  let calls' := (MedicalHistoryService.DeleteMedicalHistoryEntry
                   (Recorder.MedicalHistoryService s) entryID
                   (w, calls)).2.2 in
  nothingWritten calls calls'
  ∨ ∃ existing w2 w3,
      ports.GetMedicalHistoryEntry
        (MedicalHistoryService.medicalHistoryRepo s) entryID w
        = (Ok existing, w2)
      ∧ MedicalHistoryService.authorize s
          (MedicalHistoryEntry.PatientID existing) w2 = (true, w3)
      ∧ calls' = calls ++
          [CallGetMedicalHistoryEntry entryID;
           CallAuthorize (MedicalHistoryEntry.PatientID existing);
           CallDeleteMedicalHistoryEntry entryID].
Proof.
  destruct (ports.GetMedicalHistoryEntry
              (MedicalHistoryService.medicalHistoryRepo s) entryID w)
    as [[existing|err] w2] eqn:Hg.
  - destruct (MedicalHistoryService.authorize s
                (MedicalHistoryEntry.PatientID existing) w2)
      as [allowed w3] eqn:Ha.
    rewrite (DeleteMedicalHistoryEntry_run s entryID w calls _ _ _ _ Hg Ha).
    destruct allowed; simpl.
    + right. exists existing, w2, w3. split_and!; try done.
      by destruct (ports.DeleteMedicalHistoryEntry _ _ w3).
    + left. made_calls.
  - left. unfold MedicalHistoryService.DeleteMedicalHistoryEntry. run.
    rewrite Hg; simpl. destruct (Is err _); simpl; made_calls.
Qed.
End write_guard.

(** X1. Whatever the validator, the repository and the authorize
    function answer, an Update or a Delete of a Lifestyle or
    MedicalHistory entry either calls no writing method of a
    repository, or the request passed validation (Update), the entry
    was loaded, the authorize function returned true for the owner id
    stored with the entry, and the service then made exactly one write:
    the update of the requested id with the merge of the loaded entry
    and the request, or the delete of the requested id. *)
Theorem write_only_after_every_check :
  ∀ W (sL : LifestyleService.t W) (sM : MedicalHistoryService.t W)
    entryID w calls,
    (∀ req,
       let calls' := (LifestyleService.UpdateLifestyleEntry
                        (Recorder.LifestyleService sL) entryID req
                        (w, calls)).2.2 in
       nothingWritten calls calls'
       ∨ ∃ w1 existing w2 w3,
           Struct (LifestyleService.validator sL) (ReqUpdateLifestyle req) w
             = ([], w1)
           ∧ ports.GetLifestyleEntry (LifestyleService.lifestyleRepo sL)
               entryID w1 = (Ok existing, w2)
           ∧ LifestyleService.authorize sL
               (LifestyleEntry.PatientID existing) w2 = (true, w3)
           ∧ calls' = calls ++
               [CallStruct (ReqUpdateLifestyle req);
                CallGetLifestyleEntry entryID;
                CallAuthorize (LifestyleEntry.PatientID existing);
                CallUpdateLifestyleEntry entryID
                  (LifestyleService.merge existing req)])
    ∧ (let calls' := (LifestyleService.DeleteLifestyleEntry
                        (Recorder.LifestyleService sL) entryID
                        (w, calls)).2.2 in
       nothingWritten calls calls'
       ∨ ∃ existing w2 w3,
           ports.GetLifestyleEntry (LifestyleService.lifestyleRepo sL)
             entryID w = (Ok existing, w2)
           ∧ LifestyleService.authorize sL
               (LifestyleEntry.PatientID existing) w2 = (true, w3)
           ∧ calls' = calls ++
               [CallGetLifestyleEntry entryID;
                CallAuthorize (LifestyleEntry.PatientID existing);
                CallDeleteLifestyleEntry entryID])
    ∧ (∀ req,
         let calls' := (MedicalHistoryService.UpdateMedicalHistoryEntry
                          (Recorder.MedicalHistoryService sM) entryID req
                          (w, calls)).2.2 in
         nothingWritten calls calls'
         ∨ ∃ w1 existing w2 w3,
             Struct (MedicalHistoryService.validate sM)
               (ReqUpdateMedicalHistory req) w = ([], w1)
             ∧ ports.GetMedicalHistoryEntry
                 (MedicalHistoryService.medicalHistoryRepo sM) entryID w1
               = (Ok existing, w2)
             ∧ MedicalHistoryService.authorize sM
                 (MedicalHistoryEntry.PatientID existing) w2 = (true, w3)
             ∧ calls' = calls ++
                 [CallStruct (ReqUpdateMedicalHistory req);
                  CallGetMedicalHistoryEntry entryID;
                  CallAuthorize (MedicalHistoryEntry.PatientID existing);
                  CallUpdateMedicalHistoryEntry entryID
                    (MedicalHistoryService.merge existing req)])
    ∧ (let calls' := (MedicalHistoryService.DeleteMedicalHistoryEntry
                        (Recorder.MedicalHistoryService sM) entryID
                        (w, calls)).2.2 in
       nothingWritten calls calls'
       ∨ ∃ existing w2 w3,
           ports.GetMedicalHistoryEntry
             (MedicalHistoryService.medicalHistoryRepo sM) entryID w
             = (Ok existing, w2)
           ∧ MedicalHistoryService.authorize sM
               (MedicalHistoryEntry.PatientID existing) w2 = (true, w3)
           ∧ calls' = calls ++
               [CallGetMedicalHistoryEntry entryID;
                CallAuthorize (MedicalHistoryEntry.PatientID existing);
                CallDeleteMedicalHistoryEntry entryID]).
Proof.
  intros. split_and!; intros.
  - apply UpdateLifestyleEntry_guard.
  - apply DeleteLifestyleEntry_guard.
  - apply UpdateMedicalHistoryEntry_guard.
  - apply DeleteMedicalHistoryEntry_guard.
Qed.

Lemma write_only_after_every_check_witness :
  (LifestyleService.UpdateLifestyleEntry
     (Recorder.LifestyleService (sample.lifestyleService sample.allow)) 1
     UpdateLifestyleRequest.zero (sample.world, [])).2.2
  = [CallStruct (ReqUpdateLifestyle UpdateLifestyleRequest.zero);
     CallGetLifestyleEntry 1;
     CallAuthorize 2;
     CallUpdateLifestyleEntry 1
       (LifestyleRepositoryImpl.convertDbLifestyleEntryToDomain
          sample.lifestyleRow)]
  ∧ nothingWritten []
      (LifestyleService.DeleteLifestyleEntry
         (Recorder.LifestyleService (sample.lifestyleService sample.deny)) 1
         (sample.world, [])).2.2.
Proof.
  destruct (write_only_after_every_check _
      (sample.lifestyleService sample.allow)
              (sample.medicalHistoryService sample.allow) 1 sample.world [])
    as (Hupd & _).
  destruct (write_only_after_every_check _ (sample.lifestyleService sample.deny)
              (sample.medicalHistoryService sample.deny) 1 sample.world [])
    as (_ & Hdel & _).
  split.
  - destruct (Hupd UpdateLifestyleRequest.zero)
      as [(made & Hmade & Hnone)|(w1 & existing & w2 & w3 & _ & _ & _ & _)].
    + vm_compute in Hmade. subst made.
      by repeat (apply Forall_cons in Hnone as [? Hnone]).
    + reflexivity.
  - destruct Hdel
      as [Hnone|(existing & w2 & w3 & Hg & Ha & _)]; [done|].
    vm_compute in Hg. injection Hg as <- <-. vm_compute in Ha. done.
Defined.

(** ** What Create hands to the repository *)

(** X2. Creating a Lifestyle or MedicalHistory entry either calls no
    writing method of a repository, or the request passed validation,
    the patient repository returned the patient of the path, and the
    service then made exactly one write: the creation of an entry whose
    owner is the patient id of the path, whose id and timestamps are
    the zero values, and whose other fields are those of the request. *)
Theorem create_writes_the_request_for_the_owner :
  ∀ W (sL : LifestyleService.t W) (sM : MedicalHistoryService.t W)
    patientID w calls,
    (∀ req,
       let calls' := (LifestyleService.CreateLifestyleEntry
                        (Recorder.LifestyleService sL) patientID req
                        (w, calls)).2.2 in
       nothingWritten calls calls'
       ∨ ∃ w1 patient w2 entry,
           Struct (LifestyleService.validator sL) (ReqCreateLifestyle req) w
             = ([], w1)
           ∧ ports.GetPatient (LifestyleService.patientRepo sL) patientID w1
             = (Ok patient, w2)
           ∧ calls' = calls ++
               [CallStruct (ReqCreateLifestyle req);
                CallGetPatient patientID;
                CallCreateLifestyleEntry entry]
           ∧ LifestyleEntry.PatientID entry = patientID
           ∧ LifestyleEntry.PatientLifestyleID entry = 0
           ∧ LifestyleEntry.CreatedAt entry = zeroTime
           ∧ LifestyleEntry.UpdatedAt entry = zeroTime
           ∧ LifestyleEntry.LifestyleFactor entry
             = CreateLifestyleRequest.LifestyleFactor req
           ∧ LifestyleEntry.Value entry = CreateLifestyleRequest.Value req
           ∧ LifestyleEntry.StartDate entry
             = CreateLifestyleRequest.StartDate req
           ∧ LifestyleEntry.EndDate entry
             = CreateLifestyleRequest.EndDate req)
    ∧ (∀ req,
         let calls' := (MedicalHistoryService.CreateMedicalHistoryEntry
                          (Recorder.MedicalHistoryService sM) patientID req
                          (w, calls)).2.2 in
         nothingWritten calls calls'
         ∨ ∃ w1 patient w2 entry,
             Struct (MedicalHistoryService.validate sM)
               (ReqCreateMedicalHistory req) w = ([], w1)
             ∧ ports.GetPatient (MedicalHistoryService.patientRepo sM)
                 patientID w1 = (Ok patient, w2)
             ∧ calls' = calls ++
                 [CallStruct (ReqCreateMedicalHistory req);
                  CallGetPatient patientID;
                  CallCreateMedicalHistoryEntry entry]
             ∧ MedicalHistoryEntry.PatientID entry = patientID
             ∧ MedicalHistoryEntry.PatientMedicalHistoryID entry = 0
             ∧ MedicalHistoryEntry.CreatedAt entry = zeroTime
             ∧ MedicalHistoryEntry.UpdatedAt entry = zeroTime
             ∧ MedicalHistoryEntry.Condition entry
               = CreateMedicalHistoryRequest.Condition req
             ∧ MedicalHistoryEntry.DiagnosisDate entry
               = CreateMedicalHistoryRequest.DiagnosisDate req
             ∧ MedicalHistoryEntry.Status entry
               = CreateMedicalHistoryRequest.Status req
             ∧ MedicalHistoryEntry.Details entry
               = CreateMedicalHistoryRequest.Details req).
Proof.
  intros W sL sM patientID w calls. split; intros req.
  - destruct (Struct (LifestyleService.validator sL)
                (ReqCreateLifestyle req) w) as [errs w1] eqn:Hv.
    destruct (ports.GetPatient (LifestyleService.patientRepo sL)
                patientID w1) as [r w2] eqn:Hg.
    unfold LifestyleService.CreateLifestyleEntry. run.
    rewrite Hv; simpl. destruct errs as [|fe errs]; simpl.
    + rewrite Hg; simpl. destruct r as [patient|err]; simpl.
      * right. exists w1, patient, w2. eexists.
        split; [done|]. split; [done|].
        split.
        { by destruct (ports.CreateLifestyleEntry _ _ w2) as [[e|err] w3];
            simpl; rewrite <- !(assoc_L (++)). }
        split_and!; reflexivity.
      * left. destruct (Is err _); simpl; made_calls.
    + left. made_calls.
  - destruct (Struct (MedicalHistoryService.validate sM)
                (ReqCreateMedicalHistory req) w) as [errs w1] eqn:Hv.
    destruct (ports.GetPatient (MedicalHistoryService.patientRepo sM)
                patientID w1) as [r w2] eqn:Hg.
    unfold MedicalHistoryService.CreateMedicalHistoryEntry. run.
    rewrite Hv; simpl. destruct errs as [|fe errs]; simpl.
    + rewrite Hg; simpl. destruct r as [patient|err]; simpl.
      * right. exists w1, patient, w2. eexists.
        split; [done|]. split; [done|].
        split.
        { by destruct (ports.CreateMedicalHistoryEntry _ _ w2) as [[e|err] w3];
            simpl; rewrite <- !(assoc_L (++)). }
        split_and!; reflexivity.
      * left. destruct (Is err _); simpl; made_calls.
    + left. made_calls.
Qed.

Lemma create_writes_the_request_for_the_owner_witness :
  (∃ entry,
     (LifestyleService.CreateLifestyleEntry
        (Recorder.LifestyleService (sample.lifestyleService sample.allow)) 1
        (CreateLifestyleRequest.mk "Diet" "vegan" zeroTime zeroTime)
        (sample.world, [])).2.2
     = [CallStruct (ReqCreateLifestyle
                      (CreateLifestyleRequest.mk "Diet" "vegan" zeroTime
                         zeroTime));
        CallGetPatient 1;
        CallCreateLifestyleEntry entry]
     ∧ LifestyleEntry.PatientID entry = 1
     ∧ LifestyleEntry.PatientLifestyleID entry = 0)
  ∧ nothingWritten []
      (MedicalHistoryService.CreateMedicalHistoryEntry
         (Recorder.MedicalHistoryService
             (sample.medicalHistoryService sample.allow)) 9
         (CreateMedicalHistoryRequest.mk "Asthma" zeroTime
            "Active Inactive Resolved" "")
         (sample.world, [])).2.2.
Proof.
  destruct (create_writes_the_request_for_the_owner _
              (sample.lifestyleService sample.allow)
                  (sample.medicalHistoryService sample.allow)
              1 sample.world []) as (HcreateL & _).
  destruct (create_writes_the_request_for_the_owner _
              (sample.lifestyleService sample.allow)
                  (sample.medicalHistoryService sample.allow)
              9 sample.world []) as (_ & HcreateM).
  split.
  - destruct (HcreateL (CreateLifestyleRequest.mk "Diet" "vegan" zeroTime
                          zeroTime))
      as [(made & Hmade & Hnone)
         |(w1 & patient & w2 & entry & _ & _ & Hcalls & Howner & Hid & _)].
    + vm_compute in Hmade. subst made.
      by repeat (apply Forall_cons in Hnone as [? Hnone]).
    + exists entry. by split_and!.
  - destruct (HcreateM (CreateMedicalHistoryRequest.mk "Asthma" zeroTime
                          "Active Inactive Resolved" ""))
      as [Hnone|(w1 & patient & w2 & entry & Hv & Hg & _)]; [done|].
    vm_compute in Hv. injection Hv as <-. by vm_compute in Hg.
Defined.

(** ** A missing row, from the query to the reply *)

Section missing_row.
Context {W : Type} `{!Clock W} (queries : db.Queries W)
        (validate : Validate W) (authorize : Z → State W bool).

Lemma missing_UpdateLifestyleEntry lifestyle_id entryID req w w1 err w2 :
  Atoi lifestyle_id = Some entryID →
  Struct validate (ReqUpdateLifestyle req) w = ([], w1) →
  db.GetLifestyleEntry queries (int32 entryID) w1 = (Err err, w2) →
  Is err ErrNoRows = true →
  handler.UpdateLifestyleEntry
    (main.lifestyleHandler queries validate authorize) lifestyle_id
    (Ok req) w
  = (Send StatusNotFound (ErrorBody "lifestyle entry not found"), w2).
Proof.
  intros Hid Hv Hq Hno. unfold handler.UpdateLifestyleEntry.
  rewrite Hid. unfold LifestyleService.UpdateLifestyleEntry. run.
  rewrite Hv; simpl.
  unfold LifestyleRepositoryImpl.GetLifestyleEntry. run.
  by rewrite Hq; simpl; rewrite Hno.
Qed.

Lemma missing_DeleteLifestyleEntry lifestyle_id entryID w err w2 :
  Atoi lifestyle_id = Some entryID →
  db.GetLifestyleEntry queries (int32 entryID) w = (Err err, w2) →
  Is err ErrNoRows = true →
  handler.DeleteLifestyleEntry
    (main.lifestyleHandler queries validate authorize) lifestyle_id w
  = (Send StatusNotFound (ErrorBody "lifestyle entry not found"), w2).
Proof.
  intros Hid Hq Hno. unfold handler.DeleteLifestyleEntry.
  rewrite Hid. unfold LifestyleService.DeleteLifestyleEntry. run.
  unfold LifestyleRepositoryImpl.GetLifestyleEntry. run.
  by rewrite Hq; simpl; rewrite Hno.
Qed.

Lemma missing_UpdateMedicalHistoryEntry medical_history_id entryID req
    w w1 err w2 :
  Atoi medical_history_id = Some entryID →
  Struct validate (ReqUpdateMedicalHistory req) w = ([], w1) →
  db.GetMedicalHistoryEntry queries (int32 entryID) w1 = (Err err, w2) →
  Is err ErrNoRows = true →
  handler.UpdateMedicalHistoryEntry
    (main.medicalHistoryHandler queries validate authorize)
    medical_history_id (Ok req) w
  = (Send StatusNotFound (ErrorBody "medical history entry not found"), w2).
Proof.
  intros Hid Hv Hq Hno. unfold handler.UpdateMedicalHistoryEntry.
  rewrite Hid. unfold MedicalHistoryService.UpdateMedicalHistoryEntry. run.
  rewrite Hv; simpl.
  unfold MedicalHistoryRepositoryImpl.GetMedicalHistoryEntry. run.
  by rewrite Hq; simpl; rewrite Hno.
Qed.

Lemma missing_DeleteMedicalHistoryEntry medical_history_id entryID
    w err w2 :
  Atoi medical_history_id = Some entryID →
  db.GetMedicalHistoryEntry queries (int32 entryID) w = (Err err, w2) →
  Is err ErrNoRows = true →
  handler.DeleteMedicalHistoryEntry
    (main.medicalHistoryHandler queries validate authorize)
    medical_history_id w
  = (Send StatusNotFound (ErrorBody "medical history entry not found"), w2).
Proof.
  intros Hid Hq Hno. unfold handler.DeleteMedicalHistoryEntry.
  rewrite Hid. unfold MedicalHistoryService.DeleteMedicalHistoryEntry. run.
  unfold MedicalHistoryRepositoryImpl.GetMedicalHistoryEntry. run.
  by rewrite Hq; simpl; rewrite Hno.
Qed.

Lemma missing_owner_CreateLifestyleEntry patient_id patientID req
    w w1 err w2 :
  Atoi patient_id = Some patientID →
  Struct validate (ReqCreateLifestyle req) w = ([], w1) →
  db.GetPatient queries (int32 patientID) w1 = (Err err, w2) →
  Is err ErrNoRows = true →
  handler.CreateLifestyleEntry
    (main.lifestyleHandler queries validate authorize) patient_id (Ok req) w
  = (Send StatusNotFound (ErrorBody "patient not found"), w2).
Proof.
  intros Hid Hv Hq Hno. unfold handler.CreateLifestyleEntry.
  rewrite Hid. unfold LifestyleService.CreateLifestyleEntry. run.
  rewrite Hv; simpl.
  unfold PatientRepositoryImpl.GetPatient. run.
  by rewrite Hq; simpl; rewrite Hno.
Qed.

Lemma missing_owner_CreateMedicalHistoryEntry patient_id patientID req
    w w1 err w2 :
  Atoi patient_id = Some patientID →
  Struct validate (ReqCreateMedicalHistory req) w = ([], w1) →
  db.GetPatient queries (int32 patientID) w1 = (Err err, w2) →
  Is err ErrNoRows = true →
  handler.CreateMedicalHistoryEntry
    (main.medicalHistoryHandler queries validate authorize) patient_id
    (Ok req) w
  = (Send StatusNotFound (ErrorBody "patient not found"), w2).
Proof.
  intros Hid Hv Hq Hno. unfold handler.CreateMedicalHistoryEntry.
  rewrite Hid. unfold MedicalHistoryService.CreateMedicalHistoryEntry. run.
  rewrite Hv; simpl.
  unfold PatientRepositoryImpl.GetPatient. run.
  by rewrite Hq; simpl; rewrite Hno.
Qed.

Lemma missing_GetPatient patient_id patientID w err w2 :
  Atoi patient_id = Some patientID →
  db.GetPatient queries (int32 patientID) w = (Err err, w2) →
  Is err ErrNoRows = true →
  handler.GetPatient (patientHandler queries validate) patient_id w
  = (Send StatusNotFound (ErrorBody "Patient not found"), w2).
Proof.
  intros Hid Hq Hno. unfold handler.GetPatient.
  rewrite Hid. unfold PatientService.GetPatient. run.
  unfold PatientRepositoryImpl.GetPatient. run.
  by rewrite Hq; simpl; rewrite Hno.
Qed.

Lemma missing_UpdatePatient patient_id patientID req w w1 w2 err w3 :
  Atoi patient_id = Some patientID →
  Struct validate (ReqUpdatePatient req) w = ([], w1) →
  PatientService.inconsistent (UpdatePatientRequest.Age req)
    (UpdatePatientRequest.DateOfBirth req) w1 = (false, w2) →
  db.GetPatient queries (int32 patientID) w2 = (Err err, w3) →
  Is err ErrNoRows = true →
  handler.UpdatePatient (patientHandler queries validate) patient_id
    (Ok req) w
  = (Send StatusNotFound (ErrorBody "Patient not found"), w3).
Proof.
  intros Hid Hv Hc Hq Hno. unfold handler.UpdatePatient.
  rewrite Hid. unfold PatientService.UpdatePatient. run.
  rewrite Hv; simpl. rewrite Hc; simpl.
  unfold PatientRepositoryImpl.GetPatient. run.
  by rewrite Hq; simpl; rewrite Hno.
Qed.
End missing_row.

(** X3. Through the handlers, services and repositories that cmd/main.go
    wires together: when the query that loads the record named in the
    path reports no row, the reply is 404 with the message of the
    matching not-found error, and the world is the one that query left,
    so nothing was called after it. This holds for the update and the
    delete of a Lifestyle or MedicalHistory entry, for the creation of
    an entry for a patient, and for the read and the update of a
    patient, where the service wraps the error and the handler still
    recognises it; the patient handler writes a message of its own. *)
Theorem missing_record_is_answered_404 :
  ∀ W (clock : Clock W) (queries : db.Queries W) (validate : Validate W)
    (authorize : Z → State W bool) (id : string) (n : Z) (err : error),
    Atoi id = Some n →
    Is err ErrNoRows = true →
    (∀ req w w1 w2,
       Struct validate (ReqUpdateLifestyle req) w = ([], w1) →
       db.GetLifestyleEntry queries (int32 n) w1 = (Err err, w2) →
       handler.UpdateLifestyleEntry
         (main.lifestyleHandler queries validate authorize) id (Ok req) w
       = (Send StatusNotFound (ErrorBody "lifestyle entry not found"), w2))
    ∧ (∀ w w2,
         db.GetLifestyleEntry queries (int32 n) w = (Err err, w2) →
         handler.DeleteLifestyleEntry
           (main.lifestyleHandler queries validate authorize) id w
         = (Send StatusNotFound (ErrorBody "lifestyle entry not found"),
            w2))
    ∧ (∀ req w w1 w2,
         Struct validate (ReqUpdateMedicalHistory req) w = ([], w1) →
         db.GetMedicalHistoryEntry queries (int32 n) w1 = (Err err, w2) →
         handler.UpdateMedicalHistoryEntry
           (main.medicalHistoryHandler queries validate authorize) id
           (Ok req) w
         = (Send StatusNotFound
              (ErrorBody "medical history entry not found"), w2))
    ∧ (∀ w w2,
         db.GetMedicalHistoryEntry queries (int32 n) w = (Err err, w2) →
         handler.DeleteMedicalHistoryEntry
           (main.medicalHistoryHandler queries validate authorize) id w
         = (Send StatusNotFound
              (ErrorBody "medical history entry not found"), w2))
    ∧ (∀ req w w1 w2,
         Struct validate (ReqCreateLifestyle req) w = ([], w1) →
         db.GetPatient queries (int32 n) w1 = (Err err, w2) →
         handler.CreateLifestyleEntry
           (main.lifestyleHandler queries validate authorize) id (Ok req) w
         = (Send StatusNotFound (ErrorBody "patient not found"), w2))
    ∧ (∀ req w w1 w2,
         Struct validate (ReqCreateMedicalHistory req) w = ([], w1) →
         db.GetPatient queries (int32 n) w1 = (Err err, w2) →
         handler.CreateMedicalHistoryEntry
           (main.medicalHistoryHandler queries validate authorize) id
           (Ok req) w
         = (Send StatusNotFound (ErrorBody "patient not found"), w2))
    ∧ (∀ w w2,
         db.GetPatient queries (int32 n) w = (Err err, w2) →
         handler.GetPatient (patientHandler queries validate) id w
         = (Send StatusNotFound (ErrorBody "Patient not found"), w2))
    ∧ (∀ req w w1 w2 w3,
         Struct validate (ReqUpdatePatient req) w = ([], w1) →
         PatientService.inconsistent (UpdatePatientRequest.Age req)
           (UpdatePatientRequest.DateOfBirth req) w1 = (false, w2) →
         db.GetPatient queries (int32 n) w2 = (Err err, w3) →
         handler.UpdatePatient (patientHandler queries validate) id
           (Ok req) w
         = (Send StatusNotFound (ErrorBody "Patient not found"), w3)).
Proof.
  intros W clock queries validate authorize id n err Hid Hno.
  split_and!; intros.
  - by eapply missing_UpdateLifestyleEntry.
  - by eapply missing_DeleteLifestyleEntry.
  - by eapply missing_UpdateMedicalHistoryEntry.
  - by eapply missing_DeleteMedicalHistoryEntry.
  - by eapply missing_owner_CreateLifestyleEntry.
  - by eapply missing_owner_CreateMedicalHistoryEntry.
  - by eapply missing_GetPatient.
  - by eapply missing_UpdatePatient.
Qed.

Lemma missing_record_is_answered_404_witness :
  handler.UpdateLifestyleEntry (sample.lifestyleHandler sample.allow) "9"
    (Ok UpdateLifestyleRequest.zero) sample.world
  = (Send StatusNotFound (ErrorBody "lifestyle entry not found"),
     sample.world)
  ∧ handler.DeleteMedicalHistoryEntry
      (sample.medicalHistoryHandler sample.allow) "9"
      sample.world
    = (Send StatusNotFound (ErrorBody "medical history entry not found"),
       sample.world)
  ∧ handler.CreateLifestyleEntry (sample.lifestyleHandler sample.allow) "9"
      (Ok (CreateLifestyleRequest.mk "Diet" "vegan" zeroTime zeroTime))
      sample.world
    = (Send StatusNotFound (ErrorBody "patient not found"), sample.world)
  ∧ handler.UpdatePatient (patientHandler memdb.queries sample.validate) "9"
      (Ok UpdatePatientRequest.zero) sample.world
    = (Send StatusNotFound (ErrorBody "Patient not found"), sample.world).
Proof.
  destruct (missing_record_is_answered_404 memdb.World _ memdb.queries
              sample.validate
              sample.allow "9" 9 ErrNoRows
              eq_refl eq_refl)
    as (HuL & _ & _ & HdM & HcL & _ & _ & HuP).
  split_and!.
  - by apply (HuL _ sample.world sample.world sample.world).
  - by apply (HdM sample.world sample.world).
  - by apply (HcL _ sample.world sample.world sample.world).
  - by apply (HuP _ sample.world sample.world sample.world sample.world).
Defined.

(** ** The status of a request that fails validation *)

Section rejected_body.
Context {W : Type} `{!Clock W}.

Lemma rejected_CreatePatient (s : PatientService.t W) req w errs w1 :
  Struct (PatientService.validate s) (ReqCreatePatient req) w = (errs, w1) →
  errs ≠ [] →
  handler.CreatePatient {| handler.patientSvc := s |} (Ok req) w
  = (Send StatusBadRequest
       (ErrorBody ("INVALID_PATIENT_DATA: Validation errors occurred - ["
                   +:+ Join (errorDetails errs) " " +:+ "]")), w1).
Proof.
  intros Hv Hne.
  unfold handler.CreatePatient, PatientService.CreatePatient. run.
  rewrite Hv. by destruct errs.
Qed.

Lemma rejected_UpdatePatient (s : PatientService.t W) patient_id patientID
    req w errs w1 :
  Atoi patient_id = Some patientID →
  Struct (PatientService.validate s) (ReqUpdatePatient req) w = (errs, w1) →
  errs ≠ [] →
  handler.UpdatePatient {| handler.patientSvc := s |} patient_id (Ok req) w
  = (Send StatusBadRequest
       (ErrorBody ("INVALID_PATIENT_DATA: Validation errors occurred - ["
                   +:+ Join (errorDetails errs) " " +:+ "]")), w1).
Proof.
  intros Hid Hv Hne.
  unfold handler.UpdatePatient, PatientService.UpdatePatient.
  rewrite Hid. run. rewrite Hv. by destruct errs.
Qed.

Lemma rejected_CreateLifestyleEntry (s : LifestyleService.t W)
    patient_id patientID req w errs w1 :
  Atoi patient_id = Some patientID →
  Struct (LifestyleService.validator s) (ReqCreateLifestyle req) w
    = (errs, w1) →
  errs ≠ [] →
  handler.CreateLifestyleEntry {| LifestyleHandler.lifestyleSvc := s |}
    patient_id (Ok req) w
  = (Send StatusBadRequest (ErrorBody "invalid input"), w1).
Proof.
  intros Hid Hv Hne.
  unfold handler.CreateLifestyleEntry, LifestyleService.CreateLifestyleEntry.
  rewrite Hid. run. rewrite Hv. by destruct errs.
Qed.

Lemma rejected_UpdateLifestyleEntry (s : LifestyleService.t W)
    lifestyle_id entryID req w errs w1 :
  Atoi lifestyle_id = Some entryID →
  Struct (LifestyleService.validator s) (ReqUpdateLifestyle req) w
    = (errs, w1) →
  errs ≠ [] →
  handler.UpdateLifestyleEntry {| LifestyleHandler.lifestyleSvc := s |}
    lifestyle_id (Ok req) w
  = (Send StatusBadRequest (ErrorBody "invalid input"), w1).
Proof.
  intros Hid Hv Hne.
  unfold handler.UpdateLifestyleEntry, LifestyleService.UpdateLifestyleEntry.
  rewrite Hid. run. rewrite Hv. by destruct errs.
Qed.

Lemma rejected_CreateMedicalHistoryEntry (s : MedicalHistoryService.t W)
    patient_id patientID req w errs w1 :
  Atoi patient_id = Some patientID →
  Struct (MedicalHistoryService.validate s) (ReqCreateMedicalHistory req) w
    = (errs, w1) →
  errs ≠ [] →
  handler.CreateMedicalHistoryEntry
    {| MedicalHistoryHandler.medicalHistorySvc := s |} patient_id (Ok req) w
  = (Send StatusInternalServerError
       (ErrorBody "Failed to create medical history entry"), w1).
Proof.
  intros Hid Hv Hne.
  unfold handler.CreateMedicalHistoryEntry,
    MedicalHistoryService.CreateMedicalHistoryEntry.
  rewrite Hid. run. rewrite Hv. by destruct errs.
Qed.

Lemma rejected_UpdateMedicalHistoryEntry (s : MedicalHistoryService.t W)
    medical_history_id entryID req w errs w1 :
  Atoi medical_history_id = Some entryID →
  Struct (MedicalHistoryService.validate s) (ReqUpdateMedicalHistory req) w
    = (errs, w1) →
  errs ≠ [] →
  handler.UpdateMedicalHistoryEntry
    {| MedicalHistoryHandler.medicalHistorySvc := s |} medical_history_id
    (Ok req) w
  = (Send StatusInternalServerError
       (ErrorBody "Failed to update medical history entry"), w1).
Proof.
  intros Hid Hv Hne.
  unfold handler.UpdateMedicalHistoryEntry,
    MedicalHistoryService.UpdateMedicalHistoryEntry.
  rewrite Hid. run. rewrite Hv. by destruct errs.
Qed.
End rejected_body.

(** X4. A request body that the validator rejects is answered
    differently by the three resources. For a patient the reply is 400
    and its message is the text of the validation error, which lists
    every failing rule; for a Lifestyle entry it is 400 with the message
    "invalid input"; for a MedicalHistory entry the handler looks for
    ErrInvalidMedicalHistoryData, the service returns a ValidationError,
    and the reply is 500 with a fixed message. In each case the world is
    the one the validator left. *)
Theorem rejected_body_status :
  ∀ W (clock : Clock W) (sP : PatientService.t W)
    (sL : LifestyleService.t W) (sM : MedicalHistoryService.t W)
    (id : string) (n : Z) (errs : list FieldError),
    Atoi id = Some n →
    errs ≠ [] →
    let text := "INVALID_PATIENT_DATA: Validation errors occurred - ["
                +:+ Join (errorDetails errs) " " +:+ "]" in
    (∀ req w w1,
       Struct (PatientService.validate sP) (ReqCreatePatient req) w
         = (errs, w1) →
       handler.CreatePatient {| handler.patientSvc := sP |} (Ok req) w
       = (Send StatusBadRequest (ErrorBody text), w1))
    ∧ (∀ req w w1,
         Struct (PatientService.validate sP) (ReqUpdatePatient req) w
           = (errs, w1) →
         handler.UpdatePatient {| handler.patientSvc := sP |} id (Ok req) w
         = (Send StatusBadRequest (ErrorBody text), w1))
    ∧ (∀ req w w1,
         Struct (LifestyleService.validator sL) (ReqCreateLifestyle req) w
           = (errs, w1) →
         handler.CreateLifestyleEntry
           {| LifestyleHandler.lifestyleSvc := sL |} id (Ok req) w
         = (Send StatusBadRequest (ErrorBody "invalid input"), w1))
    ∧ (∀ req w w1,
         Struct (LifestyleService.validator sL) (ReqUpdateLifestyle req) w
           = (errs, w1) →
         handler.UpdateLifestyleEntry
           {| LifestyleHandler.lifestyleSvc := sL |} id (Ok req) w
         = (Send StatusBadRequest (ErrorBody "invalid input"), w1))
    ∧ (∀ req w w1,
         Struct (MedicalHistoryService.validate sM)
           (ReqCreateMedicalHistory req) w = (errs, w1) →
         handler.CreateMedicalHistoryEntry
           {| MedicalHistoryHandler.medicalHistorySvc := sM |} id (Ok req) w
         = (Send StatusInternalServerError
              (ErrorBody "Failed to create medical history entry"), w1))
    ∧ (∀ req w w1,
         Struct (MedicalHistoryService.validate sM)
           (ReqUpdateMedicalHistory req) w = (errs, w1) →
         handler.UpdateMedicalHistoryEntry
           {| MedicalHistoryHandler.medicalHistorySvc := sM |} id (Ok req) w
         = (Send StatusInternalServerError
              (ErrorBody "Failed to update medical history entry"), w1)).
Proof.
  intros W clock sP sL sM id n errs Hid Hne text.
  split_and!; intros req w w1 Hv.
  - by apply rejected_CreatePatient.
  - by eapply rejected_UpdatePatient.
  - by eapply rejected_CreateLifestyleEntry.
  - by eapply rejected_UpdateLifestyleEntry.
  - by eapply rejected_CreateMedicalHistoryEntry.
  - by eapply rejected_UpdateMedicalHistoryEntry.
Qed.

Lemma rejected_body_status_witness :
  handler.CreatePatient (patientHandler memdb.queries sample.validate)
    (Ok sample.blankIntake) sample.world
  = (Send StatusBadRequest
       (ErrorBody
          ("INVALID_PATIENT_DATA: Validation errors occurred - ["
           +:+ "Field UserID failed validation for tag required "
           +:+ "Field FullName failed validation for tag required "
           +:+ "Field DateOfBirth failed validation for tag required "
           +:+ "Field Sex failed validation for tag required "
           +:+ "Field EmailAddress failed validation for tag required]")),
     sample.world)
  ∧ handler.CreateLifestyleEntry (sample.lifestyleHandler sample.allow) "2"
      (Ok sample.blankEntry) sample.world
    = (Send StatusBadRequest (ErrorBody "invalid input"), sample.world)
  ∧ handler.CreateMedicalHistoryEntry
      (sample.medicalHistoryHandler sample.allow) "2"
      (Ok sample.blankHistory) sample.world
    = (Send StatusInternalServerError
         (ErrorBody "Failed to create medical history entry"), sample.world).
Proof.
  split_and!.
  - destruct (rejected_body_status memdb.World _ sample.patientService
                (sample.lifestyleService sample.allow)
                    (sample.medicalHistoryService sample.allow)
                "2" 2
                (Struct sample.validate (ReqCreatePatient sample.blankIntake)
                   sample.world).1 eq_refl)
      as (H & _); [done|].
    by apply (H _ sample.world sample.world).
  - destruct (rejected_body_status memdb.World _ sample.patientService
                (sample.lifestyleService sample.allow)
                    (sample.medicalHistoryService sample.allow)
                "2" 2
                (Struct sample.validate (ReqCreateLifestyle sample.blankEntry)
                   sample.world).1 eq_refl)
      as (_ & _ & H & _); [done|].
    by apply (H _ sample.world sample.world).
  - destruct (rejected_body_status memdb.World _ sample.patientService
                (sample.lifestyleService sample.allow)
                    (sample.medicalHistoryService sample.allow)
                "2" 2
                (Struct sample.validate
                   (ReqCreateMedicalHistory sample.blankHistory)
                   sample.world).1 eq_refl)
      as (_ & _ & _ & _ & H & _); [done|].
    by apply (H _ sample.world sample.world).
Defined.

(** ** A duplicate e-mail address *)

Lemma emailTaken_stored email rows row :
  row ∈ rows →
  db.Patient.EmailAddress row = mkNull email true →
  memdb.emailTaken (mkNull email true) rows = true.
Proof.
  intros Hin Hmail. unfold memdb.emailTaken. simpl.
  induction Hin as [row rows|row other rows Hin IH]; simpl.
  - rewrite Hmail. simpl. by rewrite bool_decide_eq_true_2.
  - rewrite IH by done. apply orb_true_r.
Qed.

Lemma findPatient_id id rows row :
  memdb.findPatient id rows = Some row → db.Patient.PatientID row = id.
Proof.
  unfold memdb.findPatient. intros [_ Hid]%find_some.
  by apply bool_decide_eq_true in Hid.
Qed.

(** X5. Over the database of the migrations, where [email_address] is
    unique: changing a patient's e-mail address to the address another
    patient holds is answered 500 with a fixed message, although the
    request passed validation, and the world is left as it was. The
    handler has no case for the violation, which reaches it wrapped by
    the repository and the service. *)
Theorem duplicate_email_is_answered_500 :
  ∀ (validate : Validate memdb.World) (w : memdb.World)
    (row : db.Patient.t) (email : string)
    req patient_id patientID stored w0 w1,
    row ∈ memdb.patients w →
    db.Patient.EmailAddress row = mkNull email true →
    email ≠ "" →
    UpdatePatientRequest.EmailAddress req = email →
    Atoi patient_id = Some patientID →
    memdb.findPatient (int32 patientID) (memdb.patients w) = Some stored →
    db.Patient.PatientID row ≠ int32 patientID →
    Struct validate (ReqUpdatePatient req) w0 = ([], w1) →
    PatientService.inconsistent (UpdatePatientRequest.Age req)
      (UpdatePatientRequest.DateOfBirth req) w1 = (false, w) →
    handler.UpdatePatient (patientHandler memdb.queries validate)
      patient_id (Ok req) w0
    = (Send StatusInternalServerError
         (ErrorBody "Failed to update patient"), w).
Proof.
  intros validate w row email req patient_id patientID stored w0 w1
    Hin Hmail Hne Hreq Hatoi Hfind Hid Hv Hc.
  unfold handler.UpdatePatient. rewrite Hatoi.
  unfold PatientService.UpdatePatient. run.
  rewrite Hv; simpl. rewrite Hc; simpl.
  unfold PatientRepositoryImpl.GetPatient. run.
  unfold memdb.GetPatient. rewrite Hfind; simpl.
  unfold PatientRepositoryImpl.UpdatePatient. run.
  unfold memdb.UpdatePatient; simpl.
  match goal with |- context [negb ?b] => destruct b end; simpl; [|done].
  rewrite Hfind; simpl.
  rewrite Hreq. unfold nullIfEmpty.
  rewrite !(bool_decide_eq_true_2 (email ≠ "")) by done. simpl.
  rewrite (emailTaken_stored email _ row); [done| |done].
  apply list_elem_of_filter. split; [|done].
  by rewrite (findPatient_id _ _ _ Hfind).
Qed.

(** In the sample world patient 2 asks for the address of patient 1. *)
Lemma duplicate_email_is_answered_500_witness :
  handler.UpdatePatient (patientHandler memdb.queries sample.validate) "2"
    (Ok (UpdatePatientRequest.mk "" 0 zeroTime "" "" "ada@example.com"
           "" "" "")) sample.world
  = (Send StatusInternalServerError (ErrorBody "Failed to update patient"),
     sample.world).
Proof.
  by apply (duplicate_email_is_answered_500 sample.validate sample.world
              (sample.patientRow 1 "Ada" 30 (Date 1994 1 1) "ada@example.com")
              "ada@example.com" _ "2" 2
              (sample.patientRow 2 "Bob" 40 (Date 1984 2 2)
                 "bob@example.com") sample.world sample.world);
    [by left|..].
Defined.

(** ** Ids beyond 32 bits *)

Lemma int32_periodic n k : int32 (n + k * 2 ^ 32) = int32 n.
Proof.
  unfold int32. replace (n + k * 2 ^ 32 + 2 ^ 31)
    with (n + 2 ^ 31 + k * 2 ^ 32) by lia.
  by rewrite Z.mod_add.
Qed.

Lemma int32_small n : - 2 ^ 31 ≤ n < 2 ^ 31 → int32 n = n.
Proof. intros Hn. unfold int32. rewrite Z.mod_small; lia. Qed.

(** X6. The repositories convert every id to [int32] before they query,
    so the server reads the id of a path modulo 2^32: through the
    handlers, services and repositories of cmd/main.go, a request whose
    id is [n + k * 2^32] is answered as the request with id [n], and
    leaves the world as that request does. *)
Theorem path_id_is_read_modulo_2_32 :
  ∀ W (clock : Clock W) (queries : db.Queries W) (validate : Validate W)
    (authorize : Z → State W bool) (id id' : string) (n k : Z) (w : W),
    Atoi id = Some n →
    Atoi id' = Some (n + k * 2 ^ 32) →
    let hP := patientHandler queries validate in
    let hL := main.lifestyleHandler queries validate authorize in
    let hM := main.medicalHistoryHandler queries validate authorize in
    handler.GetPatient hP id' w = handler.GetPatient hP id w
    ∧ (∀ bound, handler.UpdatePatient hP id' bound w
                = handler.UpdatePatient hP id bound w)
    ∧ (∀ bound, handler.CreateLifestyleEntry hL id' bound w
                = handler.CreateLifestyleEntry hL id bound w)
    ∧ LifestyleHandler.GetLifestyleEntries hL id' w
      = LifestyleHandler.GetLifestyleEntries hL id w
    ∧ (∀ bound, handler.UpdateLifestyleEntry hL id' bound w
                = handler.UpdateLifestyleEntry hL id bound w)
    ∧ handler.DeleteLifestyleEntry hL id' w
      = handler.DeleteLifestyleEntry hL id w
    ∧ (∀ bound, handler.CreateMedicalHistoryEntry hM id' bound w
                = handler.CreateMedicalHistoryEntry hM id bound w)
    ∧ MedicalHistoryHandler.GetMedicalHistoryEntries hM id' w
      = MedicalHistoryHandler.GetMedicalHistoryEntries hM id w
    ∧ (∀ bound, handler.UpdateMedicalHistoryEntry hM id' bound w
                = handler.UpdateMedicalHistoryEntry hM id bound w)
    ∧ handler.DeleteMedicalHistoryEntry hM id' w
      = handler.DeleteMedicalHistoryEntry hM id w.
Proof.
  intros W clock queries validate authorize id id' n k w Hid Hid' hP hL hM.
  split_and!; try intros [req|err].
  - unfold handler.GetPatient. rewrite Hid, Hid'.
    unfold PatientService.GetPatient. run.
    unfold PatientRepositoryImpl.GetPatient. by rewrite int32_periodic.
  - unfold handler.UpdatePatient. rewrite Hid, Hid'.
    unfold PatientService.UpdatePatient. run.
    unfold PatientRepositoryImpl.GetPatient,
      PatientRepositoryImpl.UpdatePatient. by rewrite !int32_periodic.
  - unfold handler.UpdatePatient. by rewrite Hid, Hid'.
  - unfold handler.CreateLifestyleEntry. rewrite Hid, Hid'.
    unfold LifestyleService.CreateLifestyleEntry. run.
    unfold PatientRepositoryImpl.GetPatient,
      LifestyleRepositoryImpl.CreateLifestyleEntry. simpl.
    by rewrite !int32_periodic.
  - unfold handler.CreateLifestyleEntry. by rewrite Hid, Hid'.
  - unfold LifestyleHandler.GetLifestyleEntries. rewrite Hid, Hid'.
    unfold LifestyleService.GetLifestyleEntries. run.
    unfold PatientRepositoryImpl.GetPatient,
      LifestyleRepositoryImpl.GetLifestyleEntries.
    by rewrite !int32_periodic.
  - unfold handler.UpdateLifestyleEntry. rewrite Hid, Hid'.
    unfold LifestyleService.UpdateLifestyleEntry. run.
    unfold LifestyleRepositoryImpl.GetLifestyleEntry,
      LifestyleRepositoryImpl.UpdateLifestyleEntry.
    by rewrite !int32_periodic.
  - unfold handler.UpdateLifestyleEntry. by rewrite Hid, Hid'.
  - unfold handler.DeleteLifestyleEntry. rewrite Hid, Hid'.
    unfold LifestyleService.DeleteLifestyleEntry. run.
    unfold LifestyleRepositoryImpl.GetLifestyleEntry,
      LifestyleRepositoryImpl.DeleteLifestyleEntry.
    by rewrite !int32_periodic.
  - unfold handler.CreateMedicalHistoryEntry. rewrite Hid, Hid'.
    unfold MedicalHistoryService.CreateMedicalHistoryEntry. run.
    unfold PatientRepositoryImpl.GetPatient,
      MedicalHistoryRepositoryImpl.CreateMedicalHistoryEntry. simpl.
    by rewrite !int32_periodic.
  - unfold handler.CreateMedicalHistoryEntry. by rewrite Hid, Hid'.
  - unfold MedicalHistoryHandler.GetMedicalHistoryEntries.
    rewrite Hid, Hid'.
    unfold MedicalHistoryService.GetMedicalHistoryEntries. run.
    unfold PatientRepositoryImpl.GetPatient,
      MedicalHistoryRepositoryImpl.GetMedicalHistoryEntries.
    by rewrite !int32_periodic.
  - unfold handler.UpdateMedicalHistoryEntry. rewrite Hid, Hid'.
    unfold MedicalHistoryService.UpdateMedicalHistoryEntry. run.
    unfold MedicalHistoryRepositoryImpl.GetMedicalHistoryEntry,
      MedicalHistoryRepositoryImpl.UpdateMedicalHistoryEntry.
    by rewrite !int32_periodic.
  - unfold handler.UpdateMedicalHistoryEntry. by rewrite Hid, Hid'.
  - unfold handler.DeleteMedicalHistoryEntry. rewrite Hid, Hid'.
    unfold MedicalHistoryService.DeleteMedicalHistoryEntry. run.
    unfold MedicalHistoryRepositoryImpl.GetMedicalHistoryEntry,
      MedicalHistoryRepositoryImpl.DeleteMedicalHistoryEntry.
    by rewrite !int32_periodic.
Qed.

Lemma path_id_is_read_modulo_2_32_witness :
  handler.GetPatient (patientHandler memdb.queries sample.validate)
    "4294967297" sample.world
  = (Send StatusOK
       (PatientBody
          (PatientRepositoryImpl.convertDbPatientToDomain
             (sample.patientRow 1 "Ada" 30 (Date 1994 1 1)
                "ada@example.com"))), sample.world)
  ∧ handler.DeleteLifestyleEntry
      (sample.lifestyleHandler sample.allow) "4294967297"
      sample.world
    = handler.DeleteLifestyleEntry (sample.lifestyleHandler sample.allow) "1"
        sample.world.
Proof.
  destruct (path_id_is_read_modulo_2_32 memdb.World _ memdb.queries
              sample.validate sample.allow
              "1" "4294967297" 1 1 sample.world eq_refl eq_refl)
    as (Hget & _ & _ & _ & _ & Hdel & _).
  split.
  - by rewrite Hget.
  - exact Hdel.
Defined.

(** ** The custom rule [oneof] *)

Lemma Split_without_separator s sep :
  Contains s (String sep "") = false → Split s sep = [s].
Proof.
  induction s as [|c s IH]; [done|]. simpl.
  intros [Hc Hs]%orb_false_elim.
  destruct (bool_decide (c = sep)) eqn:Heq.
  - apply bool_decide_eq_true in Heq as ->. exfalso. revert Hc.
    destruct (Ascii.ascii_dec sep sep) as [_|Hne]; [|done].
    by destruct s.
  - by rewrite IH.
Qed.

Lemma OneOfValidator_without_comma field param :
  isASCII param = true →
  Contains param "," = false →
  validation.OneOfValidator
    {| validation.Field := field; validation.Param := param |}
  = bool_decide (validation.ValueString field = TrimSpace param).
Proof.
  intros _ Hno. unfold validation.OneOfValidator. simpl.
  rewrite Split_without_separator by done. simpl. apply orb_false_r.
Qed.

Lemma OneOfValidator_domain field param :
  param ∈ oneofParams →
  validation.OneOfValidator
    {| validation.Field := field; validation.Param := param |} = true
  ↔ field = validation.OfString param.
Proof.
  intros Hin.
  assert (isASCII param = true
          ∧ Contains param "," = false ∧ TrimSpace param = param
          ∧ param ≠ "<int Value>" ∧ param ≠ "<time.Time Value>")
    as (Hascii & Hno & Htrim & Hint & Htime).
  { unfold oneofParams in Hin.
    repeat (apply elem_of_cons in Hin as [->|Hin]; [by split_and!|]).
    by apply elem_of_nil in Hin. }
  rewrite OneOfValidator_without_comma, Htrim, bool_decide_eq_true by done.
  destruct field; simpl; naive_solver.
Qed.

(** X7. The rule registered under [oneof] splits its parameter at
    commas and trims the pieces. A parameter without a comma is one
    piece, so the rule accepts exactly one value, the whole parameter
    trimmed (shown for parameters of ASCII). The [oneof] tags of package domain list their values
    between spaces: for each of them the only accepted field is the
    string that spells the whole list, and a single value of the list,
    such as "Active", is refused. *)
Theorem oneof_accepts_the_whole_parameter :
  (∀ field param,
     isASCII param = true →
     Contains param "," = false →
     validation.OneOfValidator
       {| validation.Field := field; validation.Param := param |}
     = bool_decide (validation.ValueString field = TrimSpace param))
  ∧ (∀ field param,
       param ∈ oneofParams →
       validation.OneOfValidator
         {| validation.Field := field; validation.Param := param |} = true
       ↔ field = validation.OfString param).
Proof.
  split.
  - apply OneOfValidator_without_comma.
  - apply OneOfValidator_domain.
Qed.

Lemma oneof_accepts_the_whole_parameter_witness :
  validation.OneOfValidator
    {| validation.Field := validation.OfString "Active";
       validation.Param := "Active Inactive Resolved" |} = false
  ∧ validation.OneOfValidator
      {| validation.Field := validation.OfString "Active Inactive Resolved";
         validation.Param := "Active Inactive Resolved" |} = true.
Proof.
  destruct oneof_accepts_the_whole_parameter as (Hone & Hdomain).
  split.
  - by rewrite Hone.
  - apply Hdomain; [|done]. unfold oneofParams.
    rewrite !elem_of_cons. tauto.
Defined.

(** ** The validator of the running server *)

Section production_validator.
Context {W : Type} `{!Clock W} (isEmail : string → bool).

Lemma validateStruct_elem (P : FieldError → Prop) fields field v tags :
  (field, v, tags) ∈ fields →
  (∀ w, ∃ fe, fe ∈ (config.traverseField isEmail field v tags w).1 ∧ P fe) →
  ∀ w, ∃ fe, fe ∈ (config.validateStruct isEmail fields w).1 ∧ P fe.
Proof.
  intros Hin Hfe. induction fields as [|[[f' v'] tags'] fields IH];
    intros w; [by apply elem_of_nil in Hin|].
  simpl; run. apply elem_of_cons in Hin as [[= <- <- <-]|Hin].
  - destruct (Hfe w) as (fe & Hfield & HP).
    destruct (config.traverseField isEmail field v tags w) as [errs w1].
    destruct (config.validateStruct isEmail fields w1) as [more w2].
    simpl in *. exists fe. split; [|done]. apply elem_of_app. by left.
  - destruct (config.traverseField isEmail f' v' tags' w) as [errs w1].
    destruct (IH Hin w1) as (fe & Hrest & HP).
    destruct (config.validateStruct isEmail fields w1) as [more w2].
    simpl in *. exists fe. split; [|done]. apply elem_of_app. by right.
Qed.

Lemma validateStruct_passes fields w w' field v tags :
  config.validateStruct isEmail fields w = ([], w') →
  (field, v, tags) ∈ fields →
  ∃ w1, (config.traverseField isEmail field v tags w1).1 = [].
Proof.
  intros Hrun Hin. revert w Hrun.
  induction fields as [|[[f' v'] tags'] fields IH];
    intros w; [by apply elem_of_nil in Hin|].
  simpl; run. apply elem_of_cons in Hin as [[= <- <- <-]|Hin].
  - destruct (config.traverseField isEmail field v tags w)
      as [errs w1] eqn:Hf.
    destruct (config.validateStruct isEmail fields w1) as [more w2].
    intros [= [-> ->]%app_eq_nil _]. exists w. by rewrite Hf.
  - destruct (config.traverseField isEmail f' v' tags' w) as [errs w1].
    destruct (config.validateStruct isEmail fields w1)
      as [more w2] eqn:Hrest.
    intros [= [-> ->]%app_eq_nil ->]. by apply (IH Hin w1).
Qed.

(** [dateformat] asserts that the field is a string. *)
Lemma date_of_birth_required t w :
  ∃ tag,
    (config.traverseField isEmail "DateOfBirth" (validation.OfTime t)
       [config.required; config.pastdate; config.dateformat] w).1
    = [mkFieldError "DateOfBirth" tag].
Proof.
  simpl. run. destruct (bool_decide (t ≠ zeroTime)); simpl; [|by eexists].
  unfold validation.PastDateValidator. simpl. run.
  destruct (Now w) as [now w1]. simpl.
  destruct (Before t now); simpl; by eexists.
Qed.

Lemma date_of_birth_optional t w :
  t ≠ zeroTime →
  ∃ tag,
    (config.traverseField isEmail "DateOfBirth" (validation.OfTime t)
       [config.omitempty; config.pastdate; config.dateformat] w).1
    = [mkFieldError "DateOfBirth" tag].
Proof.
  intros Hne. simpl. rewrite bool_decide_eq_true_2 by done.
  simpl. run. unfold validation.PastDateValidator. simpl. run.
  destruct (Now w) as [now w1]. simpl.
  destruct (Before t now); simpl; by eexists.
Qed.

Lemma status_oneof field s param w :
  param ∈ oneofParams →
  (config.traverseField isEmail field (validation.OfString s)
     [config.required; config.oneof param] w).1 = [] →
  s = param.
Proof.
  intros Hin. simpl. run. destruct (bool_decide (s ≠ "")); simpl; [|done].
  destruct (validation.OneOfValidator _) eqn:Hone; simpl; [|done].
  apply OneOfValidator_domain in Hone; [|done]. by injection Hone.
Qed.

Lemma optional_status_oneof field s param w :
  param ∈ oneofParams →
  (config.traverseField isEmail field (validation.OfString s)
     [config.omitempty; config.oneof param] w).1 = [] →
  s = "" ∨ s = param.
Proof.
  intros Hin. simpl. run. case_bool_decide as Hs; simpl.
  - destruct (validation.OneOfValidator _) eqn:Hone; simpl; [|done].
    apply OneOfValidator_domain in Hone; [|done]. right. by injection Hone.
  - intros _. left. by destruct (decide (s = "")).
Qed.

Lemma InitValidator_CreatePatient req w :
  ∃ tag, mkFieldError "DateOfBirth" tag
         ∈ (Struct (config.Validate isEmail) (ReqCreatePatient req) w).1.
Proof.
  destruct (validateStruct_elem
              (λ fe, ∃ tag, fe = mkFieldError "DateOfBirth" tag)
              (config.fields (ReqCreatePatient req)) "DateOfBirth"
              (validation.OfTime (CreatePatientRequest.DateOfBirth req))
              [config.required; config.pastdate; config.dateformat])
    with (w := w) as (fe & Hin & tag & ->).
  - simpl. rewrite !elem_of_cons. tauto.
  - intros w0. destruct (date_of_birth_required
      (CreatePatientRequest.DateOfBirth req) w0) as [tag Htag].
    exists (mkFieldError "DateOfBirth" tag). rewrite Htag.
    split; [by left|by exists tag].
  - by exists tag.
Qed.

Lemma InitValidator_UpdatePatient req w :
  UpdatePatientRequest.DateOfBirth req ≠ zeroTime →
  ∃ tag, mkFieldError "DateOfBirth" tag
         ∈ (Struct (config.Validate isEmail) (ReqUpdatePatient req) w).1.
Proof.
  intros Hne.
  destruct (validateStruct_elem
              (λ fe, ∃ tag, fe = mkFieldError "DateOfBirth" tag)
              (config.fields (ReqUpdatePatient req)) "DateOfBirth"
              (validation.OfTime (UpdatePatientRequest.DateOfBirth req))
              [config.omitempty; config.pastdate; config.dateformat])
    with (w := w) as (fe & Hin & tag & ->).
  - simpl. rewrite !elem_of_cons. tauto.
  - intros w0. destruct (date_of_birth_optional
      (UpdatePatientRequest.DateOfBirth req) w0 Hne) as [tag Htag].
    exists (mkFieldError "DateOfBirth" tag). rewrite Htag.
    split; [by left|by exists tag].
  - by exists tag.
Qed.

Lemma InitValidator_CreateMedicalHistory req w w1 :
  Struct (config.Validate isEmail) (ReqCreateMedicalHistory req) w
    = ([], w1) →
  CreateMedicalHistoryRequest.Status req = "Active Inactive Resolved".
Proof.
  intros Hv.
  destruct (validateStruct_passes _ _ _ "Status"
              (validation.OfString (CreateMedicalHistoryRequest.Status req))
              [config.required; config.oneof "Active Inactive Resolved"] Hv)
    as [w0 Hfield].
  - simpl. rewrite !elem_of_cons. tauto.
  - eapply status_oneof; [|done]. unfold oneofParams.
    rewrite !elem_of_cons. tauto.
Qed.

Lemma InitValidator_UpdateMedicalHistory req w w1 :
  Struct (config.Validate isEmail) (ReqUpdateMedicalHistory req) w
    = ([], w1) →
  UpdateMedicalHistoryRequest.Status req = ""
  ∨ UpdateMedicalHistoryRequest.Status req = "Active Inactive Resolved".
Proof.
  intros Hv.
  destruct (validateStruct_passes _ _ _ "Status"
              (validation.OfString (UpdateMedicalHistoryRequest.Status req))
              [config.omitempty; config.oneof "Active Inactive Resolved"] Hv)
    as [w0 Hfield].
  - simpl. rewrite !elem_of_cons. tauto.
  - eapply optional_status_oneof; [|done]. unfold oneofParams.
    rewrite !elem_of_cons. tauto.
Qed.
End production_validator.

(** X8. The validator that config.InitValidator builds refuses every
    date of birth. The tag of the field ends with [dateformat], whose
    rule asserts that the field is a string, and the field is a
    [time.Time]: a date that is present and in the past fails there, a
    future date fails [pastdate], a missing date fails [required]. So,
    whatever the request and the repository, CreatePatient returns the
    INVALID_PATIENT_DATA error with a detail for DateOfBirth after the
    single call of the validator, the handler answers every POST of a
    patient with 400, and an update is refused as soon as it supplies a
    date of birth. *)
Theorem InitValidator_refuses_every_date_of_birth :
  ∀ W (clock : Clock W) (isEmail : string → bool)
    (repo : ports.PatientRepository W),
    let s := {| PatientService.patientRepo := repo;
                PatientService.validate := config.Validate isEmail |} in
    (∀ req w calls, ∃ errs w1 tag,
       mkFieldError "DateOfBirth" tag ∈ errs
       ∧ PatientService.CreatePatient (Recorder.PatientService s) req
           (w, calls)
         = (Err (ValidationError "INVALID_PATIENT_DATA"
                   "Validation errors occurred" (errorDetails errs)),
            (w1, calls ++ [CallStruct (ReqCreatePatient req)])))
    ∧ (∀ bound w,
         status (handler.CreatePatient {| handler.patientSvc := s |}
                   bound w).1 = StatusBadRequest)
    ∧ (∀ req patientID w calls,
         UpdatePatientRequest.DateOfBirth req ≠ zeroTime →
         ∃ errs w1 tag,
           mkFieldError "DateOfBirth" tag ∈ errs
           ∧ PatientService.UpdatePatient (Recorder.PatientService s)
               patientID req (w, calls)
             = (Err (ValidationError "INVALID_PATIENT_DATA"
                       "Validation errors occurred" (errorDetails errs)),
                (w1, calls ++ [CallStruct (ReqUpdatePatient req)]))).
Proof.
  intros W clock isEmail repo s. split_and!.
  - intros req w calls.
    destruct (InitValidator_CreatePatient isEmail req w) as [tag Hin].
    destruct (Struct (config.Validate isEmail) (ReqCreatePatient req) w)
      as [errs w1] eqn:Hv.
    exists errs, w1, tag. split; [done|].
    apply invalid_CreatePatient; [done|]. intros ->.
    by apply elem_of_nil in Hin.
  - intros [req|err] w; [|done].
    destruct (InitValidator_CreatePatient isEmail req w) as [tag Hin].
    destruct (Struct (config.Validate isEmail) (ReqCreatePatient req) w)
      as [errs w1] eqn:Hv.
    rewrite (rejected_CreatePatient s req w errs w1); [done|done|].
    intros ->. by apply elem_of_nil in Hin.
  - intros req patientID w calls Hne.
    destruct (InitValidator_UpdatePatient isEmail req w Hne) as [tag Hin].
    destruct (Struct (config.Validate isEmail) (ReqUpdatePatient req) w)
      as [errs w1] eqn:Hv.
    exists errs, w1, tag. split; [done|].
    apply invalid_UpdatePatient; [done|]. intros ->.
    by apply elem_of_nil in Hin.
Qed.

Lemma InitValidator_refuses_every_date_of_birth_witness :
  handler.CreatePatient
    (patientHandler memdb.queries (config.Validate (λ _, true)))
    (Ok (sample.intake 30)) sample.world
  = (Send StatusBadRequest
       (ErrorBody
          ("INVALID_PATIENT_DATA: Validation errors occurred - ["
           +:+ "Field DateOfBirth failed validation for tag dateformat "
           +:+ "Field Sex failed validation for tag oneof]")),
     sample.world)
  ∧ status
      (handler.CreatePatient
         (patientHandler memdb.queries (config.Validate (λ _, true)))
         (Ok (sample.intake 30)) sample.world).1 = StatusBadRequest.
Proof.
  split; [done|].
  apply (InitValidator_refuses_every_date_of_birth memdb.World _ (λ _, true)
           (main.patientRepo memdb.queries)).
Defined.

(** X9. With the validator that config.InitValidator builds, a
    MedicalHistory request passes validation only when its status is
    the string "Active Inactive Resolved" (or, for an update, is left
    empty): [oneof] is the custom rule, which takes the space-separated
    list of the tag for one value. Creating an entry with another
    status, "Active" say, is therefore answered 500, and so is an update
    that supplies another status. *)
Theorem InitValidator_medical_history_status :
  ∀ W (clock : Clock W) (isEmail : string → bool) (queries : db.Queries W)
    (authorize : Z → State W bool) (id : string) (n : Z),
    Atoi id = Some n →
    let validate := config.Validate isEmail in
    let h := main.medicalHistoryHandler queries validate authorize in
    (∀ req w w1,
       Struct validate (ReqCreateMedicalHistory req) w = ([], w1) →
       CreateMedicalHistoryRequest.Status req = "Active Inactive Resolved")
    ∧ (∀ req w,
         CreateMedicalHistoryRequest.Status req
           ≠ "Active Inactive Resolved" →
         (handler.CreateMedicalHistoryEntry h id (Ok req) w).1
         = Send StatusInternalServerError
             (ErrorBody "Failed to create medical history entry"))
    ∧ (∀ req w,
         UpdateMedicalHistoryRequest.Status req ≠ "" →
         UpdateMedicalHistoryRequest.Status req
           ≠ "Active Inactive Resolved" →
         (handler.UpdateMedicalHistoryEntry h id (Ok req) w).1
         = Send StatusInternalServerError
             (ErrorBody "Failed to update medical history entry")).
Proof.
  intros W clock isEmail queries authorize id n Hid validate h.
  split_and!.
  - intros req w w1. apply InitValidator_CreateMedicalHistory.
  - intros req w Hne.
    destruct (Struct validate (ReqCreateMedicalHistory req) w)
      as [errs w1] eqn:Hv.
    unfold h, main.medicalHistoryHandler.
    erewrite rejected_CreateMedicalHistoryEntry; [done|done|exact Hv|].
    intros ->. by apply InitValidator_CreateMedicalHistory in Hv.
  - intros req w Hne1 Hne2.
    destruct (Struct validate (ReqUpdateMedicalHistory req) w)
      as [errs w1] eqn:Hv.
    unfold h, main.medicalHistoryHandler.
    erewrite rejected_UpdateMedicalHistoryEntry; [done|done|exact Hv|].
    intros ->. by apply InitValidator_UpdateMedicalHistory in Hv as [?|?].
Qed.

Lemma InitValidator_medical_history_status_witness :
  (handler.CreateMedicalHistoryEntry
     (main.medicalHistoryHandler memdb.queries (config.Validate (λ _, true))
        sample.allow) "2"
     (Ok (CreateMedicalHistoryRequest.mk "Asthma" (Date 2010 5 20)
            "Active" "")) sample.world).1
  = Send StatusInternalServerError
      (ErrorBody "Failed to create medical history entry")
  ∧ status
      (handler.CreateMedicalHistoryEntry
         (main.medicalHistoryHandler memdb.queries
            (config.Validate (λ _, true))
            sample.allow) "2"
         (Ok (CreateMedicalHistoryRequest.mk "Asthma" (Date 2010 5 20)
                "Active Inactive Resolved" "")) sample.world).1
    = StatusCreated.
Proof.
  destruct (InitValidator_medical_history_status memdb.World _ (λ _, true)
              memdb.queries sample.allow
              "2" 2 eq_refl) as (_ & Hcreate & _).
  split; [|done]. by apply Hcreate.
Defined.

(** ** The permission is matched in the printed metadata *)

Lemma append_cons c s t : String c s +:+ t = String c (s +:+ t).
Proof. done. Qed.

Lemma prefix_nil s : String.prefix "" s = true.
Proof. by destruct s. Qed.

Lemma prefix_append p s t :
  String.prefix p s = true → String.prefix p (s +:+ t) = true.
Proof.
  revert p. induction s as [|c s IH]; intros [|a p] Hp;
    try done; try apply prefix_nil.
  rewrite append_cons. simpl in *.
  destruct (ascii_dec a c); [by apply IH|done].
Qed.

Lemma Contains_append_l s t p :
  Contains s p = true → Contains (s +:+ t) p = true.
Proof.
  induction s as [|c s IH].
  - destruct p; [|done]. intros _. destruct t; done.
  - rewrite append_cons. cbn [Contains].
    intros [Hp|Hs]%orb_true_iff; apply orb_true_iff.
    + left. by apply (prefix_append _ (String c s)).
    + right. by apply IH.
Qed.

Lemma Contains_append_r s t p :
  Contains t p = true → Contains (s +:+ t) p = true.
Proof.
  intros Ht. induction s as [|c s IH]; [done|].
  rewrite append_cons. cbn [Contains]. rewrite IH. apply orb_true_r.
Qed.

Lemma Contains_Join elems sep e p :
  e ∈ elems → Contains e p = true → Contains (Join elems sep) p = true.
Proof.
  intros Hin He. induction elems as [|x elems IH];
    [by apply elem_of_nil in Hin|].
  apply elem_of_cons in Hin as [<-|Hin].
  - destruct elems; [done|]. by apply Contains_append_l.
  - destruct elems as [|y elems]; [by apply elem_of_nil in Hin|].
    change (Join (x :: y :: elems) sep)
      with (x +:+ sep +:+ Join (y :: elems) sep).
    by apply Contains_append_r, Contains_append_r, IH.
Qed.

(** X10. Authorize looks for the permission in the text that [fmt.Sprint]
    makes of the whole metadata object. So a caller who is not the
    patient and holds no role is allowed as soon as one entry of the
    profile metadata, printed as [key:value], contains the text
    "patient:read_all", whatever the key is: the entry "patient" with
    the value "read_all" grants the access, and so does any entry whose
    value merely mentions the text. *)
Theorem permission_is_matched_in_the_printed_metadata :
  ∀ W (c : clerk.Client W) userID patientID w user w1 key value,
    Itoa patientID ≠ userID →
    clerk.GetUser c userID w = (Ok user, w1) →
    (key, value) ∈ clerk.PublicMetadata user →
    Contains (key +:+ ":" +:+ clerk.SprintValue value) "patient:read_all"
      = true →
    authClient.Authorize c userID patientID w = ((true, None), w1).
Proof.
  intros W c userID patientID w user w1 key value Hself Hget Hin Hperm.
  unfold authClient.Authorize.
  rewrite bool_decide_eq_false_2 by done. run. rewrite Hget. simpl.
  destruct (authClient.rolesAllow _); [done|].
  match goal with
  | |- context [Contains ?s "patient:read_all"] =>
      replace (Contains s "patient:read_all") with true; [done|]
  end.
  symmetry. apply (Contains_append_r ""), Contains_append_l.
  eapply Contains_Join; [|exact Hperm].
  by apply (list_elem_of_fmap_2
              (λ kv, kv.1 +:+ ":" +:+ clerk.SprintValue kv.2) _ (key, value)).
Qed.

Lemma permission_is_matched_in_the_printed_metadata_witness :
  authClient.Authorize memdb.client "6" 2 sample.world
  = ((true, None), sample.world)
  ∧ authClient.Authorize
      {| clerk.GetUser _ :=
           mret (Ok {| clerk.PublicMetadata :=
                         [("note", clerk.VString "asked for patient:read_all");
                          ("age", clerk.VNumber 7)] |}) |}
      "8" 2 sample.world
    = ((true, None), sample.world).
Proof.
  split.
  - by apply (permission_is_matched_in_the_printed_metadata _ memdb.client
                "6" 2 sample.world
                {| clerk.PublicMetadata :=
                     [("patient", clerk.VString "read_all")] |}
                sample.world "patient" (clerk.VString "read_all"));
      [..|by left|].
  - by apply (permission_is_matched_in_the_printed_metadata _ _ "8" 2
                sample.world
                {| clerk.PublicMetadata :=
                     [("note", clerk.VString "asked for patient:read_all");
                      ("age", clerk.VNumber 7)] |}
                sample.world
                "note" (clerk.VString "asked for patient:read_all"));
      [..|by left|].
Defined.

(** ** The computed age and the calendar *)

Lemma expectedAge_same_leap now dateOfBirth :
  validDate now → validDate dateOfBirth →
  isLeap (tYear now) = isLeap (tYear dateOfBirth) →
  expectedAge now dateOfBirth = calendarAge now dateOfBirth.
Proof.
  destruct now as [yn mn dn nn], dateOfBirth as [yb mb db nb].
  intros [Hmn Hdn] [Hmb Hdb] Hleap. simpl in *.
  by_month Hmn; by_month Hmb; compare_days.
Qed.

Lemma expectedAge_before_march now dateOfBirth :
  validDate now → validDate dateOfBirth →
  tMonth now ≤ 2 → tMonth dateOfBirth ≤ 2 →
  expectedAge now dateOfBirth = calendarAge now dateOfBirth.
Proof.
  destruct now as [yn mn dn nn], dateOfBirth as [yb mb db nb].
  intros [Hmn Hdn] [Hmb Hdb] Hn Hb. simpl in *.
  by_month Hmn; try lia; by_month Hmb; try lia; compare_days.
Qed.

Lemma expectedAge_on_the_birthday now dateOfBirth :
  validDate dateOfBirth →
  isLeap (tYear dateOfBirth) = true → isLeap (tYear now) = false →
  3 ≤ tMonth dateOfBirth →
  tMonth now = tMonth dateOfBirth → tDay now = tDay dateOfBirth →
  calendarAge now dateOfBirth = Year now - Year dateOfBirth
  ∧ expectedAge now dateOfBirth = Year now - Year dateOfBirth - 1.
Proof.
  destruct now as [yn mn dn nn], dateOfBirth as [yb mb db nb].
  intros [Hmb Hdb] Hlb Hln Hmarch Hm Hd. simpl in *. subst mn dn.
  unfold expectedAge, calendarAge, birthdayReached, YearDay, Year. simpl.
  rewrite Hlb, Hln, Z.eqb_refl, Z.leb_refl, orb_true_r. simpl.
  replace (2 <? mb) with true by (symmetry; apply Z.ltb_lt; lia).
  split; [lia|]. destruct (Z.ltb_spec (daysBefore mb + db + 0)
                             (daysBefore mb + db + 1)); lia.
Qed.

Lemma expectedAge_on_the_eve now dateOfBirth :
  validDate now →
  isLeap (tYear dateOfBirth) = false → isLeap (tYear now) = true →
  3 ≤ tMonth dateOfBirth →
  tMonth now = tMonth dateOfBirth → tDay now + 1 = tDay dateOfBirth →
  calendarAge now dateOfBirth = Year now - Year dateOfBirth - 1
  ∧ expectedAge now dateOfBirth = Year now - Year dateOfBirth.
Proof.
  destruct now as [yn mn dn nn], dateOfBirth as [yb mb db nb].
  intros [Hmn Hdn] Hlb Hln Hmarch Hm Hd. simpl in *. subst mn db.
  unfold expectedAge, calendarAge, birthdayReached, YearDay, Year. simpl.
  rewrite Hlb, Hln, Z.eqb_refl. simpl.
  replace (2 <? mb) with true by (symmetry; apply Z.ltb_lt; lia).
  replace (mb <? mb) with false by (symmetry; apply Z.ltb_ge; lia).
  replace (dn + 1 <=? dn) with false by (symmetry; apply Z.leb_gt; lia).
  simpl. split; [lia|].
  destruct (Z.ltb_spec (daysBefore mb + dn + 1)
              (daysBefore mb + (dn + 1) + 0)); lia.
Qed.

(** X11. The age that the consistency check computes compares days of
    the year, not month and day. It is the age in completed years
    whenever today's year and the year of birth are both leap years or
    both common years, and whenever both dates fall in January or
    February. Between a leap year and a common year the days after
    February are numbered one apart: for someone born after February in
    a leap year, the computed age on the birthday itself in a common
    year is one year short; for someone born after February in a common
    year, the computed age on the eve of the birthday in a leap year is
    already one year more. *)
Theorem computed_age_and_the_calendar :
  ∀ now dateOfBirth,
    validDate now → validDate dateOfBirth →
    (isLeap (tYear now) = isLeap (tYear dateOfBirth) →
     expectedAge now dateOfBirth = calendarAge now dateOfBirth)
    ∧ (tMonth now ≤ 2 → tMonth dateOfBirth ≤ 2 →
       expectedAge now dateOfBirth = calendarAge now dateOfBirth)
    ∧ (isLeap (tYear dateOfBirth) = true → isLeap (tYear now) = false →
       3 ≤ tMonth dateOfBirth →
       tMonth now = tMonth dateOfBirth → tDay now = tDay dateOfBirth →
       calendarAge now dateOfBirth = Year now - Year dateOfBirth
       ∧ expectedAge now dateOfBirth = Year now - Year dateOfBirth - 1)
    ∧ (isLeap (tYear dateOfBirth) = false → isLeap (tYear now) = true →
       3 ≤ tMonth dateOfBirth →
       tMonth now = tMonth dateOfBirth → tDay now + 1 = tDay dateOfBirth →
       calendarAge now dateOfBirth = Year now - Year dateOfBirth - 1
       ∧ expectedAge now dateOfBirth = Year now - Year dateOfBirth).
Proof.
  intros now dateOfBirth Hnow Hdob. split_and!.
  - by apply expectedAge_same_leap.
  - by apply expectedAge_before_march.
  - by apply expectedAge_on_the_birthday.
  - by apply expectedAge_on_the_eve.
Qed.

Lemma computed_age_and_the_calendar_witness :
  expectedAge (Date 2024 6 15) (Date 1984 2 2) = 40
  ∧ (calendarAge (Date 2023 3 1) (Date 2000 3 1) = 23
     ∧ expectedAge (Date 2023 3 1) (Date 2000 3 1) = 22)
  ∧ (calendarAge (Date 2024 6 14) (Date 1999 6 15) = 24
     ∧ expectedAge (Date 2024 6 14) (Date 1999 6 15) = 25).
Proof.
  split; [|split].
  - destruct (computed_age_and_the_calendar (Date 2024 6 15)
                (Date 1984 2 2)) as (Hsame & _);
      [by unfold validDate; simpl; lia..|].
    by rewrite Hsame.
  - destruct (computed_age_and_the_calendar (Date 2023 3 1) (Date 2000 3 1))
      as (_ & _ & Hday & _); [by unfold validDate; simpl; lia..|].
    by apply Hday.
  - destruct (computed_age_and_the_calendar (Date 2024 6 14)
                (Date 1999 6 15)) as (_ & _ & _ & Heve);
      [by unfold validDate; simpl; lia..|].
    by apply Heve.
Defined.

(** ** Create, read and delete over the database of the migrations *)

Lemma find_filter_ne {A} (key : A → Z) (rows : list A) id id' :
  id ≠ id' →
  find (λ row, bool_decide (key row = id))
    (filter (λ row, key row ≠ id') rows)
  = find (λ row, bool_decide (key row = id)) rows.
Proof.
  intros Hne. induction rows as [|row rows IH]; [done|].
  rewrite filter_cons. simpl. case_decide as Hkeep; simpl.
  - by rewrite IH.
  - rewrite IH. rewrite bool_decide_eq_false_2; [done|]. congruence.
Qed.

Lemma find_filter_eq {A} (key : A → Z) (rows : list A) id :
  find (λ row, bool_decide (key row = id))
    (filter (λ row, key row ≠ id) rows) = None.
Proof.
  induction rows as [|row rows IH]; [done|].
  rewrite filter_cons. case_decide as Hkeep; simpl; [|done].
  by rewrite bool_decide_eq_false_2.
Qed.

Lemma find_app_fresh {A} (key : A → Z) (rows : list A) row :
  find (λ r, bool_decide (key r = key row)) rows = None →
  find (λ r, bool_decide (key r = key row)) (rows ++ [row]) = Some row.
Proof.
  induction rows as [|r rows IH]; simpl.
  - by rewrite bool_decide_eq_true_2.
  - case_bool_decide; [done|]. apply IH.
Qed.

(** The validator of the server reads the clock and nothing else. *)
Lemma traverseField_memdb isEmail field v tags w :
  (config.traverseField isEmail field v tags w).2 = w.
Proof.
  induction tags as [|tag tags IH]; [done|].
  destruct tag; simpl; run;
    try (destruct (config.hasValue v); done);
    try (match goal with |- context [if ?b then _ else _] => destruct b end;
         done).
  unfold validation.PastDateValidator. destruct v; simpl; try done.
  unfold Now, memdb.worldClock. simpl. by destruct (Before _ _).
Qed.

Lemma Struct_memdb isEmail req w :
  (Struct (memdb.validate isEmail) req w).2 = w.
Proof.
  unfold memdb.validate, config.Validate. simpl.
  generalize (config.fields req). intros fields. revert w.
  induction fields as [|[[field v] tags] fields IH]; intros w; [done|].
  simpl. run. pose proof (traverseField_memdb isEmail field v tags w) as Hf.
  destruct (config.traverseField isEmail field v tags w) as [errs w1].
  simpl in Hf. subst w1. pose proof (IH w) as Hrest.
  by destruct (config.validateStruct isEmail fields w) as [more w2].
Qed.

Section delete_over_memdb.
Context (isEmail : string → bool) (authorize : Z → State memdb.World bool).
Hypothesis authorize_reads : ∀ patientID w, (authorize patientID w).2 = w.

Lemma DeleteLifestyleEntry_memdb id w w' :
  LifestyleService.DeleteLifestyleEntry (memdb.lifestyleService isEmail authorize) id w
    = (None, w') →
  w' = memdb.setLifestyle w
         (filter (λ row, db.PatientLifestyle.PatientLifestyleID row
                         ≠ int32 id) (memdb.patient_lifestyle w))
         (memdb.nextLifestyleID w).
Proof.
  unfold LifestyleService.DeleteLifestyleEntry. run.
  unfold LifestyleRepositoryImpl.GetLifestyleEntry,
    LifestyleRepositoryImpl.DeleteLifestyleEntry. run.
  unfold memdb.GetLifestyleEntry.
  destruct (memdb.findLifestyle _ _) as [row|]; simpl; [|done].
  pose proof (authorize_reads (db.PatientLifestyle.PatientID row) w) as Hsame.
  destruct (authorize _ w) as [allowed w2]. simpl in Hsame. subst w2.
  destruct allowed; simpl; [|done]. by intros [= <-].
Qed.

Lemma DeleteMedicalHistoryEntry_memdb id w w' :
  MedicalHistoryService.DeleteMedicalHistoryEntry
    (memdb.medicalHistoryService isEmail authorize) id w = (None, w') →
  w' = memdb.setMedicalHistory w
         (filter (λ row,
            db.PatientMedicalHistory.PatientMedicalHistoryID row
            ≠ int32 id) (memdb.patient_medical_history w))
         (memdb.nextMedicalHistoryID w).
Proof.
  unfold MedicalHistoryService.DeleteMedicalHistoryEntry. run.
  unfold MedicalHistoryRepositoryImpl.GetMedicalHistoryEntry,
    MedicalHistoryRepositoryImpl.DeleteMedicalHistoryEntry. run.
  unfold memdb.GetMedicalHistoryEntry.
  destruct (memdb.findMedicalHistory _ _) as [row|]; simpl; [|done].
  pose proof (authorize_reads (V (db.PatientMedicalHistory.PatientID row)) w) as Hsame.
  destruct (authorize _ w) as [allowed w2]. simpl in Hsame. subst w2.
  destruct allowed; simpl; [|done]. by intros [= <-].
Qed.

End delete_over_memdb.

(** X12. Over the database of the migrations and an authorize function
    that leaves the world as it is: once a Delete of a
    Lifestyle or MedicalHistory entry has succeeded, reading the entry
    by its id reports that it is not found, a second Delete reports the
    same, every entry with another id reads as before, and the table of
    patients is untouched. *)
Theorem deleted_entry_is_gone :
  ∀ isEmail (authorize : Z → State memdb.World bool),
    (∀ patientID w, (authorize patientID w).2 = w) →
    ∀ id w,
    (∀ w',
       LifestyleService.DeleteLifestyleEntry (memdb.lifestyleService isEmail authorize)
         id w = (None, w') →
       LifestyleService.GetLifestyleEntry (memdb.lifestyleService isEmail authorize)
         id w' = (Err ErrLifestyleEntryNotFound, w')
       ∧ LifestyleService.DeleteLifestyleEntry
           (memdb.lifestyleService isEmail authorize) id w'
         = (Some ErrLifestyleEntryNotFound, w')
       ∧ (∀ id', int32 id' ≠ int32 id →
            (LifestyleService.GetLifestyleEntry
               (memdb.lifestyleService isEmail authorize) id' w').1
            = (LifestyleService.GetLifestyleEntry
                 (memdb.lifestyleService isEmail authorize) id' w).1)
       ∧ memdb.patients w' = memdb.patients w)
    ∧ (∀ w',
         MedicalHistoryService.DeleteMedicalHistoryEntry
           (memdb.medicalHistoryService isEmail authorize) id w = (None, w') →
         MedicalHistoryService.GetMedicalHistoryEntry
           (memdb.medicalHistoryService isEmail authorize) id w'
         = (Err ErrMedicalHistoryEntryNotFound, w')
         ∧ MedicalHistoryService.DeleteMedicalHistoryEntry
             (memdb.medicalHistoryService isEmail authorize) id w'
           = (Some ErrMedicalHistoryEntryNotFound, w')
         ∧ (∀ id', int32 id' ≠ int32 id →
              (MedicalHistoryService.GetMedicalHistoryEntry
                 (memdb.medicalHistoryService isEmail authorize) id' w').1
              = (MedicalHistoryService.GetMedicalHistoryEntry
                   (memdb.medicalHistoryService isEmail authorize) id' w).1)
         ∧ memdb.patients w' = memdb.patients w).
Proof.
  intros isEmail authorize Hauth id w. split; intros w' Hdel.
  - apply (DeleteLifestyleEntry_memdb _ _ Hauth) in Hdel as ->. split_and!.
    + unfold LifestyleService.GetLifestyleEntry. run.
      unfold LifestyleRepositoryImpl.GetLifestyleEntry. run.
      unfold memdb.GetLifestyleEntry, memdb.findLifestyle. simpl.
      by rewrite (find_filter_eq db.PatientLifestyle.PatientLifestyleID).
    + unfold LifestyleService.DeleteLifestyleEntry. run.
      unfold LifestyleRepositoryImpl.GetLifestyleEntry. run.
      unfold memdb.GetLifestyleEntry, memdb.findLifestyle. simpl.
      by rewrite (find_filter_eq db.PatientLifestyle.PatientLifestyleID).
    + intros id' Hne. unfold LifestyleService.GetLifestyleEntry. run.
      unfold LifestyleRepositoryImpl.GetLifestyleEntry. run.
      unfold memdb.GetLifestyleEntry, memdb.findLifestyle. simpl.
      rewrite (find_filter_ne db.PatientLifestyle.PatientLifestyleID)
        by done.
      by destruct (find _ _).
    + done.
  - apply (DeleteMedicalHistoryEntry_memdb _ _ Hauth) in Hdel as ->.
    split_and!.
    + unfold MedicalHistoryService.GetMedicalHistoryEntry. run.
      unfold MedicalHistoryRepositoryImpl.GetMedicalHistoryEntry. run.
      unfold memdb.GetMedicalHistoryEntry, memdb.findMedicalHistory. simpl.
      by rewrite (find_filter_eq
                    db.PatientMedicalHistory.PatientMedicalHistoryID).
    + unfold MedicalHistoryService.DeleteMedicalHistoryEntry. run.
      unfold MedicalHistoryRepositoryImpl.GetMedicalHistoryEntry. run.
      unfold memdb.GetMedicalHistoryEntry, memdb.findMedicalHistory. simpl.
      by rewrite (find_filter_eq
                    db.PatientMedicalHistory.PatientMedicalHistoryID).
    + intros id' Hne. unfold MedicalHistoryService.GetMedicalHistoryEntry.
      run. unfold MedicalHistoryRepositoryImpl.GetMedicalHistoryEntry. run.
      unfold memdb.GetMedicalHistoryEntry, memdb.findMedicalHistory. simpl.
      rewrite (find_filter_ne
                 db.PatientMedicalHistory.PatientMedicalHistoryID) by done.
      by destruct (find _ _).
    + done.
Qed.

Lemma deleted_entry_is_gone_witness :
  ∃ w',
    LifestyleService.DeleteLifestyleEntry
        (sample.lifestyleService sample.allow) 1
      sample.world = (None, w')
    ∧ memdb.patient_lifestyle w' = []
    ∧ LifestyleService.GetLifestyleEntry
        (sample.lifestyleService sample.allow) 1 w'
      = (Err ErrLifestyleEntryNotFound, w')
    ∧ LifestyleService.DeleteLifestyleEntry
        (sample.lifestyleService sample.allow) 1 w'
      = (Some ErrLifestyleEntryNotFound, w').
Proof.
  eexists. split; [reflexivity|]. split; [reflexivity|].
  destruct (deleted_entry_is_gone sample.isEmail sample.allow
              (λ _ _, eq_refl) 1 sample.world) as [Hdel _].
  destruct (Hdel _ eq_refl) as (Hget & Hagain & _). by split.
Defined.

Section create_over_memdb.
Context (isEmail : string → bool) (authorize : Z → State memdb.World bool).

Lemma CreateLifestyleEntry_memdb patientID req w e w' :
  LifestyleService.CreateLifestyleEntry (memdb.lifestyleService isEmail authorize)
    patientID req w = (Ok e, w') →
  ∃ row,
    e = LifestyleRepositoryImpl.convertDbLifestyleEntryToDomain row
    ∧ w' = memdb.setLifestyle w (memdb.patient_lifestyle w ++ [row])
             (memdb.nextLifestyleID w + 1)
    ∧ db.PatientLifestyle.PatientLifestyleID row = memdb.nextLifestyleID w
    ∧ db.PatientLifestyle.PatientID row = int32 patientID
    ∧ db.PatientLifestyle.LifestyleFactor row
      = CreateLifestyleRequest.LifestyleFactor req
    ∧ V (db.PatientLifestyle.Value row) = CreateLifestyleRequest.Value req
    ∧ is_Some (memdb.findPatient (int32 patientID) (memdb.patients w)).
Proof.
  unfold LifestyleService.CreateLifestyleEntry, memdb.lifestyleService.
  unfold mbind, State_bind. cbn [LifestyleService.validator
    LifestyleService.patientRepo LifestyleService.lifestyleRepo
    main.lifestyleService].
  pose proof (Struct_memdb isEmail (ReqCreateLifestyle req) w) as Hv.
  destruct (Struct _ _ w) as [[|fe errs] w1]; simpl in Hv; subst w1;
    [|done]. run.
  unfold PatientRepositoryImpl.GetPatient. run. unfold memdb.GetPatient.
  destruct (memdb.findPatient _ _) as [patient|] eqn:Hp; simpl; [|done].
  unfold LifestyleRepositoryImpl.CreateLifestyleEntry. run.
  unfold memdb.CreateLifestyleEntry. simpl. rewrite Hp. simpl.
  intros [= <- <-]. eexists. by split_and!.
Qed.

Lemma CreateMedicalHistoryEntry_memdb patientID req w e w' :
  MedicalHistoryService.CreateMedicalHistoryEntry
    (memdb.medicalHistoryService isEmail authorize) patientID req w = (Ok e, w') →
  ∃ row,
    e = MedicalHistoryRepositoryImpl.convertDbMedicalHistoryEntryToDomain row
    ∧ w' = memdb.setMedicalHistory w
             (memdb.patient_medical_history w ++ [row])
             (memdb.nextMedicalHistoryID w + 1)
    ∧ db.PatientMedicalHistory.PatientMedicalHistoryID row
      = memdb.nextMedicalHistoryID w
    ∧ db.PatientMedicalHistory.PatientID row
      = mkNull (int32 patientID) true
    ∧ db.PatientMedicalHistory.Condition row
      = CreateMedicalHistoryRequest.Condition req
    ∧ V (db.PatientMedicalHistory.Status row)
      = CreateMedicalHistoryRequest.Status req
    ∧ V (db.PatientMedicalHistory.Details row)
      = CreateMedicalHistoryRequest.Details req
    ∧ is_Some (memdb.findPatient (int32 patientID) (memdb.patients w)).
Proof.
  unfold MedicalHistoryService.CreateMedicalHistoryEntry,
    memdb.medicalHistoryService.
  unfold mbind, State_bind. cbn [MedicalHistoryService.validate
    MedicalHistoryService.patientRepo
    MedicalHistoryService.medicalHistoryRepo main.medicalHistoryService].
  pose proof (Struct_memdb isEmail (ReqCreateMedicalHistory req) w) as Hv.
  destruct (Struct _ _ w) as [[|fe errs] w1]; simpl in Hv; subst w1;
    [|done]. run.
  unfold PatientRepositoryImpl.GetPatient. run. unfold memdb.GetPatient.
  destruct (memdb.findPatient _ _) as [patient|] eqn:Hp; simpl; [|done].
  unfold MedicalHistoryRepositoryImpl.CreateMedicalHistoryEntry. run.
  unfold memdb.CreateMedicalHistoryEntry. simpl. rewrite Hp. simpl.
  intros [= <- <-]. eexists. by split_and!.
Qed.

End create_over_memdb.

Lemma listed_after_create {A B} (P : A → Prop) `{!∀ x, Decision (P x)}
    (convert : A → B) rows row :
  P row →
  bool_decide (length (filter P (rows ++ [row])) = 0%nat) = false
  ∧ convert row ∈ convert <$> filter P (rows ++ [row]).
Proof.
  intros HP. assert (row ∈ filter P (rows ++ [row])) as Hin.
  { apply list_elem_of_filter. split; [done|].
    apply elem_of_app. right. by left. }
  split.
  - apply bool_decide_eq_false. intros Hlen.
    apply length_zero_iff_nil in Hlen. rewrite Hlen in Hin.
    by apply elem_of_nil in Hin.
  - by apply list_elem_of_fmap_2.
Qed.



Lemma find_replaced {A} (key : A → Z) (rows : list A) id old row :
  find (λ r, bool_decide (key r = id)) rows = Some old →
  key row = key old →
  find (λ r, bool_decide (key r = id))
    ((λ r, if bool_decide (key r = key old) then row else r) <$> rows)
  = Some row.
Proof.
  intros Hfind Hkey. induction rows as [|r rows IH]; [done|].
  simpl in *. case_bool_decide as Hr.
  - injection Hfind as ->.
    rewrite (bool_decide_eq_true_2 (key old = key old)) by done.
    by rewrite (bool_decide_eq_true_2 (key row = id)) by congruence.
  - assert (key old = id) as Hold.
    { apply find_some in Hfind as [_ Hold].
      by apply bool_decide_eq_true in Hold. }
    rewrite (bool_decide_eq_false_2 (key r = key old)) by congruence.
    rewrite (bool_decide_eq_false_2 (key r = id)) by done. by apply IH.
Qed.

Section update_over_memdb.
Context (isEmail : string → bool) (authorize : Z → State memdb.World bool).
Hypothesis authorize_reads : ∀ patientID w, (authorize patientID w).2 = w.

Lemma UpdateLifestyleEntry_memdb id req w e w' :
  LifestyleService.UpdateLifestyleEntry (memdb.lifestyleService isEmail authorize)
    id req w = (Ok e, w') →
  ∃ old row,
    memdb.findLifestyle (int32 id) (memdb.patient_lifestyle w) = Some old
    ∧ e = LifestyleRepositoryImpl.convertDbLifestyleEntryToDomain row
    ∧ w' = memdb.setLifestyle w
             ((λ r, if bool_decide
                         (db.PatientLifestyle.PatientLifestyleID r
                          = db.PatientLifestyle.PatientLifestyleID old)
                    then row else r) <$> memdb.patient_lifestyle w)
             (memdb.nextLifestyleID w)
    ∧ db.PatientLifestyle.PatientLifestyleID row
      = db.PatientLifestyle.PatientLifestyleID old
    ∧ db.PatientLifestyle.PatientID row = db.PatientLifestyle.PatientID old
    ∧ db.PatientLifestyle.CreatedAt row = db.PatientLifestyle.CreatedAt old
    ∧ db.PatientLifestyle.LifestyleFactor row
      = LifestyleEntry.LifestyleFactor
          (LifestyleService.merge
             (LifestyleRepositoryImpl.convertDbLifestyleEntryToDomain old)
             req)
    ∧ V (db.PatientLifestyle.Value row)
      = LifestyleEntry.Value
          (LifestyleService.merge
             (LifestyleRepositoryImpl.convertDbLifestyleEntryToDomain old)
             req).
Proof.
  unfold LifestyleService.UpdateLifestyleEntry. run.
  unfold LifestyleRepositoryImpl.GetLifestyleEntry. run.
  unfold memdb.GetLifestyleEntry.
  destruct (memdb.findLifestyle _ _) as [old|] eqn:Hold; simpl; [|done].
  pose proof (authorize_reads (db.PatientLifestyle.PatientID old) w) as Hsame.
  destruct (authorize _ w) as [allowed w2]. simpl in Hsame. subst w2.
  destruct allowed; simpl; [|done].
  unfold LifestyleRepositoryImpl.UpdateLifestyleEntry. run.
  unfold memdb.UpdateLifestyleEntry. simpl. rewrite Hold. simpl.
  intros [= <- <-]. exists old. eexists. by split_and!.
Qed.

Lemma UpdateMedicalHistoryEntry_memdb id req w e w' :
  MedicalHistoryService.UpdateMedicalHistoryEntry
    (memdb.medicalHistoryService isEmail authorize) id req w = (Ok e, w') →
  ∃ old row,
    memdb.findMedicalHistory (int32 id) (memdb.patient_medical_history w)
      = Some old
    ∧ e = MedicalHistoryRepositoryImpl.convertDbMedicalHistoryEntryToDomain
            row
    ∧ w' = memdb.setMedicalHistory w
             ((λ r, if bool_decide
                         (db.PatientMedicalHistory.PatientMedicalHistoryID r
                          = db.PatientMedicalHistory.PatientMedicalHistoryID
                              old)
                    then row else r) <$> memdb.patient_medical_history w)
             (memdb.nextMedicalHistoryID w)
    ∧ db.PatientMedicalHistory.PatientMedicalHistoryID row
      = db.PatientMedicalHistory.PatientMedicalHistoryID old
    ∧ db.PatientMedicalHistory.PatientID row
      = db.PatientMedicalHistory.PatientID old
    ∧ db.PatientMedicalHistory.CreatedAt row
      = db.PatientMedicalHistory.CreatedAt old
    ∧ db.PatientMedicalHistory.Condition row
      = MedicalHistoryEntry.Condition
          (MedicalHistoryService.merge
             (MedicalHistoryRepositoryImpl.convertDbMedicalHistoryEntryToDomain
                old) req)
    ∧ V (db.PatientMedicalHistory.Status row)
      = MedicalHistoryEntry.Status
          (MedicalHistoryService.merge
             (MedicalHistoryRepositoryImpl.convertDbMedicalHistoryEntryToDomain
                old) req)
    ∧ V (db.PatientMedicalHistory.Details row)
      = MedicalHistoryEntry.Details
          (MedicalHistoryService.merge
             (MedicalHistoryRepositoryImpl.convertDbMedicalHistoryEntryToDomain
                old) req).
Proof.
  unfold MedicalHistoryService.UpdateMedicalHistoryEntry,
    memdb.medicalHistoryService.
  unfold mbind, State_bind. cbn [MedicalHistoryService.validate
    MedicalHistoryService.patientRepo MedicalHistoryService.authorize
    MedicalHistoryService.medicalHistoryRepo main.medicalHistoryService].
  pose proof (Struct_memdb isEmail (ReqUpdateMedicalHistory req) w) as Hv.
  destruct (Struct _ _ w) as [[|fe errs] w1]; simpl in Hv; subst w1;
    [|done]. run.
  unfold MedicalHistoryRepositoryImpl.GetMedicalHistoryEntry. run.
  unfold memdb.GetMedicalHistoryEntry.
  destruct (memdb.findMedicalHistory _ _) as [old|] eqn:Hold; simpl; [|done].
  pose proof (authorize_reads (V (db.PatientMedicalHistory.PatientID old)) w) as Hsame.
  destruct (authorize _ w) as [allowed w2]. simpl in Hsame. subst w2.
  destruct allowed; simpl; [|done].
  unfold MedicalHistoryRepositoryImpl.UpdateMedicalHistoryEntry. run.
  unfold memdb.UpdateMedicalHistoryEntry. simpl. rewrite Hold. simpl.
  intros [= <- <-]. exists old. eexists. by split_and!.
Qed.

End update_over_memdb.



(** ** A denied and a granted request, from the query to the reply *)

(** X15. Through the handlers, services and repositories that
    cmd/main.go wires together, for an Update or a Delete of a Lifestyle
    or MedicalHistory entry whose row the database returns: when the
    authorize function returns false for the owner stored in the row,
    the reply is 403 with the message "forbidden" and the world is the
    one the authorize call left, so no statement that writes was sent;
    when it returns true and the delete statement succeeds, the reply is
    204 without a body. For a MedicalHistory row the owner asked about
    is the value of the nullable [patient_id] column. *)
Theorem denied_is_403_and_deleted_is_204 :
  ∀ W (queries : db.Queries W) (validate : Validate W)
    (authorize : Z → State W bool) (id : string) (n : Z),
    Atoi id = Some n →
    let hL := main.lifestyleHandler queries validate authorize in
    let hM := main.medicalHistoryHandler queries validate authorize in
    (∀ req w w1 row w2 w3,
       Struct validate (ReqUpdateLifestyle req) w = ([], w1) →
       db.GetLifestyleEntry queries (int32 n) w1 = (Ok row, w2) →
       authorize (db.PatientLifestyle.PatientID row) w2 = (false, w3) →
       handler.UpdateLifestyleEntry hL id (Ok req) w
       = (Send StatusForbidden (ErrorBody "forbidden"), w3))
    ∧ (∀ w row w2 allowed w3,
         db.GetLifestyleEntry queries (int32 n) w = (Ok row, w2) →
         authorize (db.PatientLifestyle.PatientID row) w2 = (allowed, w3) →
         if allowed then
           ∀ w4, db.DeleteLifestyleEntry queries (int32 n) w3 = (None, w4) →
                 handler.DeleteLifestyleEntry hL id w
                 = (Send StatusNoContent NoBody, w4)
         else handler.DeleteLifestyleEntry hL id w
              = (Send StatusForbidden (ErrorBody "forbidden"), w3))
    ∧ (∀ req w w1 row w2 w3,
         Struct validate (ReqUpdateMedicalHistory req) w = ([], w1) →
         db.GetMedicalHistoryEntry queries (int32 n) w1 = (Ok row, w2) →
         authorize (V (db.PatientMedicalHistory.PatientID row)) w2
           = (false, w3) →
         handler.UpdateMedicalHistoryEntry hM id (Ok req) w
         = (Send StatusForbidden (ErrorBody "forbidden"), w3))
    ∧ (∀ w row w2 allowed w3,
         db.GetMedicalHistoryEntry queries (int32 n) w = (Ok row, w2) →
         authorize (V (db.PatientMedicalHistory.PatientID row)) w2
           = (allowed, w3) →
         if allowed then
           ∀ w4,
             db.DeleteMedicalHistoryEntry queries (int32 n) w3 = (None, w4) →
             handler.DeleteMedicalHistoryEntry hM id w
             = (Send StatusNoContent NoBody, w4)
         else handler.DeleteMedicalHistoryEntry hM id w
              = (Send StatusForbidden (ErrorBody "forbidden"), w3)).
Proof.
  intros W queries validate authorize id n Hid hL hM. split_and!.
  - intros req w w1 row w2 w3 Hv Hq Ha.
    unfold handler.UpdateLifestyleEntry. rewrite Hid.
    unfold LifestyleService.UpdateLifestyleEntry. run. rewrite Hv; simpl.
    unfold LifestyleRepositoryImpl.GetLifestyleEntry. run.
    rewrite Hq; simpl. by rewrite Ha.
  - intros w row w2 allowed w3 Hq Ha.
    unfold handler.DeleteLifestyleEntry. rewrite Hid.
    unfold LifestyleService.DeleteLifestyleEntry. run.
    unfold LifestyleRepositoryImpl.GetLifestyleEntry. run.
    rewrite Hq; simpl. rewrite Ha. destruct allowed; simpl; [|done].
    intros w4 Hd. unfold LifestyleRepositoryImpl.DeleteLifestyleEntry. run.
    by rewrite Hd.
  - intros req w w1 row w2 w3 Hv Hq Ha.
    unfold handler.UpdateMedicalHistoryEntry. rewrite Hid.
    unfold MedicalHistoryService.UpdateMedicalHistoryEntry. run.
    rewrite Hv; simpl.
    unfold MedicalHistoryRepositoryImpl.GetMedicalHistoryEntry. run.
    rewrite Hq; simpl. by rewrite Ha.
  - intros w row w2 allowed w3 Hq Ha.
    unfold handler.DeleteMedicalHistoryEntry. rewrite Hid.
    unfold MedicalHistoryService.DeleteMedicalHistoryEntry. run.
    unfold MedicalHistoryRepositoryImpl.GetMedicalHistoryEntry. run.
    rewrite Hq; simpl. rewrite Ha. destruct allowed; simpl; [|done].
    intros w4 Hd.
    unfold MedicalHistoryRepositoryImpl.DeleteMedicalHistoryEntry. run.
    by rewrite Hd.
Qed.

Lemma denied_is_403_and_deleted_is_204_witness :
  handler.UpdateLifestyleEntry (sample.lifestyleHandler sample.deny) "1"
    (Ok UpdateLifestyleRequest.zero) sample.world
  = (Send StatusForbidden (ErrorBody "forbidden"), sample.world)
  ∧ handler.DeleteMedicalHistoryEntry
      (sample.medicalHistoryHandler sample.deny) "1"
      sample.world
    = (Send StatusForbidden (ErrorBody "forbidden"), sample.world)
  ∧ handler.DeleteLifestyleEntry (sample.lifestyleHandler sample.allow) "1"
      sample.world
    = (Send StatusNoContent NoBody,
       memdb.setLifestyle sample.world [] 2).
Proof.
  split_and!.
  - destruct (denied_is_403_and_deleted_is_204 memdb.World memdb.queries
                sample.validate sample.deny
                "1" 1 eq_refl) as (Hupdate & _).
    by apply (Hupdate _ sample.world sample.world sample.lifestyleRow
                sample.world sample.world).
  - destruct (denied_is_403_and_deleted_is_204 memdb.World memdb.queries
                sample.validate sample.deny
                "1" 1 eq_refl) as (_ & _ & _ & Hdelete).
    by apply (Hdelete sample.world sample.historyRow sample.world false
                sample.world).
  - destruct (denied_is_403_and_deleted_is_204 memdb.World memdb.queries
                sample.validate sample.allow
                "1" 1 eq_refl) as (_ & Hdelete & _).
    by apply (Hdelete sample.world sample.lifestyleRow sample.world true
                sample.world).
Defined.

(** ** The patient updates that the validator of the server accepts *)

Section accepted_update.
Context {W : Type} `{!Clock W} (isEmail : string → bool).

(** An optional field passes when it is empty or its rule holds; the
    rules other than [pastdate] do not read the clock. *)
Lemma optional_field field v tag w :
  tag ≠ config.omitempty → tag ≠ config.pastdate →
  config.traverseField isEmail field v [config.omitempty; tag] w
  = (if config.hasValue v && negb (config.validations isEmail tag v w).1
     then [mkFieldError field (config.name tag)] else [], w).
Proof.
  intros Hne1 Hne2. simpl. destruct (config.hasValue v); simpl; [|done].
  destruct tag; try done; simpl; run;
    match goal with
    | |- context [if ?b then _ else _] => by destruct b
    end.
Qed.

Lemma validateStruct_cons field v tags rest w errs more w1 w2 :
  config.traverseField isEmail field v tags w = (errs, w1) →
  config.validateStruct isEmail rest w1 = (more, w2) →
  config.validateStruct isEmail ((field, v, tags) :: rest) w
  = (errs ++ more, w2).
Proof. intros Hf Hr. simpl. run. by rewrite Hf, Hr. Qed.

Lemma no_error_iff (h ok : bool) (fe : FieldError) :
  (if h && negb ok then [fe] else []) = [] ↔ h = false ∨ ok = true.
Proof.
  destruct h, ok; simpl; split; try done; try (by left); try (by right).
  by intros [?|?].
Qed.

Lemma optional_string_oneof s param :
  param ∈ oneofParams →
  config.hasValue (validation.OfString s) = false
  ∨ validation.OneOfValidator
      {| validation.Field := validation.OfString s;
         validation.Param := param |} = true
  ↔ s = "" ∨ s = param.
Proof.
  intros Hin. rewrite OneOfValidator_domain by done. simpl.
  rewrite bool_decide_eq_false. split.
  - intros [Hs|Heq]; [left|right; by injection Heq].
    by destruct (decide (s = "")).
  - intros [-> | ->]; [left; naive_solver|by right].
Qed.

Lemma UpdatePatient_without_date req w :
  UpdatePatientRequest.DateOfBirth req = zeroTime →
  ∃ age sex phone mail communication status,
    Struct (config.Validate isEmail) (ReqUpdatePatient req) w
    = (age ++ [] ++ sex ++ phone ++ mail ++ communication ++ status ++ [], w)
    ∧ (age = [] ↔ UpdatePatientRequest.Age req = 0
                  ∨ 18 ≤ UpdatePatientRequest.Age req)
    ∧ (sex = [] ↔ UpdatePatientRequest.Sex req = ""
                  ∨ UpdatePatientRequest.Sex req = "Male Female Other")
    ∧ (phone = [] ↔ UpdatePatientRequest.PhoneNumber req = ""
                    ∨ matchPhoneNumber (UpdatePatientRequest.PhoneNumber req)
                      = true)
    ∧ (mail = [] ↔ UpdatePatientRequest.EmailAddress req = ""
                   ∨ isEmail (UpdatePatientRequest.EmailAddress req) = true)
    ∧ (communication = []
       ↔ UpdatePatientRequest.PreferredCommunication req = ""
         ∨ UpdatePatientRequest.PreferredCommunication req
           = "Phone Email Text")
    ∧ (status = []
       ↔ UpdatePatientRequest.SocioeconomicStatus req = ""
         ∨ UpdatePatientRequest.SocioeconomicStatus req
           = "Low Middle High Decline to Answer").
Proof.
  intros Hdob. do 6 eexists. split.
  - unfold Struct, config.Validate, config.fields.
    eapply validateStruct_cons; [by apply optional_field|].
    eapply validateStruct_cons; [by rewrite Hdob|].
    do 5 (eapply validateStruct_cons; [by apply optional_field|]).
    reflexivity.
  - split_and!; rewrite no_error_iff; simpl.
    + unfold validation.MinimumAgeValidator. simpl.
      rewrite bool_decide_eq_false, bool_decide_eq_true. lia.
    + apply optional_string_oneof. unfold oneofParams.
      rewrite !elem_of_cons. tauto.
    + unfold validation.PhoneNumberValidator. simpl.
      rewrite bool_decide_eq_false. case_bool_decide; intuition.
    + rewrite bool_decide_eq_false.
      destruct (decide (UpdatePatientRequest.EmailAddress req = ""));
        intuition.
    + apply optional_string_oneof. unfold oneofParams.
      rewrite !elem_of_cons. tauto.
    + apply optional_string_oneof. unfold oneofParams.
      rewrite !elem_of_cons. tauto.
Qed.
End accepted_update.

(** X16. What the validator built by config.InitValidator accepts as
    the body of a patient update: a request passes exactly when it has
    no date of birth, its age is absent or at least 18, its phone
    number is absent or matches the pattern of the phone rule, its
    e-mail address is absent or passes the library's e-mail rule, and
    each of sex, preferred communication and socioeconomic status is
    absent or spells the whole list of its [oneof] tag. Validating such
    a request does not read the clock. *)
Theorem InitValidator_accepted_patient_update :
  ∀ W (clock : Clock W) (isEmail : string → bool) req (w : W),
    let accepted :=
      UpdatePatientRequest.DateOfBirth req = zeroTime
      ∧ (UpdatePatientRequest.Age req = 0
         ∨ 18 ≤ UpdatePatientRequest.Age req)
      ∧ (UpdatePatientRequest.Sex req = ""
         ∨ UpdatePatientRequest.Sex req = "Male Female Other")
      ∧ (UpdatePatientRequest.PhoneNumber req = ""
         ∨ matchPhoneNumber (UpdatePatientRequest.PhoneNumber req) = true)
      ∧ (UpdatePatientRequest.EmailAddress req = ""
         ∨ isEmail (UpdatePatientRequest.EmailAddress req) = true)
      ∧ (UpdatePatientRequest.PreferredCommunication req = ""
         ∨ UpdatePatientRequest.PreferredCommunication req
           = "Phone Email Text")
      ∧ (UpdatePatientRequest.SocioeconomicStatus req = ""
         ∨ UpdatePatientRequest.SocioeconomicStatus req
           = "Low Middle High Decline to Answer") in
    ((Struct (config.Validate isEmail) (ReqUpdatePatient req) w).1 = []
     ↔ accepted)
    ∧ (accepted →
       Struct (config.Validate isEmail) (ReqUpdatePatient req) w = ([], w)).
Proof.
  intros W clock isEmail req w accepted.
  assert ((Struct (config.Validate isEmail) (ReqUpdatePatient req) w).1 = []
          → UpdatePatientRequest.DateOfBirth req = zeroTime) as Hdate.
  { intros Hnone.
    destruct (decide (UpdatePatientRequest.DateOfBirth req = zeroTime))
      as [|Hne]; [done|].
    destruct (InitValidator_UpdatePatient isEmail req w Hne) as [tag Hin].
    rewrite Hnone in Hin. by apply elem_of_nil in Hin. }
  assert (UpdatePatientRequest.DateOfBirth req = zeroTime →
          ((Struct (config.Validate isEmail) (ReqUpdatePatient req) w).1 = []
           ↔ accepted)
          ∧ (accepted →
             Struct (config.Validate isEmail) (ReqUpdatePatient req) w
             = ([], w))) as Hwithout.
  { intros Hdob.
    destruct (UpdatePatient_without_date isEmail req w Hdob)
      as (age & sex & phone & mail & communication & status & -> & Hage
          & Hsex & Hphone & Hmail & Hcommunication & Hstatus).
    unfold accepted. simpl.
    rewrite <- Hage, <- Hsex, <- Hphone, <- Hmail, <- Hcommunication,
      <- Hstatus.
    split.
    - rewrite (right_id_L [] (++)), !app_nil. intuition.
    - by intros (_ & -> & -> & -> & -> & -> & ->). }
  split.
  - split.
    + intros Hnone. by apply Hwithout; [apply Hdate|].
    + intros Hacc. apply Hwithout; [apply Hacc|done].
  - intros Hacc. apply Hwithout; [apply Hacc|done].
Qed.

Lemma InitValidator_accepted_patient_update_witness :
  Struct (config.Validate (λ _, true))
    (ReqUpdatePatient
       (UpdatePatientRequest.mk "Cy" 30 zeroTime "Male Female Other"
          "+14155552671" "cy@example.com" "" "" "Lyon")) sample.world
  = ([], sample.world)
  ∧ ((Struct (config.Validate (λ _, true))
        (ReqUpdatePatient
           (UpdatePatientRequest.mk "Cy" 30 zeroTime "Male" "" "" "" "" ""))
        sample.world).1 = [] → False).
Proof.
  split.
  - apply (InitValidator_accepted_patient_update memdb.World _ (λ _, true)).
    by split_and!; try (by left); try (by right).
  - intros Hnone.
    apply (InitValidator_accepted_patient_update memdb.World _ (λ _, true))
      in Hnone as (_ & _ & [Hsex|Hsex] & _); done.
Defined.

(** ** A patient, updated and read back *)

Section patient_over_memdb.
Context (isEmail : string → bool).

Lemma UpdatePatient_memdb patientID req w p w' :
  PatientService.UpdatePatient (memdb.patientService isEmail) patientID req w
    = (Ok p, w') →
  ∃ old row,
    let merged := PatientService.merge
                    (PatientRepositoryImpl.convertDbPatientToDomain old)
                    req in
    UpdatePatientRequest.DateOfBirth req = zeroTime
    ∧ memdb.findPatient (int32 patientID) (memdb.patients w) = Some old
    ∧ p = PatientRepositoryImpl.convertDbPatientToDomain row
    ∧ w' = memdb.setPatients w
             ((λ r, if bool_decide (db.Patient.PatientID r
                                    = db.Patient.PatientID old)
                    then row else r) <$> memdb.patients w)
             (memdb.nextPatientID w)
    ∧ db.Patient.PatientID row = db.Patient.PatientID old
    ∧ db.Patient.UserID row = db.Patient.UserID old
    ∧ db.Patient.CreatedAt row = db.Patient.CreatedAt old
    ∧ db.Patient.UpdatedAt row = mkNull (memdb.clock w) true
    ∧ db.Patient.DateOfBirth row = db.Patient.DateOfBirth old
    ∧ db.Patient.FullName row = Patient.FullName merged
    ∧ db.Patient.Age row = mkNull (int32 (Patient.Age merged)) true
    ∧ db.Patient.Sex row = Patient.Sex merged
    ∧ db.Patient.PhoneNumber row = nullIfEmpty (Patient.PhoneNumber merged)
    ∧ db.Patient.EmailAddress row
      = nullIfEmpty (Patient.EmailAddress merged)
    ∧ db.Patient.PreferredCommunication row
      = nullIfEmpty (Patient.PreferredCommunication merged)
    ∧ db.Patient.SocioeconomicStatus row
      = nullIfEmpty (Patient.SocioeconomicStatus merged)
    ∧ db.Patient.GeographicLocation row
      = nullIfEmpty (Patient.GeographicLocation merged).
Proof.
  unfold PatientService.UpdatePatient, memdb.patientService.
  unfold mbind, State_bind.
  cbn [PatientService.validate PatientService.patientRepo
       main.patientService].
  pose proof (Struct_memdb isEmail (ReqUpdatePatient req) w) as Hw.
  destruct (Struct _ _ w) as [[|fe errs] w1] eqn:Hv; simpl in Hw; subst w1;
    [|done].
  assert (UpdatePatientRequest.DateOfBirth req = zeroTime) as Hdob.
  { destruct (decide (UpdatePatientRequest.DateOfBirth req = zeroTime))
      as [|Hne]; [done|].
    destruct (InitValidator_UpdatePatient isEmail req w Hne) as [tag Hin].
    unfold memdb.validate in Hv. rewrite Hv in Hin.
    by apply elem_of_nil in Hin. }
  rewrite (inconsistent_skipped _ _ w) by (right; by rewrite Hdob).
  run. unfold PatientRepositoryImpl.GetPatient. run. unfold memdb.GetPatient.
  destruct (memdb.findPatient _ _) as [old|] eqn:Hold; simpl; [|done].
  unfold PatientRepositoryImpl.UpdatePatient. run.
  unfold memdb.UpdatePatient. simpl.
  match goal with |- context [negb ?b] => destruct b end; simpl; [|done].
  rewrite Hold. simpl.
  destruct (memdb.emailTaken _ _); simpl; [done|].
  intros [= <- <-]. exists old. eexists. rewrite Hdob. by split_and!.
Qed.
End patient_over_memdb.



(** ** The consistency check behind the validator of the server

    [config.InitValidator] registers [validation.DateFormatValidator]
    under the tag [dateformat], and the requests of package domain put
    that tag on [DateOfBirth], a [time.Time]: the rule asserts that the
    field is a string and so fails for every date. A request that
    carries a date of birth never passes validation, and the check of
    the age against the date of birth, which comes after the validation,
    is never made on a date. *)

Lemma IsZero_zeroTime t : IsZero t = false → t ≠ zeroTime.
Proof. by intros Hzero ->. Qed.

Lemma UpdatePatient_skips_the_check {W} `{!Clock W}
    (s : PatientService.t W) patientID req w :
  IsZero (UpdatePatientRequest.DateOfBirth req) = true →
  (PatientService.UpdatePatient s patientID req w).1 ≠ Err inconsistentData.
Proof.
  intros Hdob. unfold PatientService.UpdatePatient. run.
  destruct (Struct _ _ w) as [[|fe errs] w1]; simpl; [|done].
  rewrite (inconsistent_skipped _ _ w1) by (by right).
  simpl. cases; done.
Qed.

Section unreached_check.
Context {W : Type} `{!Clock W} (isEmail : string → bool)
        (repo : ports.PatientRepository W).

Lemma CreatePatient_refused req w calls :
  ∃ errs w1 tag,
    mkFieldError "DateOfBirth" tag ∈ errs
    ∧ PatientService.CreatePatient (Recorder.PatientService (production isEmail repo)) req
        (w, calls)
      = (Err (ValidationError "INVALID_PATIENT_DATA"
                "Validation errors occurred" (errorDetails errs)),
         (w1, calls ++ [CallStruct (ReqCreatePatient req)])).
Proof.
  destruct (InitValidator_CreatePatient isEmail req w) as [tag Hin].
  destruct (Struct (config.Validate isEmail) (ReqCreatePatient req) w)
    as [errs w1] eqn:Hv.
  exists errs, w1, tag. split; [done|].
  apply invalid_CreatePatient; [done|]. intros ->.
  by apply elem_of_nil in Hin.
Qed.

Lemma UpdatePatient_refused patientID req w calls :
  UpdatePatientRequest.DateOfBirth req ≠ zeroTime →
  ∃ errs w1 tag,
    mkFieldError "DateOfBirth" tag ∈ errs
    ∧ PatientService.UpdatePatient (Recorder.PatientService (production isEmail repo))
        patientID req (w, calls)
      = (Err (ValidationError "INVALID_PATIENT_DATA"
                "Validation errors occurred" (errorDetails errs)),
         (w1, calls ++ [CallStruct (ReqUpdatePatient req)])).
Proof.
  intros Hne.
  destruct (InitValidator_UpdatePatient isEmail req w Hne) as [tag Hin].
  destruct (Struct (config.Validate isEmail) (ReqUpdatePatient req) w)
    as [errs w1] eqn:Hv.
  exists errs, w1, tag. split; [done|].
  apply invalid_UpdatePatient; [done|]. intros ->.
  by apply elem_of_nil in Hin.
Qed.

Lemma CreatePatient_not_inconsistent req w calls :
  (PatientService.CreatePatient (Recorder.PatientService (production isEmail repo)) req
     (w, calls)).1 ≠ Err inconsistentData.
Proof.
  destruct (CreatePatient_refused req w calls)
    as (errs & w1 & tag & _ & ->). done.
Qed.

Lemma UpdatePatient_not_inconsistent patientID req w calls :
  (PatientService.UpdatePatient (Recorder.PatientService (production isEmail repo))
     patientID req (w, calls)).1 ≠ Err inconsistentData.
Proof.
  destruct (decide (UpdatePatientRequest.DateOfBirth req = zeroTime))
    as [Hdob|Hne].
  - apply UpdatePatient_skips_the_check. by rewrite Hdob.
  - destruct (UpdatePatient_refused patientID req w calls Hne)
      as (errs & w1 & tag & _ & ->). done.
Qed.
End unreached_check.

(** C5, at the code. Through the validator that cmd/main.go installs,
    CreatePatient refuses every request with the validation error
    INVALID_PATIENT_DATA, one of whose details names DateOfBirth, and
    UpdatePatient does so for every request that supplies an age and a
    date of birth; the only call made is the validation. Neither ever
    returns the error INCONSISTENT_DATA, whatever the age, the date of
    birth and the clock. *)
Theorem consistency_check_is_never_reached :
  ∀ W (clock : Clock W) (isEmail : string → bool)
    (repo : ports.PatientRepository W),
    let s := Recorder.PatientService (production isEmail repo) in
    (∀ req w calls,
       ∃ errs w1 tag,
         mkFieldError "DateOfBirth" tag ∈ errs
         ∧ PatientService.CreatePatient s req (w, calls)
           = (Err (ValidationError "INVALID_PATIENT_DATA"
                     "Validation errors occurred" (errorDetails errs)),
              (w1, calls ++ [CallStruct (ReqCreatePatient req)])))
    ∧ (∀ patientID req w calls,
         UpdatePatientRequest.Age req ≠ 0 →
         IsZero (UpdatePatientRequest.DateOfBirth req) = false →
         ∃ errs w1 tag,
           mkFieldError "DateOfBirth" tag ∈ errs
           ∧ PatientService.UpdatePatient s patientID req (w, calls)
             = (Err (ValidationError "INVALID_PATIENT_DATA"
                       "Validation errors occurred" (errorDetails errs)),
                (w1, calls ++ [CallStruct (ReqUpdatePatient req)])))
    ∧ (∀ req w calls,
         (PatientService.CreatePatient s req (w, calls)).1
         ≠ Err inconsistentData)
    ∧ (∀ patientID req w calls,
         (PatientService.UpdatePatient s patientID req (w, calls)).1
         ≠ Err inconsistentData).
Proof.
  intros W clock isEmail repo s. split_and!.
  - apply CreatePatient_refused.
  - intros patientID req w calls _ Hdob.
    by apply UpdatePatient_refused, IsZero_zeroTime.
  - apply CreatePatient_not_inconsistent.
  - apply UpdatePatient_not_inconsistent.
Qed.

(** The request of the service test inconsistent_age_dob, born on 1
    January 1994 and said to be 25, and an update that says the same,
    on 15 June 2024: both are refused for the date of birth, not for
    the age. *)
Lemma consistency_check_is_never_reached_witness :
  (∃ errs w1 tag,
     mkFieldError "DateOfBirth" tag ∈ errs
     ∧ PatientService.UpdatePatient
         (Recorder.PatientService (production (λ _, true)
                                     (main.patientRepo memdb.queries)))
         1 (sample.patch 25 (Date 1994 1 1)) (sample.world, [])
       = (Err (ValidationError "INVALID_PATIENT_DATA"
                 "Validation errors occurred" (errorDetails errs)),
          (w1, [CallStruct
                  (ReqUpdatePatient (sample.patch 25 (Date 1994 1 1)))])))
  ∧ PatientService.UpdatePatient
      (Recorder.PatientService (production (λ _, true)
                                  (main.patientRepo memdb.queries)))
      1 (sample.patch 25 (Date 1994 1 1)) (sample.world, [])
    = (Err (ValidationError "INVALID_PATIENT_DATA"
              "Validation errors occurred"
              ["Field DateOfBirth failed validation for tag dateformat"]),
       (sample.world,
        [CallStruct (ReqUpdatePatient (sample.patch 25 (Date 1994 1 1)))]))
  ∧ PatientService.CreatePatient
      (Recorder.PatientService (production (λ _, true)
                                  (main.patientRepo memdb.queries)))
      sample.claimed (sample.world, [])
    = (Err (ValidationError "INVALID_PATIENT_DATA"
              "Validation errors occurred"
              ["Field DateOfBirth failed validation for tag dateformat";
               "Field Sex failed validation for tag oneof";
               "Field PreferredCommunication failed validation for tag oneof";
               "Field SocioeconomicStatus failed validation for tag oneof"]),
       (sample.world, [CallStruct (ReqCreatePatient sample.claimed)])).
Proof.
  destruct (consistency_check_is_never_reached memdb.World _ (λ _, true)
              (main.patientRepo memdb.queries))
    as (_ & Hupdate & _).
  split; [|split; reflexivity].
  by apply (Hupdate 1 (sample.patch 25 (Date 1994 1 1)) sample.world []).
Defined.

(** ** An update with a date of birth, an update without

    What is left of the update of a patient once the validator of the
    server has had its say: a request with a date of birth is refused,
    a request without one is merged into the stored patient unchecked. *)

Section dated_update.
Context {W : Type} `{!Clock W} (isEmail : string → bool)
        (repo : ports.PatientRepository W).

Lemma UpdatePatient_dated_reply patient_id patientID req w :
  Atoi patient_id = Some patientID →
  UpdatePatientRequest.DateOfBirth req ≠ zeroTime →
  status (handler.UpdatePatient
            {| handler.patientSvc := production isEmail repo |}
            patient_id (Ok req) w).1 = StatusBadRequest.
Proof.
  intros Hid Hne.
  destruct (InitValidator_UpdatePatient isEmail req w Hne) as [tag Hin].
  destruct (Struct (config.Validate isEmail) (ReqUpdatePatient req) w)
    as [errs w1] eqn:Hv.
  rewrite (rejected_UpdatePatient (production isEmail repo) patient_id
             patientID req w errs w1); [done|done|done|].
  intros ->. by apply elem_of_nil in Hin.
Qed.

Lemma UpdatePatient_undated patientID req w calls w1 existing w2 :
  Struct (config.Validate isEmail) (ReqUpdatePatient req) w = ([], w1) →
  ports.GetPatient repo patientID w1 = (Ok existing, w2) →
  UpdatePatientRequest.DateOfBirth req = zeroTime
  ∧ PatientService.UpdatePatient
      (Recorder.PatientService (production isEmail repo)) patientID req
      (w, calls)
    = (let merged := PatientService.merge existing req in
       let '(r, w3) := ports.UpdatePatient repo patientID merged w2 in
       (wrapUpdatePatient r,
        (w3, calls ++ [CallStruct (ReqUpdatePatient req);
                       CallGetPatient patientID;
                       CallUpdatePatient patientID merged]))).
Proof.
  intros Hv Hg.
  assert (UpdatePatientRequest.DateOfBirth req = zeroTime) as Hdob.
  { destruct (decide (UpdatePatientRequest.DateOfBirth req = zeroTime))
      as [|Hne]; [done|].
    destruct (InitValidator_UpdatePatient isEmail req w Hne) as [tag Hin].
    rewrite Hv in Hin. by apply elem_of_nil in Hin. }
  split; [done|].
  apply (UpdatePatient_unchecked (production isEmail repo) patientID req
           w calls w1 existing w2); [|done|done].
  right. by rewrite Hdob.
Qed.
End dated_update.

(** C8, at the code. The consistency check of UpdatePatient looks at
    the request only: whether an update is refused as INCONSISTENT_DATA
    is the same over every repository, whatever record is stored. An
    update that supplies a date of birth and no age does not get as far
    as the stored record: through the validator that cmd/main.go
    installs it is refused with INVALID_PATIENT_DATA, one of whose
    details names DateOfBirth, the only call made is the validation, and
    the handler answers 400, whatever age is stored. *)
Theorem date_only_update_is_refused :
  (∀ W (C : Clock W) (s : PatientService.t W)
     (repo : ports.PatientRepository W) patientID req w,
     (PatientService.UpdatePatient s patientID req w).1
       = Err inconsistentData
     ↔ (PatientService.UpdatePatient (withPatientRepo s repo) patientID req
          w).1 = Err inconsistentData)
  ∧ (∀ W (C : Clock W) (isEmail : string → bool)
       (repo : ports.PatientRepository W) patientID req w calls,
       UpdatePatientRequest.Age req = 0 →
       IsZero (UpdatePatientRequest.DateOfBirth req) = false →
       ∃ errs w1 tag,
         mkFieldError "DateOfBirth" tag ∈ errs
         ∧ PatientService.UpdatePatient
             (Recorder.PatientService (production isEmail repo)) patientID
             req (w, calls)
           = (Err (ValidationError "INVALID_PATIENT_DATA"
                     "Validation errors occurred" (errorDetails errs)),
              (w1, calls ++ [CallStruct (ReqUpdatePatient req)])))
  ∧ (∀ W (C : Clock W) (isEmail : string → bool)
       (repo : ports.PatientRepository W) patient_id patientID req w,
       Atoi patient_id = Some patientID →
       UpdatePatientRequest.Age req = 0 →
       IsZero (UpdatePatientRequest.DateOfBirth req) = false →
       status (handler.UpdatePatient
                 {| handler.patientSvc := production isEmail repo |}
                 patient_id (Ok req) w).1 = StatusBadRequest).
Proof.
  split_and!.
  - intros. apply UpdatePatient_check_ignores_store.
  - intros W C isEmail repo patientID req w calls _ Hdob.
    by apply UpdatePatient_refused, IsZero_zeroTime.
  - intros W C isEmail repo patient_id patientID req w Hid _ Hdob.
    by eapply UpdatePatient_dated_reply, IsZero_zeroTime.
Qed.

(** In the sample world patient 2, who is stored with the age 40, sends
    a new date of birth, 3 March 1990, and nothing else: the update is
    refused for the rule dateformat and the database is the one it
    was. *)
Lemma date_only_update_is_refused_witness :
  (∃ errs w1 tag,
     mkFieldError "DateOfBirth" tag ∈ errs
     ∧ PatientService.UpdatePatient
         (Recorder.PatientService sample.patientService) 2
         (sample.patch 0 (Date 1990 3 3)) (sample.world, [])
       = (Err (ValidationError "INVALID_PATIENT_DATA"
                 "Validation errors occurred" (errorDetails errs)),
          (w1, [CallStruct
                  (ReqUpdatePatient (sample.patch 0 (Date 1990 3 3)))])))
  ∧ PatientService.UpdatePatient sample.patientService 2
      (sample.patch 0 (Date 1990 3 3)) sample.world
    = (Err (ValidationError "INVALID_PATIENT_DATA"
              "Validation errors occurred"
              ["Field DateOfBirth failed validation for tag dateformat"]),
       sample.world)
  ∧ handler.UpdatePatient (patientHandler memdb.queries sample.validate) "2"
      (Ok (sample.patch 0 (Date 1990 3 3))) sample.world
    = (Send StatusBadRequest
         (ErrorBody
            ("INVALID_PATIENT_DATA: Validation errors occurred - ["
             +:+ "Field DateOfBirth failed validation for tag dateformat]")),
       sample.world).
Proof.
  destruct date_only_update_is_refused as (_ & Hrefused & _).
  split; [|split; reflexivity].
  by apply (Hrefused memdb.World _ sample.isEmail
              (main.patientRepo memdb.queries) 2
              (sample.patch 0 (Date 1990 3 3)) sample.world []).
Defined.

(** X18. With the validator of the server, an update of a patient that
    passes validation carries no date of birth: the check of the age
    against the date of birth is skipped, the stored patient is loaded
    and the merge is handed to the repository with the stored date of
    birth and, when the request supplies one, the age of the request,
    whatever the two say together. An age that differs from the age
    computed from the stored date of birth is stored beside it. *)
Theorem accepted_update_keeps_the_stored_date_of_birth :
  ∀ W (C : Clock W) (isEmail : string → bool)
    (repo : ports.PatientRepository W) patientID req w calls w1 existing w2,
    Struct (config.Validate isEmail) (ReqUpdatePatient req) w = ([], w1) →
    ports.GetPatient repo patientID w1 = (Ok existing, w2) →
    let merged := PatientService.merge existing req in
    UpdatePatientRequest.DateOfBirth req = zeroTime
    ∧ PatientService.UpdatePatient
        (Recorder.PatientService (production isEmail repo)) patientID req
        (w, calls)
      = (let '(r, w3) := ports.UpdatePatient repo patientID merged w2 in
         (wrapUpdatePatient r,
          (w3, calls ++ [CallStruct (ReqUpdatePatient req);
                         CallGetPatient patientID;
                         CallUpdatePatient patientID merged])))
    ∧ Patient.DateOfBirth merged = Patient.DateOfBirth existing
    ∧ (UpdatePatientRequest.Age req ≠ 0 →
       Patient.Age merged = UpdatePatientRequest.Age req
       ∧ ∀ now,
           UpdatePatientRequest.Age req
           ≠ expectedAge now (Patient.DateOfBirth existing) →
           Patient.Age merged
           ≠ expectedAge now (Patient.DateOfBirth merged)).
Proof.
  intros W C isEmail repo patientID req w calls w1 existing w2 Hv Hg merged.
  destruct (UpdatePatient_undated isEmail repo patientID req w calls w1
              existing w2 Hv Hg) as [Hdob Hrun].
  assert (Patient.DateOfBirth merged = Patient.DateOfBirth existing)
    as Hborn by (simpl; by rewrite Hdob).
  split_and!; [done|done|done|].
  intros Hage.
  assert (Patient.Age merged = UpdatePatientRequest.Age req) as Hnew
    by (simpl; by rewrite bool_decide_eq_true_2).
  split; [done|]. intros now Hdiffer. by rewrite Hnew, Hborn.
Qed.

(** In the sample world, on 15 June 2024, patient 1 is stored with the
    date of birth 1 January 1994 and the age 30. An update to the age 55
    is accepted: the repository is handed, and stores, that age beside
    the date of birth. *)
Lemma accepted_update_keeps_the_stored_date_of_birth_witness :
  ∃ merged stored w3,
    PatientService.UpdatePatient
      (Recorder.PatientService sample.patientService) 1
      (sample.patch 55 zeroTime) (sample.world, [])
    = (Ok stored,
       (w3, [CallStruct (ReqUpdatePatient (sample.patch 55 zeroTime));
             CallGetPatient 1;
             CallUpdatePatient 1 merged]))
    ∧ Patient.Age merged = 55
    ∧ Patient.DateOfBirth merged = Date 1994 1 1
    ∧ expectedAge (Date 2024 6 15) (Date 1994 1 1) = 30
    ∧ Patient.Age stored = 55
    ∧ Patient.DateOfBirth stored = Date 1994 1 1
    ∧ PatientService.GetPatient sample.patientService 1 w3 = (Ok stored, w3).
Proof.
  destruct (accepted_update_keeps_the_stored_date_of_birth memdb.World _
              sample.isEmail (main.patientRepo memdb.queries) 1
              (sample.patch 55 zeroTime) sample.world [] sample.world
              (PatientRepositoryImpl.convertDbPatientToDomain
                 (sample.patientRow 1 "Ada" 30 (Date 1994 1 1)
                    "ada@example.com"))
              sample.world) as (_ & Hrun & Hborn & Hage); [done..|].
  do 3 eexists. split_and!; [etransitivity; [apply Hrun|]|..]; reflexivity.
Defined.
